(* ===== verification/_CoqProject ===== *)
-Q . S2P
Prelude.v
Distance.v
Haversine.v
Geohash.v
PyString.v
PyValue.v
PySorted.v
Database.v
Sensors.v
Examples.v
Matcher.v
MatcherSteps.v
MatcherSpec.v
MatcherHaversine.v
Cities.v
Zipcodes.v
Generate.v
