(* ===== verification/Prelude.v ===== *)
(** * airq-data: a verification development for [src/build.py]

    [build.py] builds a SQLite database that links every US postal code to
    the air-quality sensors near it.  [generate] runs four steps in order:
    [refresh_data] (delete the files of an earlier run), [create_db] (four
    tables), [create_sensors] (filter the PurpleAir feed and insert the
    sensors that survive) and [create_zipcodes] (for every GeoNames postal
    code: look up or create its city, insert the postal code, and run
    [create_sensors_zipcodes], which links it to at most 25 sensors
    closer than 25 km).  Sensors and postal codes are keyed by the geohash
    of their coordinates, and the matcher finds the sensors near a postal
    code by the prefixes of its key.

    ** Files

    - [Prelude] (this file): Python exceptions as values ([py_error],
      [result], the [py_scope] notations), the [for] loop of a body that
      can raise ([for_each]) with the rule of its invariant, the same loop
      with the state that the committed rounds leave ([run_each]), the
      tactics and the hint database [airq] shared by all files, lemmas on
      lists and on the runs of a deterministic machine.
    - [Distance]: the class [DistanceFunction], the interface between
      the distance function and its client, the matcher: a type [D] of
      distances, the distance of two points, Python's [<] on [D]
      ([dist_ltb], the comparison [sorted] makes), the test
      [distance >= 25] ([dist_geb]) and the laws the matcher's theorems
      rely on.  Two instances: [grid_km] here (rational and computable:
      it is not the program's distance, and serves only to evaluate the
      matcher on concrete tables), and [haversine_R] in [Haversine].
    - [Haversine]: [haversine_distance] of [build.py] over the real
      numbers, with its functional properties (no [ValueError], the
      central angle of the two points by the spherical law of cosines,
      symmetry, zero on equal points) and the instance [haversine_R] of
      [DistanceFunction] it gives.
    - [Geohash]: [geohash.encode], a library function, as section 4.1 of
      the specification describes it: 60 bisections of the world,
      longitude first, five bits a symbol ([key_of], [encode]); the cell
      of a key ([cell_of_key]).
    - [PyString]: [str.strip], [str.split], [str.startswith], [str.join]
      and plain decimal literals, on strings as lists of characters.
    - [PyValue]: the values of a JSON record ([value], [dict]), floats
      with [inf] and [nan] ([pyfloat]), truth values, comparisons,
      [round(x, 6)] ([round6]), and the class [Conversions] for what the
      libraries do with the text of a number and with a row id.
    - [PySorted]: Python's [sorted(..., key=...)]: a stable sort that
      compares keys with [<] only, with its contract (permutation,
      ascending, stable).
    - [Database]: the schema of [create_db] as data ([schema]), the four
      tables as lists of rows in row-id order ([db]), the SQL statements
      the program executes as functions on [db] ([insert_sensors],
      [select_sensors], [insert_sensors_zipcodes], ...), with constraint
      violations as [Raise IntegrityError], and the invariant [db_ok]
      (primary keys and [UNIQUE] columns).
    - [Sensors]: [create_sensors]: the body of its loop for one record
      ([create_sensor], the tests in the order of the source, the
      exceptions caught and not caught, the [INSERT]), the loop with
      [num_created] ([create_sensors]), the records that pass the tests
      ([accepted]) and the invariant of the loop ([sensors_inv]).
    - [Examples]: the tables the witnesses run on ([sf_db]: five sensors
      around San Francisco; [many_db]: thirty sensors in one cell of
      seven symbols; [edge_sensors_at], [far_near_sensors_at],
      [single_sensor_at]: tables with parameters), with the proofs that
      they satisfy [db_ok], and the witnesses of the theorems of
      [Database].  Every row of a table that is run is [sensor_row] of
      its coordinates: it has the key that [create_sensors] stores.
    - [Matcher]: [create_sensors_zipcodes]: the [for] loop over one sorted
      batch with its two early [return]s ([for_new_sensors]) and the
      [while gh: ... gh.pop()] loop ([while_gh]), defined by well-founded
      recursion on [len(gh)].
    - [MatcherSteps]: the same two loops as a transition system: the
      relation [step] on states (control point, [gh], [sensors],
      database), the function [step_fn] that computes it, and the
      [measure] that bounds its runs.
    - [MatcherSpec]: the progressive cell-widening algorithm of the
      specification as a pure function over prefix lengths
      ([match_levels]), and the refinement theorems: the code never raises
      on a well-formed database, and the rows it inserts are exactly the
      specification's result.
    - [MatcherHaversine]: the matcher's theorems at the instance
      [haversine_R]: what is stored is the great-circle distance.
    - [Cities]: [create_city], the look-up-or-create of a city row.
    - [Zipcodes]: [get_zipcodes_from_geonames] (the parse of one line,
      [parse_line]) and [create_zipcodes] (the body for one record,
      [create_zipcode]; the loop over the lines, [create_zipcodes]), the
      invariant of the load ([loaded]) and the load as a pure function
      ([load_geonames]).
    - [Generate]: the files [airq.db], [US.zip] and [purpleair.json] as a
      record ([files]), the functions that read and write them as
      computations of a state and exception monad ([io]), and [generate].

    ** Modelling choices

    - Numbers.  Identifiers are [Z].  Coordinates are [Q]: a
      [decimal.Decimal] is a rational, and so is every finite float; the
      rounding error of float arithmetic is not modelled.  A distance is a
      value of the type [D] of the [DistanceFunction] instance in use.
    - Exceptions.  A statement that can raise returns [result]; [x <- c ;; k]
      stops at the first [Raise].  Only the exceptions the modelled
      statements can raise are constructors of [py_error].
    - Tables.  A table is the list of its rows in the order a full scan
      returns them.  [sensors] has [id INTEGER PRIMARY KEY], so its row id
      is [id] and a scan is ascending in [id]: [insert_sensors] inserts in
      that order.  The [SELECT] of the matcher has no [ORDER BY]: its
      rows come in the order of that scan, which SQLite does not promise
      and which the model assumes.  The other tables are in insertion
      order.  Foreign keys are recorded in [schema] but not enforced
      (SQLite's default).
    - The set [sensors] of [create_sensors_zipcodes] is a [gset Z].
    - Loops.  [while_gh] recurses on [removelast gh] and is total; no fuel
      is needed.  [for_new_sensors] is structural on the batch, and
      [for_each] on the list the loop runs over.
    - Libraries.  [geohash.encode] is modelled from the specification,
      with half-open cells and [InvalidCoordinate] for a point outside
      [-90 <= latitude < 90], [-180 <= longitude < 180]; python-geohash
      wraps a longitude outside the range where the model raises.
      [float(s)], [Decimal(s)] and the id that [sqlite3] binds are the
      fields of the class [Conversions]; the theorems hold for every
      instance and the witnesses run at [decimal_literals].  An integer
      [ID] is bound as it is when it has 64 bits, and raises
      [OverflowError] when it has more.
    - Time.  [datetime.now()] is read in every round of [create_sensors]:
      the clock is a function [now] from the number of the round to the
      time in seconds.
    - Generators.  [get_zipcodes_from_geonames] parses a line when
      [create_zipcodes] asks for the next record: [create_zipcodes_body]
      is the parse of one line followed by the body of the loop, and
      [parsed] relates the lines to the records they yield.
    - Files and transactions.  [get_connection] opens [airq.db] in every
      function and in every round of the two loops, and [conn.commit()]
      ends every round: the file holds what the rounds that returned have
      written, and what a round did before it raised is lost.  A file
      without the tables ([None]) makes every statement but
      [CREATE TABLE] raise [OperationalError].  The answers of the two
      servers are the record [network]: the exception of the request, or
      the body, which is what the program reads from it or the exception
      of reading it.  [get_purpleair_data] opens [purpleair.json] for
      writing before it reads the body: a body that raises leaves the
      file there, empty, and [json.load] of it raises.

    ** Theorems

    The theorems of [Matcher], [MatcherSpec], [Database], [Cities],
    [Sensors], [Zipcodes] and [Generate] are stated for every type of
    distances and every instance of [DistanceFunction] and of
    [Conversions]; their witnesses evaluate at [grid_km] and
    [decimal_literals].

    - [Geohash]: a key has 12 symbols; the cell of a prefix of the key of
      a point holds the point, and holds exactly the points whose keys
      start with the prefix; bits and symbols convert back and forth;
      key, cell membership and the row of a sensor respect the equality
      of rationals ([Proper] instances).
    - [PyString], [PyValue]: [split] and [join] are inverse on fields
      without the separator; [strip] is idempotent and leaves a stripped
      string as it is; [round6] is within half a millionth of its
      argument and respects the equality of rationals.
    - [PySorted]: the sort is a permutation, ascending, stable, and the
      only list that is all three.
    - [Database]: every statement preserves [db_ok]; [select_sensors]
      returns for keys of 1 to 12 symbols only, and then exactly the rows
      whose first [len(gh)] geohash columns are [gh] and whose id is not
      excluded, each once, ascending in [id]; the schema has a foreign
      key to a table that does not exist.
    - [Sensors]: every row that [create_sensors] adds is made from an
      accepted record and has its [ID], every accepted record becomes a
      row, the other tables stay; a record without [LastSeen] raises
      [TypeError] and one that repeats an [ID] raises [IntegrityError],
      with the rows before it committed; a PM2.5 value [nan] is accepted
      and the number 0 is skipped; the key
      of a row is that of the unrounded coordinates, which lie in every
      prefix cell of it; the prefix test of the [SELECT] is containment
      in the prefix cell.
    - [Matcher] and [MatcherSpec]: on a postal code without links
      [create_sensors_zipcodes] does not raise; on any database it raises
      [IntegrityError] exactly when the algorithm takes a sensor that was
      linked to the postal code before the pass: it never inserts a pair
      twice itself.  It preserves [db_ok],
      changes only [sensors_zipcodes], inserts at most 25 rows, each with
      [distance < 25], in the order [match_levels] gives; each batch is
      ascending in
      distance with ties in ascending id; the sequence as a whole need
      not be ascending, and a nearer sensor in a wider cell can be missed
      (section 9 of the specification); a second run for the same postal
      code raises [IntegrityError].  The theorems that need only a run
      that returns ([create_sensors_zipcodes_within_radius] and its
      neighbours) rest on the loop invariant [pass_inv]; the others on the
      refinement [create_sensors_zipcodes_spec], which also shows that the
      run returns.
    - [MatcherSteps]: [step] is deterministic and is the graph of
      [step_fn]; every transition lowers [measure], so that every run
      ends within [len(gh) * (n + 2) + 1] transitions on [n] sensors; a
      run that has ended has returned or raised what [while_gh] does; the
      invariant [pass_inv] holds in every state of a run.
    - [Cities]: [create_city] returns the id of a row with the given name
      and state, inserts at most one row, never duplicates a (name, state)
      pair and is idempotent.
    - [Zipcodes]: a line written from clean fields is parsed to its
      record; a short line raises [IndexError]; [create_zipcodes] keeps
      [loaded] and the sensors; on lines that parse to records with valid
      coordinates and distinct new postal codes it returns the database
      of [load_geonames], whose links are those of [spec_match]; a
      postal code that is there already raises [IntegrityError].
    - [Generate]: whatever the servers answer and whatever files were
      there, [airq.db] holds a [loaded] database whose sensors come from
      the feed after [generate], also when it raised
      ([generate_leaves_loaded], by the rules of [hoare]); when all goes
      well the database is [load_geonames] on the sensors of
      [create_sensors] ([generate_run]); a line that raises leaves the
      postal codes before it ([generate_bad_line]); a feed that cannot be
      read leaves an empty [purpleair.json], on which [create_sensors]
      raises without a download ([generate_bad_feed]).
    - [Haversine]: in exact arithmetic the function never raises; the
      distance is the arc of the great circle through the two points on
      a sphere of radius 6371: the angle [d / 6371] is in [0, PI] and its
      cosine is the dot product of the two unit vectors
      ([haversine_great_circle]); it is symmetric and zero between equal
      points.
    - [MatcherHaversine]: with [haversine_R], every link stores the
      great-circle distance between the postal code and a sensor of the
      table, and that distance is below 25.

    ** Bounds

    The key of a postal code has at most 12 symbols in the theorems that
    show a run returns: the [sensors] table has 12 key columns, and a
    longer key makes the [SELECT] name a column that does not exist
    ([create_sensors_zipcodes_long_key]).  [geohash.encode] is called with
    its default precision, 12, that is 60 bisections, and [key_of] always
    has 12 symbols.  Nothing else is bounded: tables, feeds and files are
    lists of any length.  Identifiers are integers; the [ID] of a record
    of the feed is bound when it has 64 bits.  The ids that SQLite
    assigns ([AUTOINCREMENT], [lastrowid]) are not bounded: a table does
    not reach [2^63] rows.  The only definition that takes fuel is
    [run_fn] of [MatcherSteps], and the [measure] of a state is enough
    fuel for its run ([run_fn_while_gh]).

    ** Not modelled

    - The libraries the program calls for its input: [requests],
      [zipfile] and [json].  What they return, or the exception they
      raise, is the input [network]; a feed is a list of JSON objects.
    - [print]: the progress lines change no state.
    - Floating point: coordinates are rationals, [haversine_distance] is
      over the reals, [round6] is exact.  In floats the argument of
      [math.asin] can exceed 1 by rounding, and [math.asin] then raises
      [ValueError]; over the reals it cannot.  A coordinate that is [nan]
      or [inf] is [InvalidCoordinate] in the model; in the program
      [geohash.encode] decides, and a [nan] that passed it would be bound
      as [NULL] and refused by [REAL NOT NULL].
    - [geohash.encode] of python-geohash itself: the model is that of
      section 4.1 of the specification.
    - Errors of the file system: [refresh_data] removes a file or finds
      that it is not there ([FileNotFoundError]); any other [OSError] of
      [os.remove], of [open] or of [sqlite3.connect] is not modelled.
      The download of [US.zip] is whole or not there: a connection that
      breaks between two chunks is not modelled.
    - Text: [line.decode()] is the identity, a line is a string of
      one-byte characters and whitespace is ASCII: [UnicodeDecodeError]
      and the whitespace of Unicode are not modelled.
    - A database file with only some of the four tables: [airq.db] holds
      all the tables or none. *)

From stdpp Require Import base list strings sorting relations.

(** ** Python exceptions as values *)

(** The exceptions the modelled statements raise. *)
Inductive py_error : Type :=
  | IntegrityError      (* sqlite3: PRIMARY KEY or UNIQUE constraint failed *)
  | OperationalError    (* sqlite3: no such column *)
  | ProgrammingError    (* sqlite3: wrong number of bindings *)
  | TypeError
  | ValueError
  | KeyError
  | IndexError
  | OverflowError
  | InvalidOperation    (* decimal: not a number *)
  | InvalidCoordinate   (* geohash: latitude or longitude out of range *)
  | ConnectionError     (* requests: no answer *)
  | HTTPError           (* requests: raise_for_status *)
  | BadZipFile          (* zipfile: not an archive *)
  | JSONDecodeError.    (* json: not a document *)

#[export] Instance py_error_eq_dec : EqDecision py_error.
Proof. solve_decision. Defined.

Inductive result (A : Type) : Type :=
  | Ok (a : A)
  | Raise (e : py_error).
Arguments Ok {A} a.
Arguments Raise {A} e.

Definition bind {A B : Type} (c : result A) (k : A -> result B) : result B :=
  match c with
  | Ok a => k a
  | Raise e => Raise e
  end.

Definition is_Ok {A : Type} (c : result A) : Prop :=
  match c with Ok _ => True | Raise _ => False end.

Declare Scope py_scope.
Delimit Scope py_scope with py.
Notation "x <- c ;; k" := (bind c (fun x => k))
  (at level 100, c at next level, right associativity) : py_scope.
Notation "c ;; k" := (bind c (fun _ => k))
  (at level 100, right associativity) : py_scope.

(** What a loop body tells its loop: go on, or the function returned. *)
Inductive loop_exit : Type := Continue | Return.

#[export] Instance loop_exit_eq_dec : EqDecision loop_exit.
Proof. solve_decision. Defined.

(** ** Lemmas on [result] *)

Section Result.
Context {A B : Type}.
Implicit Types (c : result A) (k : A -> result B).

Lemma bind_Ok_inv c k b :
  bind c k = Ok b -> exists a, c = Ok a /\ k a = Ok b.
Proof. destruct c as [a|e]; simpl; [eauto | discriminate]. Qed.

Lemma bind_Raise_inv c k e :
  bind c k = Raise e -> c = Raise e \/ exists a, c = Ok a /\ k a = Raise e.
Proof. destruct c as [a|e']; simpl; [eauto | intros [= ->]; auto]. Qed.

Lemma bind_Ok_l a k : bind (Ok a) k = k a.
Proof. reflexivity. Qed.

Lemma is_Ok_spec c : is_Ok c <-> exists a, c = Ok a.
Proof.
  destruct c; simpl; split; eauto; try tauto.
  intros [a [=]].
Qed.

Lemma is_Ok_bind c k :
  is_Ok c -> (forall a, c = Ok a -> is_Ok (k a)) -> is_Ok (bind c k).
Proof. destruct c; simpl; [eauto | tauto]. Qed.
End Result.

(** ** [for] loops

    [for x in xs: body] where the body changes a state and may raise: the
    loop stops at the first exception. *)

Fixpoint for_each {A S : Type} (body : A -> S -> result S) (xs : list A) (s : S)
    : result S :=
  match xs with
  | [] => Ok s
  | x :: xs' => bind (body x s) (for_each body xs')
  end.

(** [enumerate(xs)]. *)
Definition enumerate {A : Type} (xs : list A) : list (nat * A) :=
  imap (fun i x => (i, x)) xs.

Lemma elem_of_enumerate {A : Type} (xs : list A) i x :
  (i, x) ∈ enumerate xs <-> xs !! i = Some x.
Proof.
  unfold enumerate. rewrite elem_of_lookup_imap. split.
  - by intros (j & y & [= -> ->] & ?).
  - intros ?. by exists i, x.
Qed.

Lemma enumerate_snd {A : Type} (xs : list A) : (enumerate xs).*2 = xs.
Proof.
  unfold enumerate. rewrite fmap_imap.
  by rewrite (imap_const id), list_fmap_id.
Qed.

Lemma enumerate_app {A : Type} (xs ys : list A) :
  enumerate (xs ++ ys)
  = enumerate xs ++ ((fun iy => (length xs + iy.1, iy.2)) <$> enumerate ys).
Proof.
  unfold enumerate. rewrite imap_app. f_equal.
  by rewrite fmap_imap.
Qed.

Lemma length_enumerate {A : Type} (xs : list A) :
  length (enumerate xs) = length xs.
Proof. apply length_imap. Qed.

Section ForEach.
Context {A S : Type}.
Implicit Types (body : A -> S -> result S) (xs : list A) (s : S).

Lemma for_each_app body xs1 xs2 s :
  for_each body (xs1 ++ xs2) s
  = bind (for_each body xs1 s) (for_each body xs2).
Proof.
  revert s. induction xs1 as [|x xs1 IH]; intros s; simpl; [done|].
  destruct (body x s); simpl; [apply IH | done].
Qed.

(** The rule of the loop invariant: what holds before the loop and is kept
    by every round that returns, holds after a loop that returns.  The
    invariant may speak of the elements consumed so far. *)
Lemma for_each_inv_from (I : list A -> S -> Prop) body done xs s s' :
  I done s ->
  (forall done' x s1 s2,
     x ∈ xs -> I done' s1 -> body x s1 = Ok s2 -> I (done' ++ [x]) s2) ->
  for_each body xs s = Ok s' ->
  I (done ++ xs) s'.
Proof.
  revert done s. induction xs as [|x xs IH]; intros done s H0 Hstep; simpl.
  - intros [= <-]. by rewrite app_nil_r.
  - intros (s1 & E & Hrun)%bind_Ok_inv. rewrite cons_middle, app_assoc.
    apply (IH _ s1); [apply (Hstep _ _ s); [left | done..] | | done].
    intros done' y s2 s3 Hy. apply Hstep. by right.
Qed.

Lemma for_each_inv (I : list A -> S -> Prop) body xs s s' :
  I [] s ->
  (forall done x s1 s2,
     x ∈ xs -> I done s1 -> body x s1 = Ok s2 -> I (done ++ [x]) s2) ->
  for_each body xs s = Ok s' ->
  I xs s'.
Proof. intros H0 Hstep Hrun. by apply (for_each_inv_from I body [] xs s s'). Qed.

(** An invariant of the state alone. *)
Lemma for_each_preserves (P : S -> Prop) body xs s s' :
  P s ->
  (forall x s1 s2, x ∈ xs -> P s1 -> body x s1 = Ok s2 -> P s2) ->
  for_each body xs s = Ok s' ->
  P s'.
Proof.
  intros H0 Hstep. apply (for_each_inv (fun _ => P)); [done|].
  intros _ x s1 s2. apply Hstep.
Qed.

(** A loop whose rounds all return, returns. *)
Lemma for_each_is_Ok (P : S -> Prop) body xs s :
  P s ->
  (forall x s1, x ∈ xs -> P s1 -> exists s2, body x s1 = Ok s2 /\ P s2) ->
  exists s', for_each body xs s = Ok s' /\ P s'.
Proof.
  revert s. induction xs as [|x xs IH]; intros s H0 Hstep; simpl; [eauto|].
  destruct (Hstep x s) as (s1 & -> & H1); [left | done |]. simpl.
  apply IH; [done|]. intros y s2 Hy. apply Hstep. by right.
Qed.

(** A loop raises what the first round that raises does. *)
Lemma for_each_Raise body xs1 x xs2 s s1 e :
  for_each body xs1 s = Ok s1 -> body x s1 = Raise e ->
  for_each body (xs1 ++ x :: xs2) s = Raise e.
Proof. intros H1 Hx. rewrite for_each_app, H1. simpl. by rewrite Hx. Qed.

(** ** Loops that commit *)

(** A loop whose body commits what it did before it returns: the state
    that the rounds that returned have left, and the exception that ended
    the loop, if one did.  What a round did before it raised is lost. *)
Fixpoint run_each (body : A -> S -> result S) (xs : list A) (s : S)
    : S * option py_error :=
  match xs with
  | [] => (s, None)
  | x :: xs' =>
      match body x s with
      | Ok s' => run_each body xs' s'
      | Raise e => (s, Some e)
      end
  end.

Lemma run_each_None body xs s s' :
  run_each body xs s = (s', None) <-> for_each body xs s = Ok s'.
Proof.
  revert s. induction xs as [|x xs IH]; intros s; simpl.
  - split; by intros [= ->].
  - destruct (body x s); simpl; [apply IH | split; discriminate].
Qed.

(** A loop that raised did so in a round that followed rounds that
    returned, and left their state. *)
Lemma run_each_Some body xs s s1 e :
  run_each body xs s = (s1, Some e) <->
  exists xs1 x xs2,
    xs = xs1 ++ x :: xs2 /\ for_each body xs1 s = Ok s1
    /\ body x s1 = Raise e.
Proof.
  revert s. induction xs as [|x xs IH]; intros s; simpl.
  - split; [discriminate | by intros ([|??] & ? & ? & ? & _)].
  - destruct (body x s) as [s2|e2] eqn:Hx; rewrite ?IH; split.
    + intros (xs1 & y & xs2 & -> & H1 & Hy).
      exists (x :: xs1), y, xs2. simpl. by rewrite Hx.
    + intros ([|x' xs1] & y & xs2 & [= <- ->] & H1 & Hy); simpl in H1.
      * congruence.
      * rewrite Hx in H1. by exists xs1, y, xs2.
    + intros [= <- <-]. by exists [], x, xs.
    + intros ([|x' xs1] & y & xs2 & [= <- ->] & H1 & Hy); simpl in H1.
      * congruence.
      * by rewrite Hx in H1.
Qed.

Lemma run_each_Raise body xs s e :
  for_each body xs s = Raise e <-> exists s1, run_each body xs s = (s1, Some e).
Proof.
  revert s. induction xs as [|x xs IH]; intros s; simpl.
  - split; [discriminate | by intros [? [=]]].
  - destruct (body x s) as [s2|e2]; simpl; [apply IH|].
    split; [intros [= ->]; eauto | by intros [? [= _ ->]]].
Qed.

(** What every round keeps holds of the state that the loop leaves, also
    when it raised. *)
Lemma run_each_preserves (P : S -> Prop) body xs s :
  P s ->
  (forall x s1 s2, x ∈ xs -> P s1 -> body x s1 = Ok s2 -> P s2) ->
  P (run_each body xs s).1.
Proof.
  revert s. induction xs as [|x xs IH]; intros s H0 Hstep; simpl; [done|].
  destruct (body x s) as [s2|e] eqn:Hx; [|done].
  apply IH; [apply (Hstep x s); [left | done..]|].
  intros y s1 s3 Hy. apply Hstep. by right.
Qed.

End ForEach.

(** ** Runs of a deterministic machine *)

(** A run of a deterministic machine ends in one state. *)
Lemma rtc_nf_deterministic {A : Type} (R : relation A) x y z :
  (forall a b c, R a b -> R a c -> b = c) ->
  rtc R x y -> nf R y -> rtc R x z -> nf R z -> y = z.
Proof.
  intros Hdet Hy Hnfy. revert z.
  induction Hy as [x|x x1 y Hx1 Hy IH]; intros z Hz Hnfz.
  - destruct Hz as [|x x2 z Hx2 _]; [done|]. destruct Hnfy. by exists x2.
  - destruct Hz as [|x x2 z Hx2 Hz]; [destruct Hnfz; by exists x1|].
    rewrite (Hdet _ _ _ Hx2 Hx1) in Hz. by apply IH.
Qed.

(** A machine whose transitions lower a measure makes no more transitions
    than the measure of the state it starts in, and every run ends. *)
Section Measure.
Context {A : Type} (R : relation A) (measure : A -> nat).
Hypothesis R_measure : forall a b, R a b -> measure b < measure a.

Lemma nsteps_measure n a b : nsteps R n a b -> n + measure b <= measure a.
Proof.
  induction 1 as [|n a a1 b Ha _ IH]; [done|].
  apply R_measure in Ha. lia.
Qed.

Lemma sn_measure a : sn R a.
Proof.
  remember (measure a) as m eqn:Hm. revert a Hm.
  induction m as [m IH] using lt_wf_ind. intros a ->.
  constructor. intros b Hb. by apply (IH (measure b)); [apply R_measure|].
Qed.

End Measure.

(** ** Automation *)

Create HintDb airq discriminated.
#[export] Hint Constants Opaque : airq.
#[export] Hint Variables Opaque : airq.

(** [inv_ok] takes apart every hypothesis that says a sequence of statements
    returned normally. *)
Ltac inv_ok :=
  repeat match goal with
    | H : bind _ _ = Ok _ |- _ =>
        let a := fresh "v" in
        let E := fresh "E" in
        apply bind_Ok_inv in H; destruct H as (a & E & H)
    end;
  simplify_eq.

(** [case_if] splits on the test of the first [if] or [match] of the goal
    or of a hypothesis. *)
Ltac case_if :=
  match goal with
  | |- context [if ?b then _ else _] => destruct b eqn:?
  | H : context [if ?b then _ else _] |- _ => destruct b eqn:?
  end.

(** ** Lemmas on lists *)

Section Lists.
Context {A : Type}.
Implicit Types (x : A) (l : list A).

(** [gh.pop()] shortens a non-empty list. *)
Lemma removelast_length_lt x l :
  length (removelast (x :: l)) < length (x :: l).
Proof.
  revert x; induction l as [|y l IH]; intros x; simpl in *; [lia|].
  specialize (IH y); lia.
Qed.

Lemma removelast_length l : length (removelast l) = pred (length l).
Proof.
  induction l as [|x [|y l] IH]; simpl in *; try reflexivity.
  rewrite IH; reflexivity.
Qed.

(** [gh.pop()] on a list of [S n] elements keeps the first [n]. *)
Lemma removelast_take l : removelast l = take (pred (length l)) l.
Proof. apply removelast_firstn_len. Qed.

Lemma take_removelast n l :
  n < length l -> take n (removelast l) = take n l.
Proof. apply firstn_removelast. Qed.

Lemma removelast_take_S n l :
  n < length l -> removelast (take (S n) l) = take n l.
Proof. apply removelast_firstn. Qed.

Lemma Forall_list_filter (P : A -> Prop) (f : A -> bool) l :
  Forall P l -> Forall P (List.filter f l).
Proof.
  induction 1 as [|x l Hx Hl IH]; simpl; [constructor|].
  destruct (f x); auto.
Qed.

Lemma Forall_list_filter_true (f : A -> bool) l :
  Forall (fun x => f x = true) (List.filter f l).
Proof.
  induction l as [|x l IH]; simpl; [constructor|].
  destruct (f x) eqn:E; auto.
Qed.

Lemma NoDup_fmap_filter {B : Type} (g : A -> B) (f : A -> bool) l :
  NoDup (g <$> l) -> NoDup (g <$> List.filter f l).
Proof.
  induction l as [|x l IH]; simpl; [auto|].
  rewrite NoDup_cons. intros [Hx Hl].
  destruct (f x); simpl; auto.
  rewrite NoDup_cons; split; auto.
  intros (y & Ey & Hy)%list_elem_of_fmap; apply Hx.
  apply list_elem_of_fmap; exists y; split; [done|].
  apply list_elem_of_In, filter_In in Hy as [Hy _].
  by apply list_elem_of_In.
Qed.

Lemma StronglySorted_mono (R1 R2 : relation A) l :
  (forall x y, R1 x y -> R2 x y) -> StronglySorted R1 l -> StronglySorted R2 l.
Proof.
  intros HR. induction 1 as [|x l Hl IH Hx]; constructor; [done|].
  eapply Forall_impl; [exact Hx | auto].
Qed.

Lemma StronglySorted_True l : StronglySorted (fun _ _ : A => True) l.
Proof. induction l; constructor; [done|]. by apply Forall_true. Qed.

Lemma StronglySorted_list_filter (R : relation A) (f : A -> bool) l :
  StronglySorted R l -> StronglySorted R (List.filter f l).
Proof.
  induction 1 as [|x l Hl IH Hx]; simpl; [constructor|].
  destruct (f x); [|done]. constructor; [done|].
  by apply Forall_list_filter.
Qed.

Lemma NoDup_fmap_snoc {B : Type} (f : A -> B) l x :
  NoDup (f <$> l) -> f x ∉ f <$> l -> NoDup (f <$> (l ++ [x])).
Proof.
  intros Hl Hx. rewrite fmap_app. apply NoDup_app. split; [done|].
  split; [|apply NoDup_singleton].
  intros y Hy [->|[]%elem_of_nil]%elem_of_cons. done.
Qed.

(** Where the values of [f] are distinct, [f] is injective on the list. *)
Lemma NoDup_fmap_eq {B : Type} (f : A -> B) l x y :
  NoDup (f <$> l) -> x ∈ l -> y ∈ l -> f x = f y -> x = y.
Proof.
  induction l as [|z l IH]; simpl; [by intros _ ?%elem_of_nil|].
  rewrite NoDup_cons. intros [Hz Hl] [->|Hx]%elem_of_cons [->|Hy]%elem_of_cons E;
    [done | | | by apply IH].
  - destruct Hz. rewrite E. by apply list_elem_of_fmap_2.
  - destruct Hz. rewrite <- E. by apply list_elem_of_fmap_2.
Qed.

Lemma find_app_None (f : A -> bool) l k :
  List.find f l = None -> List.find f (l ++ k) = List.find f k.
Proof.
  induction l as [|x l IH]; simpl; [done|]. by destruct (f x).
Qed.

Lemma Forall_snoc (P : A -> Prop) l x :
  Forall P l -> P x -> Forall P (l ++ [x]).
Proof. intros Hl Hx. apply Forall_app. by repeat constructor. Qed.
End Lists.

Lemma StronglySorted_lt_NoDup (l : list Z) :
  StronglySorted Z.lt l -> NoDup l.
Proof.
  induction 1 as [|x l Hl IH Hx]; constructor; [|done].
  intros Hin. apply (proj1 (Forall_forall _ _) Hx) in Hin. lia.
Qed.

#[export] Hint Resolve Forall_list_filter Forall_list_filter_true : airq.


Lemma length_list_ascii_of_string (s : string) :
  length (String.list_ascii_of_string s) = String.length s.
Proof. induction s as [|a s IH]; simpl; [done | by rewrite IH]. Qed.
