(* ===== verification/Distance.v ===== *)
(** * Distance: the interface between the distance function and the matcher

    [create_sensors_zipcodes] uses the result of [haversine_distance] in
    two ways only: as the sort key of [sorted], which compares keys with
    [<], and in the test [distance >= 25].  The class [DistanceFunction]
    is that interface: the function, the two comparisons, and the laws of
    an order that floats other than NaN, rationals and reals all satisfy.
    The matcher's theorems are proved for every instance.  The instance
    [grid_km] below is executable; the great-circle instance is in
    [Haversine]. *)

From Stdlib Require Import QArith Qabs ZArith Bool Lqa.

Class DistanceFunction (D : Type) : Type := {
  (** [distance lon1 lat1 lon2 lat2], in kilometres; the argument order is
      that of [haversine_distance]. *)
  distance : Q -> Q -> Q -> Q -> D;
  (** Python's [a < b] on two distances. *)
  dist_ltb : D -> D -> bool;
  (** Python's [a >= n] for a distance and an integer literal. *)
  dist_geb : D -> Z -> bool;
  dist_ltb_irrefl : forall a, dist_ltb a a = false;
  dist_ltb_trans : forall a b c,
    dist_ltb a b = true -> dist_ltb b c = true -> dist_ltb a c = true;
  dist_ltb_cotrans : forall a b c,
    dist_ltb a c = true -> dist_ltb a b = true \/ dist_ltb b c = true;
  dist_geb_mono : forall a b n,
    dist_geb a n = true -> dist_ltb b a = false -> dist_geb b n = true
}.

(** [a <= b] is [not (b < a)]: the order in which [sorted] leaves two keys. *)
Definition dist_leb {D : Type} `{DistanceFunction D} (a b : D) : bool :=
  negb (dist_ltb b a).

Section Laws.
Context {D : Type} `{DistanceFunction D}.
Implicit Types a b c : D.

Lemma dist_leb_refl a : dist_leb a a = true.
Proof. unfold dist_leb. now rewrite dist_ltb_irrefl. Qed.

Lemma dist_leb_total a b : dist_leb a b = true \/ dist_leb b a = true.
Proof.
  unfold dist_leb.
  destruct (dist_ltb b a) eqn:Eba; [right | now left].
  destruct (dist_ltb a b) eqn:Eab; [|reflexivity].
  pose proof (dist_ltb_trans _ _ _ Eab Eba) as E.
  rewrite dist_ltb_irrefl in E; discriminate.
Qed.

Lemma dist_leb_trans a b c :
  dist_leb a b = true -> dist_leb b c = true -> dist_leb a c = true.
Proof.
  unfold dist_leb. rewrite !negb_true_iff. intros Hba Hcb.
  destruct (dist_ltb c a) eqn:Eca; [|reflexivity].
  destruct (dist_ltb_cotrans _ b _ Eca); congruence.
Qed.

Lemma dist_ltb_leb a b : dist_ltb a b = true -> dist_leb a b = true.
Proof.
  intros Hab. unfold dist_leb. destruct (dist_ltb b a) eqn:Eba; [|reflexivity].
  pose proof (dist_ltb_trans _ _ _ Hab Eba) as E.
  rewrite dist_ltb_irrefl in E; discriminate.
Qed.

Lemma dist_ltb_false_leb a b : dist_ltb a b = false -> dist_leb b a = true.
Proof. unfold dist_leb. now intros ->. Qed.

(** Within the radius is downward closed. *)
Lemma dist_geb_false_leb a b n :
  dist_geb b n = false -> dist_leb a b = true -> dist_geb a n = false.
Proof.
  unfold dist_leb. rewrite negb_true_iff. intros Hb Hab.
  destruct (dist_geb a n) eqn:Ea; [|reflexivity].
  rewrite (dist_geb_mono _ _ _ Ea Hab) in Hb; discriminate.
Qed.
End Laws.

(** ** An executable instance

    [grid_km] measures along the grid of meridians and parallels, 111 km to
    the degree.  It is not the distance the program computes: it is the
    instance with which the matcher is run on concrete tables inside the
    kernel. *)

Definition Qltb (a b : Q) : bool := negb (Qle_bool b a).

Lemma Qltb_lt a b : Qltb a b = true <-> (a < b)%Q.
Proof.
  unfold Qltb. rewrite negb_true_iff, <- not_true_iff_false, Qle_bool_iff.
  split; [apply Qnot_le_lt | apply Qlt_not_le].
Qed.

Lemma Qltb_ge a b : Qltb a b = false <-> (b <= a)%Q.
Proof. unfold Qltb. now rewrite negb_false_iff, Qle_bool_iff. Qed.

Definition grid_km_distance (lon1 lat1 lon2 lat2 : Q) : Q :=
  (111 * (Qabs (lat2 - lat1) + Qabs (lon2 - lon1)))%Q.

#[export, refine] Instance grid_km : DistanceFunction Q := {
  distance := grid_km_distance;
  dist_ltb := Qltb;
  dist_geb := fun a n => Qle_bool (inject_Z n) a
}.
Proof.
  - intros a. apply Qltb_ge, Qle_refl.
  - intros a b c. rewrite !Qltb_lt. apply Qlt_trans.
  - intros a b c. rewrite !Qltb_lt. intros Hac.
    destruct (Qlt_le_dec a b) as [Hab|Hba]; [now left | right].
    eapply Qle_lt_trans; eassumption.
  - intros a b n. rewrite Qltb_ge, !Qle_bool_iff. apply Qle_trans.
Defined.
