(* ===== verification/Haversine.v ===== *)
(** * Haversine: [haversine_distance]

    The great-circle distance of [build.py] over the real numbers: floats
    are read as the reals they stand for, and [math.sin], [math.cos],
    [math.asin] and [math.sqrt] as the functions they approximate.
    [math.sqrt] and [math.asin] raise [ValueError] outside their domains;
    [haversine_distance] keeps those two tests, and [haversine_total] shows
    that in exact arithmetic neither fires, for any arguments.  Rounding is
    not modelled: in floats the argument of [math.asin] can exceed 1 by an
    ulp for points that are nearly antipodal.  [haversine_great_circle]
    shows what the formula computes: the central angle of the two points,
    whose cosine is the dot product of their unit vectors, times the
    radius.

    The instance [haversine_R] makes the matcher's theorems speak of this
    distance. *)

From Stdlib Require Import Reals Lra QArith Qreals.
From S2P Require Import Prelude Distance.
Local Open Scope R_scope.

(** [math.radians]. *)
Definition radians (x : R) : R := x * (PI / 180).

(** [a] of the haversine formula, from the arguments in degrees. *)
Definition haversine_a (lon1 lat1 lon2 lat2 : R) : R :=
  let lon1 := radians lon1 in
  let lat1 := radians lat1 in
  let lon2 := radians lon2 in
  let lat2 := radians lat2 in
  let dlon := lon2 - lon1 in
  let dlat := lat2 - lat1 in
  sin (dlat / 2) ^ 2 + cos lat1 * cos lat2 * sin (dlon / 2) ^ 2.

(** [c * r] with [c = 2 * asin(sqrt(a))] and [r = 6371]. *)
Definition haversine_km (lon1 lat1 lon2 lat2 : R) : R :=
  2 * asin (sqrt (haversine_a lon1 lat1 lon2 lat2)) * 6371.

(** [haversine_distance(lon1, lat1, lon2, lat2)], with the domain errors of
    [math.sqrt] and [math.asin]. *)
Definition haversine_distance (lon1 lat1 lon2 lat2 : R) : result R :=
  let a := haversine_a lon1 lat1 lon2 lat2 in
  if Rlt_dec a 0 then Raise ValueError
  else if Rlt_dec 1 (sqrt a) then Raise ValueError
  else Ok (2 * asin (sqrt a) * 6371).

(** Python's comparisons on two floats, on the reals. *)
Definition Rltb (a b : R) : bool := if Rlt_dec a b then true else false.
Definition Rleb (a b : R) : bool := if Rle_dec a b then true else false.

(** ** Trigonometry *)

Lemma cos_cos_half (x y : R) :
  cos x * cos y = cos ((y - x) / 2) ^ 2 - sin ((x + y) / 2) ^ 2.
Proof.
  set (u := (y - x) / 2). set (v := (x + y) / 2).
  replace x with (v - u) by (unfold u, v; lra).
  replace y with (v + u) by (unfold u, v; lra).
  rewrite cos_minus, cos_plus.
  pose proof (sin2_cos2 u) as Hu. pose proof (sin2_cos2 v) as Hv.
  unfold Rsqr in Hu, Hv. nra.
Qed.

Lemma sin_pow2_bounds (x : R) : 0 <= sin x ^ 2 <= 1.
Proof. pose proof (SIN_bound x). nra. Qed.

Lemma cos_pow2_bounds (x : R) : 0 <= cos x ^ 2 <= 1.
Proof. pose proof (COS_bound x). nra. Qed.

(** [a] is a convex combination of two squares. *)
Lemma haversine_a_convex (lon1 lat1 lon2 lat2 : R) :
  let u := (radians lat2 - radians lat1) / 2 in
  let v := (radians lat1 + radians lat2) / 2 in
  let s := sin ((radians lon2 - radians lon1) / 2) ^ 2 in
  haversine_a lon1 lat1 lon2 lat2 = sin u ^ 2 * (1 - s) + s * cos v ^ 2.
Proof.
  intros u v s. unfold haversine_a. cbv zeta. rewrite cos_cos_half.
  fold u v s.
  assert (cos u ^ 2 - sin v ^ 2 = cos v ^ 2 - sin u ^ 2) as ->; [|ring].
  pose proof (sin2_cos2 u) as Hu. pose proof (sin2_cos2 v) as Hv.
  unfold Rsqr in Hu, Hv. lra.
Qed.

Lemma haversine_a_bounds (lon1 lat1 lon2 lat2 : R) :
  0 <= haversine_a lon1 lat1 lon2 lat2 <= 1.
Proof.
  rewrite haversine_a_convex. cbv zeta.
  pose proof (sin_pow2_bounds ((radians lat2 - radians lat1) / 2)).
  pose proof (sin_pow2_bounds ((radians lon2 - radians lon1) / 2)).
  pose proof (cos_pow2_bounds ((radians lat1 + radians lat2) / 2)).
  nra.
Qed.

Lemma sqrt_haversine_a_bounds (lon1 lat1 lon2 lat2 : R) :
  0 <= sqrt (haversine_a lon1 lat1 lon2 lat2) <= 1.
Proof.
  destruct (haversine_a_bounds lon1 lat1 lon2 lat2) as [H0 H1].
  split; [apply sqrt_pos|]. rewrite <- sqrt_1. now apply sqrt_le_1_alt.
Qed.

Lemma asin_nonneg (x : R) : 0 <= x <= 1 -> 0 <= asin x.
Proof.
  intros Hx. destruct (Rle_or_lt 0 (asin x)) as [|Hneg]; [assumption|].
  pose proof (asin_bound x) as [Hlo _]. pose proof PI_RGT_0.
  assert (sin (asin x) < 0) as Hsin by (apply sin_lt_0_var; lra).
  rewrite sin_asin in Hsin by lra. lra.
Qed.

Lemma sin_half_sym (x y : R) : sin ((x - y) / 2) ^ 2 = sin ((y - x) / 2) ^ 2.
Proof.
  replace ((x - y) / 2) with (- ((y - x) / 2)) by lra.
  rewrite sin_neg. ring.
Qed.

(** ** The function *)

Lemma haversine_a_sym (lon1 lat1 lon2 lat2 : R) :
  haversine_a lon1 lat1 lon2 lat2 = haversine_a lon2 lat2 lon1 lat1.
Proof.
  unfold haversine_a. cbv zeta.
  rewrite (sin_half_sym (radians lat2)), (sin_half_sym (radians lon2)). ring.
Qed.

Lemma haversine_a_same (lon lat : R) : haversine_a lon lat lon lat = 0.
Proof.
  unfold haversine_a. cbv zeta.
  replace ((radians lat - radians lat) / 2) with 0 by lra.
  replace ((radians lon - radians lon) / 2) with 0 by lra.
  rewrite sin_0. ring.
Qed.

Lemma haversine_distance_Ok (lon1 lat1 lon2 lat2 : R) :
  haversine_distance lon1 lat1 lon2 lat2 = Ok (haversine_km lon1 lat1 lon2 lat2).
Proof.
  unfold haversine_distance, haversine_km. cbv zeta.
  destruct (haversine_a_bounds lon1 lat1 lon2 lat2) as [H0 _].
  destruct (sqrt_haversine_a_bounds lon1 lat1 lon2 lat2) as [_ H1].
  destruct (Rlt_dec _ 0); [lra|]. destruct (Rlt_dec 1 _); [lra | reflexivity].
Qed.

Lemma haversine_km_bounds (lon1 lat1 lon2 lat2 : R) :
  0 <= haversine_km lon1 lat1 lon2 lat2 <= 6371 * PI.
Proof.
  unfold haversine_km.
  pose proof (sqrt_haversine_a_bounds lon1 lat1 lon2 lat2) as Hs.
  pose proof (asin_nonneg _ Hs). pose proof (asin_bound (sqrt (haversine_a lon1 lat1 lon2 lat2))).
  lra.
Qed.

Lemma haversine_distance_same (lon lat : R) :
  haversine_distance lon lat lon lat = Ok 0.
Proof.
  rewrite haversine_distance_Ok. unfold haversine_km.
  rewrite haversine_a_same, sqrt_0, asin_0. f_equal. ring.
Qed.

(** ** The central angle *)

(** [c] of the formula: twice the arcsine of the root of [a]. *)
Lemma central_angle_km (lon1 lat1 lon2 lat2 : R) :
  haversine_km lon1 lat1 lon2 lat2 / 6371
  = 2 * asin (sqrt (haversine_a lon1 lat1 lon2 lat2)).
Proof. unfold haversine_km. field. Qed.

Lemma central_angle_bounds (lon1 lat1 lon2 lat2 : R) :
  0 <= 2 * asin (sqrt (haversine_a lon1 lat1 lon2 lat2)) <= PI.
Proof.
  pose proof (sqrt_haversine_a_bounds lon1 lat1 lon2 lat2) as Hs.
  pose proof (asin_nonneg _ Hs).
  pose proof (asin_bound (sqrt (haversine_a lon1 lat1 lon2 lat2))). lra.
Qed.

(** [cos c = 1 - 2 a]. *)
Lemma cos_central_angle (lon1 lat1 lon2 lat2 : R) :
  cos (2 * asin (sqrt (haversine_a lon1 lat1 lon2 lat2)))
  = 1 - 2 * haversine_a lon1 lat1 lon2 lat2.
Proof.
  destruct (haversine_a_bounds lon1 lat1 lon2 lat2) as [H0 _].
  pose proof (sqrt_haversine_a_bounds lon1 lat1 lon2 lat2) as Hs.
  rewrite cos_2a_sin, sin_asin by lra.
  rewrite Rmult_assoc, sqrt_sqrt by assumption. reflexivity.
Qed.

Lemma cos_half (x : R) : cos x = 1 - 2 * sin (x / 2) ^ 2.
Proof.
  replace x with (2 * (x / 2)) at 1 by lra. rewrite cos_2a_sin. ring.
Qed.

(** [1 - 2 a] is the dot product of the two unit vectors. *)
Lemma haversine_a_law_of_cosines (lon1 lat1 lon2 lat2 : R) :
  1 - 2 * haversine_a lon1 lat1 lon2 lat2
  = sin (radians lat1) * sin (radians lat2)
    + cos (radians lat1) * cos (radians lat2)
      * cos (radians lon2 - radians lon1).
Proof.
  unfold haversine_a. cbv zeta.
  rewrite (cos_half (radians lon2 - radians lon1)).
  pose proof (cos_half (radians lat2 - radians lat1)) as Hlat.
  rewrite cos_minus in Hlat. lra.
Qed.

(** ** Properties *)

(** C39: in exact arithmetic [haversine_distance] raises no [ValueError]:
    the argument of [math.sqrt] is never negative and that of [math.asin]
    never above 1, whatever the coordinates. *)
Theorem haversine_total (lon1 lat1 lon2 lat2 : R) :
  0 <= haversine_a lon1 lat1 lon2 lat2 <= 1 /\
  haversine_distance lon1 lat1 lon2 lat2 = Ok (haversine_km lon1 lat1 lon2 lat2).
Proof. split; [apply haversine_a_bounds | apply haversine_distance_Ok]. Qed.

(** [haversine_distance] is symmetric in the two points. *)
Theorem haversine_symmetric (lon1 lat1 lon2 lat2 : R) :
  haversine_distance lon1 lat1 lon2 lat2 = haversine_distance lon2 lat2 lon1 lat1.
Proof.
  rewrite !haversine_distance_Ok. unfold haversine_km.
  now rewrite haversine_a_sym.
Qed.

(** The distance from a point to itself is 0. *)
Theorem haversine_same_point (lon lat : R) :
  haversine_distance lon lat lon lat = Ok 0.
Proof. apply haversine_distance_same. Qed.

(** C25: the distance is the length of the great-circle arc on the sphere
    of radius 6371 km.  The angle [d / 6371] lies between 0 and [PI], and
    its cosine is the dot product of the unit vectors of the two points
    (the spherical law of cosines): the haversine formula computes the
    central angle of the two points, for any coordinates in degrees. *)
Theorem haversine_great_circle (lon1 lat1 lon2 lat2 d : R) :
  haversine_distance lon1 lat1 lon2 lat2 = Ok d ->
  0 <= d / 6371 <= PI
  /\ cos (d / 6371)
     = sin (radians lat1) * sin (radians lat2)
       + cos (radians lat1) * cos (radians lat2)
         * cos (radians lon2 - radians lon1).
Proof.
  rewrite haversine_distance_Ok. intros [= <-]. rewrite central_angle_km.
  split; [apply central_angle_bounds|].
  rewrite cos_central_angle. apply haversine_a_law_of_cosines.
Qed.

Lemma haversine_great_circle_witness :
  0 <= haversine_km 0 0 0 90 / 6371 <= PI
  /\ cos (haversine_km 0 0 0 90 / 6371)
     = sin (radians 0) * sin (radians 90)
       + cos (radians 0) * cos (radians 90) * cos (radians 0 - radians 0).
Proof.
  exact (haversine_great_circle 0 0 0 90 _ (haversine_distance_Ok 0 0 0 90)).
Defined.

(** ** The instance of the matcher's interface *)

Lemma Rltb_lt (a b : R) : Rltb a b = true <-> a < b.
Proof. unfold Rltb. destruct (Rlt_dec a b); split; easy. Qed.

Lemma Rltb_ge (a b : R) : Rltb a b = false <-> b <= a.
Proof.
  unfold Rltb. destruct (Rlt_dec a b); split; try easy; lra.
Qed.

Lemma Rleb_le (a b : R) : Rleb a b = true <-> a <= b.
Proof. unfold Rleb. destruct (Rle_dec a b); split; easy. Qed.

#[export, refine] Instance haversine_R : DistanceFunction R := {
  distance lon1 lat1 lon2 lat2 :=
    haversine_km (Q2R lon1) (Q2R lat1) (Q2R lon2) (Q2R lat2);
  dist_ltb := Rltb;
  dist_geb a n := Rleb (IZR n) a
}.
Proof.
  - intros a. apply Rltb_ge. lra.
  - intros a b c. rewrite !Rltb_lt. lra.
  - intros a b c. rewrite !Rltb_lt. intros Hac.
    destruct (Rlt_le_dec a b); [now left | right; lra].
  - intros a b n. rewrite Rltb_ge, !Rleb_le. lra.
Defined.
