(* ===== verification/Geohash.v ===== *)
(** * Geohash: [geohash.encode]

    [build.py] calls [geohash.encode(latitude, longitude)] of the
    python-geohash library for the key of a sensor and of a postal code.
    The library is not part of the repository; this file states the
    encoding as the specification describes it (section 4.1, SpatialKey):
    the world is bisected 60 times, longitude first, each bit says which
    half holds the point, and five bits make one symbol of the base-32
    alphabet.  Cells are half-open: a cell holds its lower bounds and not
    its upper bounds, and a valid point has [-90 <= latitude < 90] and
    [-180 <= longitude < 180].

    The lemmas say what a key means: the cell of a prefix of the key of a
    point holds the point, and it holds exactly the points whose keys
    start with that prefix.  The key is a function of the point: it
    respects the equality of rationals. *)

From Stdlib Require Import QArith Ascii Lia Lqa Morphisms.
From stdpp Require Import base list strings.
From S2P Require Import Prelude Distance.

(** ** Cells *)

Record cell : Type := Cell {
  lon_lo : Q;
  lon_hi : Q;
  lat_lo : Q;
  lat_hi : Q
}.

Definition world : cell := Cell (-180) 180 (-90) 90.

(** The point is in the cell. *)
Definition contains (c : cell) (longitude latitude : Q) : Prop :=
  (lon_lo c <= longitude /\ longitude < lon_hi c)%Q
  /\ (lat_lo c <= latitude /\ latitude < lat_hi c)%Q.

(** The middle of an interval, as a reduced fraction. *)
Definition mid (lo hi : Q) : Q := Qred ((lo + hi) / 2).

(** One bisection: of longitude when [even], of latitude otherwise; the
    bit chooses the upper half. *)
Definition refine (even : bool) (c : cell) (b : bool) : cell :=
  if even then
    if b then Cell (mid (lon_lo c) (lon_hi c)) (lon_hi c) (lat_lo c) (lat_hi c)
    else Cell (lon_lo c) (mid (lon_lo c) (lon_hi c)) (lat_lo c) (lat_hi c)
  else
    if b then Cell (lon_lo c) (lon_hi c) (mid (lat_lo c) (lat_hi c)) (lat_hi c)
    else Cell (lon_lo c) (lon_hi c) (lat_lo c) (mid (lat_lo c) (lat_hi c)).

(** The bit of a point: is it in the upper half? *)
Definition bit_of (even : bool) (c : cell) (longitude latitude : Q) : bool :=
  if even then Qle_bool (mid (lon_lo c) (lon_hi c)) longitude
  else Qle_bool (mid (lat_lo c) (lat_hi c)) latitude.

(** The first [n] bits of a point in [c]. *)
Fixpoint encode_bits (n : nat) (even : bool) (c : cell) (longitude latitude : Q)
    : list bool :=
  match n with
  | 0 => []
  | S n' =>
      let b := bit_of even c longitude latitude in
      b :: encode_bits n' (negb even) (refine even c b) longitude latitude
  end.

(** The cell that a sequence of bits names. *)
Fixpoint cell_of_bits (bs : list bool) (even : bool) (c : cell) : cell :=
  match bs with
  | [] => c
  | b :: bs' => cell_of_bits bs' (negb even) (refine even c b)
  end.

(** ** Symbols *)

Definition base32 : list ascii :=
  String.list_ascii_of_string "0123456789bcdefghjkmnpqrstuvwxyz".

Definition index_of_bits (b4 b3 b2 b1 b0 : bool) : nat :=
  16 * Nat.b2n b4 + 8 * Nat.b2n b3 + 4 * Nat.b2n b2 + 2 * Nat.b2n b1 + Nat.b2n b0.

Definition symbol_of_bits (b4 b3 b2 b1 b0 : bool) : ascii :=
  nth (index_of_bits b4 b3 b2 b1 b0) base32 "0"%char.

(** Five bits a symbol. *)
Fixpoint symbols (bs : list bool) : list ascii :=
  match bs with
  | b4 :: b3 :: b2 :: b1 :: b0 :: bs' =>
      symbol_of_bits b4 b3 b2 b1 b0 :: symbols bs'
  | _ => []
  end.

Fixpoint index_of (a : ascii) (l : list ascii) : option nat :=
  match l with
  | [] => None
  | x :: l' => if Ascii.eqb a x then Some 0 else S <$> index_of a l'
  end.

Definition bits_of_index (i : nat) : list bool :=
  [Nat.testbit i 4; Nat.testbit i 3; Nat.testbit i 2; Nat.testbit i 1;
   Nat.testbit i 0].

(** The bits of a key; [None] when a symbol is not of the alphabet. *)
Fixpoint bits_of_symbols (key : list ascii) : option (list bool) :=
  match key with
  | [] => Some []
  | a :: key' =>
      match index_of a base32, bits_of_symbols key' with
      | Some i, Some bs => Some (bits_of_index i ++ bs)
      | _, _ => None
      end
  end.

(** The cell of a key, or of a prefix of one. *)
Definition cell_of_key (key : list ascii) : option cell :=
  (fun bs => cell_of_bits bs true world) <$> bits_of_symbols key.

(** ** [encode] *)

Definition valid_coordinate (latitude longitude : Q) : bool :=
  Qle_bool (-90) latitude && Qltb latitude 90
  && Qle_bool (-180) longitude && Qltb longitude 180.

(** The 12 symbols of a point, as a list. *)
Definition key_of (latitude longitude : Q) : list ascii :=
  symbols (encode_bits 60 true world longitude latitude).

(** [geohash.encode(latitude, longitude)], at the default precision. *)
Definition encode (latitude longitude : Q) : result string :=
  if valid_coordinate latitude longitude then
    Ok (String.string_of_list_ascii (key_of latitude longitude))
  else Raise InvalidCoordinate.

(** ** Bits and cells *)

Lemma encode_bits_length n : forall even c longitude latitude,
  length (encode_bits n even c longitude latitude) = n.
Proof. induction n as [|n IH]; intros; simpl; [done | by rewrite IH]. Qed.

Lemma mid_half lo hi : (mid lo hi == (lo + hi) * (1 # 2))%Q.
Proof. unfold mid. rewrite Qred_correct. field. Qed.

Lemma mid_between lo hi : (lo < hi -> lo < mid lo hi /\ mid lo hi < hi)%Q.
Proof. rewrite mid_half. intros. split; lra. Qed.

Lemma mid_lt_inv_l lo hi x : (mid lo hi <= x -> x < hi -> lo < mid lo hi)%Q.
Proof. rewrite mid_half. intros. lra. Qed.

Lemma mid_lt_inv_r lo hi x : (lo <= x -> x < mid lo hi -> mid lo hi < hi)%Q.
Proof. rewrite mid_half. intros. lra. Qed.

(** A half is part of the whole. *)
Lemma refine_contains_inv even c b longitude latitude :
  contains (refine even c b) longitude latitude -> contains c longitude latitude.
Proof.
  unfold contains, refine. destruct even, b; simpl; intros [[??] [??]];
    repeat split; try done.
  - pose proof (mid_lt_inv_l (lon_lo c) (lon_hi c) longitude). lra.
  - pose proof (mid_lt_inv_r (lon_lo c) (lon_hi c) longitude). lra.
  - pose proof (mid_lt_inv_l (lat_lo c) (lat_hi c) latitude). lra.
  - pose proof (mid_lt_inv_r (lat_lo c) (lat_hi c) latitude). lra.
Qed.

(** Of the two halves of its cell, a point is in the one its bit names. *)
Lemma refine_contains even c b longitude latitude :
  contains c longitude latitude ->
  contains (refine even c b) longitude latitude
  <-> b = bit_of even c longitude latitude.
Proof.
  unfold contains, refine, bit_of. intros [[??] [??]].
  destruct even, b; simpl; (split; [intros [[??] [??]] | intros Hb]);
    try (symmetry; apply Qle_bool_iff; lra);
    try (symmetry; apply not_true_iff_false; rewrite Qle_bool_iff; lra);
    try (symmetry in Hb; apply Qle_bool_iff in Hb; repeat split; lra);
    try (symmetry in Hb; apply not_true_iff_false in Hb;
         rewrite Qle_bool_iff in Hb; repeat split; lra).
Qed.

Lemma cell_of_bits_contains_inv bs : forall even c longitude latitude,
  contains (cell_of_bits bs even c) longitude latitude ->
  contains c longitude latitude.
Proof.
  induction bs as [|b bs IH]; intros even c longitude latitude; simpl; [done|].
  intros Hc%IH. by eapply refine_contains_inv.
Qed.

(** The cell of a sequence of bits holds exactly the points whose bits
    start with the sequence. *)
Lemma encode_bits_prefix bs : forall n even c longitude latitude,
  contains c longitude latitude ->
  bs `prefix_of` encode_bits n even c longitude latitude
  <-> length bs <= n /\ contains (cell_of_bits bs even c) longitude latitude.
Proof.
  induction bs as [|b bs IH]; intros n even c longitude latitude Hc; simpl.
  { split; [intros _; split; [lia | done] | intros _; apply prefix_nil]. }
  destruct n as [|n]; simpl.
  { split; [intros Hp%prefix_nil_inv; done | lia]. }
  split.
  - intros Hp. pose proof (prefix_cons_inv_1 _ _ _ _ Hp) as ->.
    apply prefix_cons_inv_2 in Hp.
    assert (contains (refine even c (bit_of even c longitude latitude))
              longitude latitude) as Hc' by by apply refine_contains.
    apply (IH _ _ _ _ _ Hc') in Hp as [? ?]. split; [lia | done].
  - intros [Hlen Hin].
    pose proof (cell_of_bits_contains_inv _ _ _ _ _ Hin) as Hc'.
    pose proof (proj1 (refine_contains _ _ _ _ _ Hc) Hc') as ->.
    apply prefix_cons, (IH _ _ _ _ _ Hc'). split; [lia | done].
Qed.

Lemma encode_bits_take k n even c longitude latitude :
  contains c longitude latitude ->
  contains (cell_of_bits (take k (encode_bits n even c longitude latitude)) even c)
    longitude latitude.
Proof.
  intros Hc. eapply (encode_bits_prefix _ n); [done | apply prefix_take].
Qed.

(** ** Symbols and bits *)

Lemma bits_of_symbol_of_bits b4 b3 b2 b1 b0 :
  index_of (symbol_of_bits b4 b3 b2 b1 b0) base32
  = Some (index_of_bits b4 b3 b2 b1 b0)
  /\ bits_of_index (index_of_bits b4 b3 b2 b1 b0) = [b4; b3; b2; b1; b0].
Proof. by destruct b4, b3, b2, b1, b0. Qed.

Lemma symbols_length k : forall bs,
  length bs = 5 * k -> length (symbols bs) = k.
Proof.
  induction k as [|k IH]; intros bs Hlen.
  { by destruct bs. }
  do 5 (destruct bs as [|? bs]; [simpl in Hlen; lia|]).
  simpl. f_equal. apply IH. simpl in Hlen. lia.
Qed.

Lemma bits_of_symbols_symbols k : forall bs,
  length bs = 5 * k -> bits_of_symbols (symbols bs) = Some bs.
Proof.
  induction k as [|k IH]; intros bs Hlen.
  { by destruct bs. }
  do 5 (destruct bs as [|? bs]; [simpl in Hlen; lia|]).
  cbn [symbols bits_of_symbols].
  destruct (bits_of_symbol_of_bits b b0 b1 b2 b3) as [-> ->].
  rewrite IH by (simpl in Hlen; lia). done.
Qed.

Lemma symbols_take k : forall bs,
  take k (symbols bs) = symbols (take (5 * k) bs).
Proof.
  induction k as [|k IH]; intros bs; [done|].
  replace (5 * S k) with (S (S (S (S (S (5 * k)))))) by lia.
  do 5 (destruct bs as [|? bs]; [done|]).
  cbn [symbols take]. by rewrite IH.
Qed.

(** Two sequences of [5 * k] bits with the same symbols are the same. *)
Lemma symbols_inj k bs1 bs2 :
  length bs1 = 5 * k -> length bs2 = 5 * k ->
  symbols bs1 = symbols bs2 -> bs1 = bs2.
Proof.
  intros H1 H2 E. apply (f_equal bits_of_symbols) in E.
  rewrite (bits_of_symbols_symbols k), (bits_of_symbols_symbols k) in E by done.
  by injection E.
Qed.

(** ** Keys *)

Lemma valid_coordinate_contains latitude longitude :
  valid_coordinate latitude longitude = true <-> contains world longitude latitude.
Proof.
  unfold valid_coordinate, contains. simpl.
  rewrite !andb_true_iff, !Qle_bool_iff, !Qltb_lt. tauto.
Qed.

Lemma key_of_length latitude longitude : length (key_of latitude longitude) = 12.
Proof. apply symbols_length. by rewrite encode_bits_length. Qed.

Lemma key_of_take L latitude longitude :
  take L (key_of latitude longitude)
  = symbols (take (5 * L) (encode_bits 60 true world longitude latitude)).
Proof. apply symbols_take. Qed.

(** The cell of the first [L] symbols of a key is the cell of its first
    [5 * L] bits. *)
Lemma cell_of_key_take L latitude longitude :
  L <= 12 ->
  cell_of_key (take L (key_of latitude longitude))
  = Some (cell_of_bits
            (take (5 * L) (encode_bits 60 true world longitude latitude))
            true world).
Proof.
  intros HL. unfold cell_of_key.
  rewrite key_of_take, (bits_of_symbols_symbols L); [done|].
  rewrite length_take, encode_bits_length. lia.
Qed.

(** A point is in the cell of every prefix of its key. *)
Lemma key_of_cell_contains L latitude longitude :
  valid_coordinate latitude longitude = true -> L <= 12 ->
  exists c, cell_of_key (take L (key_of latitude longitude)) = Some c
            /\ contains c longitude latitude.
Proof.
  intros Hv%valid_coordinate_contains HL. eexists.
  split; [by apply cell_of_key_take | by apply encode_bits_take].
Qed.

(** The cell of the first [L] symbols of the key of a point holds exactly
    the points whose keys start with these symbols. *)
Lemma key_of_same_prefix L latitude longitude latitude' longitude' :
  valid_coordinate latitude' longitude' = true -> L <= 12 ->
  take L (key_of latitude' longitude') = take L (key_of latitude longitude)
  <-> exists c, cell_of_key (take L (key_of latitude longitude)) = Some c
                /\ contains c longitude' latitude'.
Proof.
  intros Hv%valid_coordinate_contains HL.
  rewrite cell_of_key_take by done. rewrite !key_of_take.
  set (bs := take (5 * L) (encode_bits 60 true world longitude latitude)).
  assert (length bs = 5 * L) as Hbs
    by (unfold bs; rewrite length_take, encode_bits_length; lia).
  split.
  - intros E. eexists. split; [done|].
    apply (symbols_inj L) in E;
      [| rewrite length_take, encode_bits_length; lia | done].
    rewrite <- E. by apply encode_bits_take.
  - intros (c & [= <-] & Hin). f_equal.
    assert (bs `prefix_of` encode_bits 60 true world longitude' latitude')
      as [k ->] by (apply encode_bits_prefix; [done | split; [lia | done]]).
    by rewrite <- Hbs, take_app_length.
Qed.

(** ** [encode] *)

Lemma encode_Ok latitude longitude :
  valid_coordinate latitude longitude = true ->
  encode latitude longitude
  = Ok (String.string_of_list_ascii (key_of latitude longitude)).
Proof. unfold encode. by intros ->. Qed.

Lemma encode_Raise latitude longitude :
  valid_coordinate latitude longitude = false ->
  encode latitude longitude = Raise InvalidCoordinate.
Proof. unfold encode. by intros ->. Qed.

Lemma encode_Ok_valid latitude longitude gh :
  encode latitude longitude = Ok gh ->
  valid_coordinate latitude longitude = true.
Proof.
  unfold encode. destruct (valid_coordinate latitude longitude); [|discriminate].
  reflexivity.
Qed.

Lemma encode_Ok_key latitude longitude gh :
  encode latitude longitude = Ok gh ->
  String.list_ascii_of_string gh = key_of latitude longitude.
Proof.
  intros E. rewrite encode_Ok in E by (by eapply encode_Ok_valid).
  assert (gh = String.string_of_list_ascii (key_of latitude longitude))
    as -> by congruence.
  apply String.list_ascii_of_string_of_list_ascii.
Qed.

Lemma encode_length latitude longitude gh :
  encode latitude longitude = Ok gh -> String.length gh = 12.
Proof.
  intros E%encode_Ok_key.
  rewrite <- length_list_ascii_of_string, E. apply key_of_length.
Qed.

(** The key of San Francisco, as every geohash library gives it. *)
Example encode_san_francisco :
  encode (377749 # 10000) (-1224194 # 10000) = Ok "9q8yyk8ytpxr".
Proof. vm_compute. reflexivity. Qed.

(** ** Equal points

    A point is a pair of rationals, and two fractions can be the same
    rational: the key depends on the rational only. *)

Lemma Qle_bool_comp (a x y : Q) : (x == y)%Q -> Qle_bool a x = Qle_bool a y.
Proof. intros E. apply eq_true_iff_eq. by rewrite !Qle_bool_iff, E. Qed.

Lemma Qltb_comp_l (x y b : Q) : (x == y)%Q -> Qltb x b = Qltb y b.
Proof. intros E. apply eq_true_iff_eq. by rewrite !Qltb_lt, E. Qed.

#[export] Instance bit_of_proper even c :
  Proper (Qeq ==> Qeq ==> eq) (bit_of even c).
Proof.
  intros lon lon' Elon lat lat' Elat. unfold bit_of.
  destruct even; by apply Qle_bool_comp.
Qed.

#[export] Instance encode_bits_proper n even c :
  Proper (Qeq ==> Qeq ==> eq) (encode_bits n even c).
Proof.
  intros lon lon' Elon lat lat' Elat. revert even c.
  induction n as [|n IH]; intros even c; cbn [encode_bits]; [done|].
  cbv zeta. rewrite (bit_of_proper even c _ _ Elon _ _ Elat). f_equal. apply IH.
Qed.

#[export] Instance valid_coordinate_proper :
  Proper (Qeq ==> Qeq ==> eq) valid_coordinate.
Proof.
  intros lat lat' Elat lon lon' Elon. unfold valid_coordinate.
  by rewrite (Qle_bool_comp _ _ _ Elat), (Qltb_comp_l _ _ _ Elat),
    (Qle_bool_comp _ _ _ Elon), (Qltb_comp_l _ _ _ Elon).
Qed.

#[export] Instance key_of_proper : Proper (Qeq ==> Qeq ==> eq) key_of.
Proof.
  intros lat lat' Elat lon lon' Elon. unfold key_of.
  by rewrite (encode_bits_proper 60 true world _ _ Elon _ _ Elat).
Qed.

#[export] Instance encode_proper : Proper (Qeq ==> Qeq ==> eq) encode.
Proof.
  intros lat lat' Elat lon lon' Elon. unfold encode.
  by rewrite (valid_coordinate_proper _ _ Elat _ _ Elon),
    (key_of_proper _ _ Elat _ _ Elon).
Qed.

#[export] Instance contains_proper c : Proper (Qeq ==> Qeq ==> iff) (contains c).
Proof.
  intros lon lon' Elon lat lat' Elat. unfold contains. by rewrite Elon, Elat.
Qed.

(** The 60 bisections of a key are not to be unfolded on a point that is a
    variable. *)
#[global] Arguments key_of : simpl never.
#[global] Arguments encode : simpl never.
#[global] Opaque key_of.
