(* ===== verification/PyString.v ===== *)
(** * PyString: the string methods that [build.py] calls

    [str.strip], [str.split] with a separator, [str.startswith] and
    [str.join], on strings as lists of characters.  A character is a byte:
    the whitespace that [strip] removes is the ASCII whitespace, and
    [bytes.decode] is the identity.  [parse_decimal] reads a plain decimal
    literal (sign, digits, a point, digits), the form of the numbers in
    the two feeds. *)

From Stdlib Require Import QArith Ascii Lia.
From stdpp Require Import base list strings.
From S2P Require Import Prelude.

Implicit Types (a sep : ascii) (s f : list ascii) (fs : list (list ascii)).

(** ** [strip] *)

(** [str.isspace] on one ASCII character: tab to carriage return, the four
    separators [0x1c] to [0x1f], and the space. *)
Definition is_space a : bool :=
  let n := nat_of_ascii a in
  ((9 <=? n) && (n <=? 13)) || ((28 <=? n) && (n <=? 31)) || (n =? 32).

Fixpoint lstrip s : list ascii :=
  match s with
  | [] => []
  | a :: s' => if is_space a then lstrip s' else s
  end.

Definition rstrip s : list ascii := reverse (lstrip (reverse s)).

(** [s.strip()]. *)
Definition strip s : list ascii := rstrip (lstrip s).

(** ** [split] and [join] *)

(** [s.split(sep)] for a separator of one character: the fields between
    the separators, empty fields included; never the empty list. *)
Fixpoint split_on sep s : list (list ascii) :=
  match s with
  | [] => [[]]
  | a :: s' =>
      if Ascii.eqb a sep then [] :: split_on sep s'
      else match split_on sep s' with
           | f :: fs => (a :: f) :: fs
           | [] => [[a]]
           end
  end.

(** [sep.join(fields)]. *)
Fixpoint join sep fs : list ascii :=
  match fs with
  | [] => []
  | [f] => f
  | f :: fs' => f ++ sep :: join sep fs'
  end.

(** ** [startswith] *)

Fixpoint startswith (prefix s : list ascii) : bool :=
  match prefix, s with
  | [], _ => true
  | p :: prefix', a :: s' => Ascii.eqb p a && startswith prefix' s'
  | _ :: _, [] => false
  end.

(** [s.startswith((p1, p2, ...))]: one of the prefixes. *)
Definition startswith_any (prefixes : list (list ascii)) s : bool :=
  existsb (fun p => startswith p s) prefixes.

(** ** Decimal literals *)

Definition digit_of a : option Z :=
  let n := nat_of_ascii a in
  if (48 <=? n) && (n <=? 57) then Some (Z.of_nat n - 48)%Z else None.

(** The number that a sequence of digits writes, after the digits [acc];
    [None] when a character is not a digit. *)
Fixpoint digits_value (acc : Z) s : option Z :=
  match s with
  | [] => Some acc
  | a :: s' =>
      match digit_of a with
      | Some n => digits_value (10 * acc + n) s'
      | None => None
      end
  end.

(** Digits, then optionally a point and digits; one digit at least. *)
Definition parse_unsigned s : option Q :=
  match split_on "." s with
  | [i] =>
      match i with
      | [] => None
      | _ => (fun n => inject_Z n) <$> digits_value 0 i
      end
  | [i; f] =>
      match i ++ f with
      | [] => None
      | _ =>
          match digits_value 0 (i ++ f) with
          | Some n => Some (Qred (inject_Z n / inject_Z (10 ^ Z.of_nat (length f))))
          | None => None
          end
      end
  | _ => None
  end.

(** A decimal literal with an optional sign. *)
Definition parse_decimal s : option Q :=
  match s with
  | "-"%char :: s' => (fun q => Qred (- q)) <$> parse_unsigned s'
  | "+"%char :: s' => parse_unsigned s'
  | _ => parse_unsigned s
  end.

(** ** [split] and [join] are inverse *)

Lemma split_on_not_nil sep s : split_on sep s <> [].
Proof.
  destruct s as [|a s]; simpl; [done|].
  destruct (Ascii.eqb a sep); [done|]. by destruct (split_on sep s).
Qed.

Lemma split_on_cons_sep sep s : split_on sep (sep :: s) = [] :: split_on sep s.
Proof. simpl. by rewrite Ascii.eqb_refl. Qed.

Lemma split_on_cons_other sep a s :
  a <> sep ->
  split_on sep (a :: s)
  = (a :: hd [] (split_on sep s)) :: tl (split_on sep s).
Proof.
  intros Ha. simpl. apply Ascii.eqb_neq in Ha as ->.
  pose proof (split_on_not_nil sep s). by destruct (split_on sep s).
Qed.

(** Joining the fields of a string gives the string back. *)
Lemma join_split_on sep s : join sep (split_on sep s) = s.
Proof.
  induction s as [|a s IH]; [done|].
  destruct (Ascii.eqb_spec a sep) as [->|Ha].
  - rewrite split_on_cons_sep. pose proof (split_on_not_nil sep s).
    simpl. destruct (split_on sep s); [done|]. by rewrite IH.
  - rewrite split_on_cons_other by done.
    pose proof (split_on_not_nil sep s). destruct (split_on sep s) as [|f fs];
      [done|]. simpl in *. destruct fs; simpl in *; by rewrite <- IH.
Qed.

(** No field holds the separator. *)
Lemma split_on_fields sep s : Forall (fun f => sep ∉ f) (split_on sep s).
Proof.
  induction s as [|a s IH]; simpl.
  { repeat constructor. apply not_elem_of_nil. }
  destruct (Ascii.eqb_spec a sep) as [->|Ha].
  { constructor; [apply not_elem_of_nil | done]. }
  destruct (split_on sep s) as [|f fs]; [|apply Forall_cons in IH as [Hf Hfs]].
  - repeat constructor. by intros ->%list_elem_of_singleton.
  - constructor; [|done]. by intros [->|?]%elem_of_cons.
Qed.

(** Splitting what was joined from fields without the separator gives the
    fields back. *)
Lemma split_on_join sep fs :
  fs <> [] -> Forall (fun f => sep ∉ f) fs -> split_on sep (join sep fs) = fs.
Proof.
  induction fs as [|f fs IH]; [done|]. intros _ [Hf Hfs]%Forall_cons.
  destruct fs as [|f' fs].
  { simpl. clear IH Hfs. induction f as [|a f IHf]; [done|].
    rewrite split_on_cons_other, IHf; [done | | ].
    - intros ?. apply Hf. by right.
    - intros ->. apply Hf. by left. }
  specialize (IH ltac:(done) Hfs). change (join sep (f :: f' :: fs)) with
    (f ++ sep :: join sep (f' :: fs)).
  remember (join sep (f' :: fs)) as j eqn:Ej. clear Ej.
  induction f as [|a f IHf]; simpl.
  - by rewrite Ascii.eqb_refl, IH.
  - rewrite (proj2 (Ascii.eqb_neq a sep)) by (intros ->; apply Hf; by left).
    rewrite IHf; [done|]. intros ?. apply Hf. by right.
Qed.

Lemma split_on_length sep s :
  length (split_on sep s) = S (length (List.filter (Ascii.eqb sep) s)).
Proof.
  induction s as [|a s IH]; [done|]. simpl. rewrite (Ascii.eqb_sym sep a).
  destruct (Ascii.eqb a sep); simpl; [by rewrite IH|].
  pose proof (split_on_not_nil sep s). by destruct (split_on sep s).
Qed.

(** ** [strip] *)

Lemma lstrip_suffix s : lstrip s `suffix_of` s.
Proof.
  induction s as [|a s IH]; simpl; [done|].
  destruct (is_space a); [by apply suffix_cons_r | done].
Qed.

Lemma lstrip_head s a s' : lstrip s = a :: s' -> is_space a = false.
Proof.
  induction s as [|b s IH]; simpl; [done|].
  destruct (is_space b) eqn:Hb; [done|]. by intros [= <- _].
Qed.

Lemma lstrip_id s : hd_error s = None \/ (exists a, hd_error s = Some a /\ is_space a = false) ->
  lstrip s = s.
Proof.
  destruct s as [|a s]; simpl; [done|].
  intros [?|(b & [= <-] & ->)]; done.
Qed.

Lemma lstrip_idemp s : lstrip (lstrip s) = lstrip s.
Proof.
  apply lstrip_id. destruct (lstrip s) as [|a s'] eqn:E; [by left | right].
  exists a. split; [done | by eapply lstrip_head].
Qed.

(** What [strip] returns starts and ends with a character that is not
    whitespace, when it is not empty. *)
Lemma rstrip_prefix s : rstrip s `prefix_of` s.
Proof.
  unfold rstrip. destruct (lstrip_suffix (reverse s)) as [k Hk].
  exists (reverse k). apply (f_equal reverse) in Hk.
  by rewrite reverse_involutive, reverse_app in Hk.
Qed.

Lemma strip_head s a s' : strip s = a :: s' -> is_space a = false.
Proof.
  intros E. destruct (rstrip_prefix (lstrip s)) as [k Hk].
  fold (strip s) in Hk. rewrite E in Hk. by eapply lstrip_head.
Qed.

Lemma strip_last s a : last (strip s) = Some a -> is_space a = false.
Proof.
  unfold strip, rstrip. rewrite last_reverse. intros E.
  destruct (lstrip (reverse (lstrip s))) as [|b s'] eqn:El; [done|].
  injection E as ->. by eapply lstrip_head.
Qed.

(** ** [startswith] *)

Lemma startswith_prefix_of prefix s :
  startswith prefix s = true <-> prefix `prefix_of` s.
Proof.
  revert s. induction prefix as [|p prefix IH]; intros s; simpl.
  { split; [intros _; apply prefix_nil | done]. }
  destruct s as [|a s].
  { split; [done | by intros ?%prefix_nil_inv]. }
  rewrite andb_true_iff, Ascii.eqb_eq, IH. split.
  - intros [-> ?]. by apply prefix_cons.
  - intros Hp. split; [by eapply prefix_cons_inv_1 | by eapply prefix_cons_inv_2].
Qed.

(** [strip] leaves a string that neither starts nor ends with whitespace. *)
Definition stripped s : Prop :=
  (forall a s', s = a :: s' -> is_space a = false)
  /\ (forall a, last s = Some a -> is_space a = false).

Definition strippedb s : bool :=
  match s with [] => true | a :: _ => negb (is_space a) end
  && match last s with Some a => negb (is_space a) | None => true end.

Lemma strippedb_stripped s : strippedb s = true -> stripped s.
Proof.
  unfold strippedb. intros [Hh Hl]%andb_true_iff. split.
  - intros a s' ->. by apply negb_true_iff.
  - intros a Ha. rewrite Ha in Hl. by apply negb_true_iff.
Qed.

Lemma lstrip_stripped s : stripped s -> lstrip s = s.
Proof.
  intros [Hh _]. destruct s as [|a s]; [done|]. simpl.
  by rewrite (Hh a s eq_refl).
Qed.

Lemma strip_stripped s : stripped s -> strip s = s.
Proof.
  intros Hs. unfold strip, rstrip. rewrite (lstrip_stripped s Hs).
  rewrite lstrip_stripped, reverse_involutive; [done|].
  destruct Hs as [Hh Hl]. split.
  - intros a s' E. apply Hl. rewrite <- (reverse_involutive s), E.
    by rewrite reverse_cons, last_snoc.
  - intros a Ha. rewrite last_reverse in Ha. destruct s as [|b s]; [done|].
    injection Ha as ->. by apply (Hh a s).
Qed.

Lemma strip_is_stripped s : stripped (strip s).
Proof.
  split; [intros a s'; apply strip_head | intros a; apply strip_last].
Qed.

Lemma last_join sep fs fn :
  last fs = Some fn -> fn <> [] -> last (join sep fs) = last fn.
Proof.
  intros Hn Hfn. induction fs as [|f fs IH]; [done|]. destruct fs as [|f' fs].
  { simpl in *. by injection Hn as ->. }
  change (join sep (f :: f' :: fs)) with (f ++ sep :: join sep (f' :: fs)).
  rewrite last_cons_cons in Hn. rewrite last_app_cons, last_cons, (IH Hn).
  destruct (last_is_Some fn) as [_ [a ->]]; [by destruct fn | done].
Qed.

Lemma hd_error_join sep fs f0 :
  hd_error fs = Some f0 -> f0 <> [] -> hd_error (join sep fs) = hd_error f0.
Proof.
  destruct fs as [|f fs]; [done|]. intros [= ->] Hf0.
  destruct f0 as [|a f0]; [done|]. by destruct fs.
Qed.

(** A line joined from fields of which the first and the last are not
    empty and are stripped, is stripped. *)
Lemma join_stripped sep fs f0 fn :
  hd_error fs = Some f0 -> last fs = Some fn ->
  f0 <> [] -> fn <> [] -> stripped f0 -> stripped fn ->
  stripped (join sep fs).
Proof.
  intros H0 Hn Hf0 Hfn [Hh _] [_ Hl]. split.
  - intros a s' E. pose proof (hd_error_join sep fs f0 H0 Hf0) as Hj.
    rewrite E in Hj. destruct f0 as [|b f0]; [done|]. simpl in Hj.
    injection Hj as ->. by apply (Hh b f0).
  - intros a Ha. apply Hl. by rewrite <- (last_join sep fs fn).
Qed.
