(* ===== verification/PyValue.v ===== *)
(** * PyValue: the Python values that [build.py] computes with

    [json.load] gives [create_sensors] a list of dictionaries whose values
    are of any JSON type; the code tests them for truth, compares them,
    and converts them with [float].  This file has the values
    ([value]), floats with their three special values ([pyfloat]; a
    finite float is read as the rational it stands for, rounding is not
    modelled), and the operations of Python the code applies to them, each
    with the exception it raises.

    What Python does with the text of a number ([float(s)],
    [decimal.Decimal(s)]) and what [sqlite3] does with a value bound to an
    [INTEGER PRIMARY KEY] are behaviours of libraries; the class
    [Conversions] states the part of them the theorems rely on, and
    [decimal_literals] is an instance that reads plain decimal literals,
    for the examples. *)

From Stdlib Require Import QArith Qround Qabs Ascii Lia Lqa Morphisms.
From stdpp Require Import base list strings.
From S2P Require Import Prelude Distance PyString.

(** ** Floats *)

Inductive pyfloat : Type :=
  | Finite (q : Q)
  | PosInf
  | NegInf
  | NaN.

(** [a < b] on floats: false when either is [nan]. *)
Definition float_ltb (a b : pyfloat) : bool :=
  match a, b with
  | NaN, _ | _, NaN => false
  | Finite p, Finite q => Qltb p q
  | Finite _, PosInf => true
  | Finite _, NegInf => false
  | PosInf, _ => false
  | NegInf, NegInf => false
  | NegInf, _ => true
  end.

(** [bool(x)] of a float: everything but zero, [nan] included. *)
Definition float_truthy (x : pyfloat) : bool :=
  match x with
  | Finite q => negb (Qeq_bool q 0)
  | _ => true
  end.

(** The integer nearest to [q], the even one of two that are equally
    near. *)
Definition round_half_even (q : Q) : Z :=
  let f := Qfloor q in
  let r := (q - inject_Z f)%Q in
  if Qltb r (1 # 2) then f
  else if Qltb (1 # 2) r then (f + 1)%Z
  else if Z.even f then f else (f + 1)%Z.

(** [round(x, ndigits=6)] of a finite float. *)
Definition round6 (q : Q) : Q :=
  Qred (inject_Z (round_half_even (q * 1000000)) / 1000000).

(** ** Values *)

#[warnings="-register-all"]
Inductive value : Type :=
  | VNone
  | VBool (b : bool)
  | VInt (n : Z)
  | VFloat (x : pyfloat)
  | VStr (s : string)
  | VList (l : list value)
  | VDict (d : list (string * value)).

(** A dictionary with string keys, as [json.load] builds it. *)
Definition dict : Type := list (string * value).

(** [d.get(key)]: [None] when the key is missing. *)
Fixpoint get (key : string) (d : dict) : value :=
  match d with
  | [] => VNone
  | (k, v) :: d' => if String.eqb k key then v else get key d'
  end.

(** [d[key]]: [KeyError] when the key is missing. *)
Fixpoint getitem (key : string) (d : dict) : result value :=
  match d with
  | [] => Raise KeyError
  | (k, v) :: d' => if String.eqb k key then Ok v else getitem key d'
  end.

(** [bool(v)], the test of [if v:] and [if not v:]. *)
Definition truthy (v : value) : bool :=
  match v with
  | VNone => false
  | VBool b => b
  | VInt n => negb (n =? 0)%Z
  | VFloat x => float_truthy x
  | VStr s => negb (String.eqb s "")
  | VList l => match l with [] => false | _ => true end
  | VDict d => match d with [] => false | _ => true end
  end.

(** [v != s] for a string [s]: values of other types are not equal to a
    string. *)
Definition ne_str (v : value) (s : string) : bool :=
  match v with
  | VStr s' => negb (String.eqb s' s)
  | _ => true
  end.

(** A value as an operand of [<] or [>=] with a float: numbers and
    booleans are compared by value, anything else is a [TypeError]. *)
Definition number_of (v : value) : result pyfloat :=
  match v with
  | VBool b => Ok (Finite (if b then 1 else 0))
  | VInt n => Ok (Finite (inject_Z n))
  | VFloat x => Ok x
  | _ => Raise TypeError
  end.

(** [v < x] for a float [x]. *)
Definition lt_float (v : value) (x : pyfloat) : result bool :=
  (a <- number_of v ;; Ok (float_ltb a x))%py.

(** [float(n)] of an integer: [OverflowError] from [2^1024 - 2^970] on,
    where the nearest float would be [2^1024]. *)
Definition float_of_int (n : Z) : result pyfloat :=
  if (Z.abs n <? 2 ^ 1024 - 2 ^ 970)%Z then Ok (Finite (inject_Z n))
  else Raise OverflowError.

(** ** Conversions that libraries make *)

(** The integers that [sqlite3] binds: those of 64 bits, signed. *)
Definition int64b (n : Z) : bool := ((- 2 ^ 63 <=? n) && (n <? 2 ^ 63))%Z.

Class Conversions : Type := {
  (** [float(s)] of a string; [None] is [ValueError]. *)
  float_of_string : string -> option pyfloat;
  (** [decimal.Decimal(s)]; [None] is [decimal.InvalidOperation]. *)
  decimal_of_string : string -> option Q;
  (** The row id that [sqlite3] stores for a value bound to an
      [INTEGER PRIMARY KEY] column of a table with the given ids. *)
  rowid_of_value : list Z -> value -> result Z;
  float_of_string_nan : float_of_string "nan" = Some NaN;
  (** An integer of 64 bits is its own row id; a larger one cannot be
      bound ("Python int too large to convert to SQLite INTEGER"). *)
  rowid_of_value_int ids n :
    rowid_of_value ids (VInt n)
    = if int64b n then Ok n else Raise OverflowError
}.

Section Float.
Context `{Conversions}.

(** [float(v)]. *)
Definition float_of (v : value) : result pyfloat :=
  match v with
  | VBool b => Ok (Finite (if b then 1 else 0))
  | VInt n => float_of_int n
  | VFloat x => Ok x
  | VStr s =>
      match float_of_string s with
      | Some x => Ok x
      | None => Raise ValueError
      end
  | VNone | VList _ | VDict _ => Raise TypeError
  end.

End Float.

(** ** An instance for plain literals *)

Definition lower (a : ascii) : ascii :=
  let n := nat_of_ascii a in
  if (65 <=? n) && (n <=? 90) then ascii_of_nat (n + 32) else a.

(** [float(s)] for [s] a decimal literal, [nan], [inf] or [infinity], with
    a sign and whitespace around it.  Python reads more (exponents,
    underscores): for those this function answers [None]. *)
Definition float_of_literal (s : string) : option pyfloat :=
  let t := strip (String.list_ascii_of_string s) in
  let '(neg, body) :=
    match t with
    | "-"%char :: t' => (true, t')
    | "+"%char :: t' => (false, t')
    | _ => (false, t)
    end in
  let w := String.string_of_list_ascii (lower <$> body) in
  if String.eqb w "nan" then Some NaN
  else if String.eqb w "inf" || String.eqb w "infinity" then
    Some (if neg then NegInf else PosInf)
  else Finite <$> parse_decimal t.

(** [Decimal(s)] for [s] a decimal literal. *)
Definition decimal_of_literal (s : string) : option Q :=
  parse_decimal (strip (String.list_ascii_of_string s)).

(** The row id for an integer, a boolean or [None]: the integer when it
    has 64 bits, 0 or 1, or one more than the largest id of the table.
    Other values are refused here; [sqlite3] converts some of them. *)
Definition rowid_of_literal (ids : list Z) (v : value) : result Z :=
  match v with
  | VInt n => if int64b n then Ok n else Raise OverflowError
  | VBool b => Ok (if b then 1 else 0)%Z
  | VNone => Ok (foldr Z.max 0 ids + 1)%Z
  | _ => Raise IntegrityError
  end.

Definition decimal_literals : Conversions := {|
  float_of_string := float_of_literal;
  decimal_of_string := decimal_of_literal;
  rowid_of_value := rowid_of_literal;
  float_of_string_nan := eq_refl;
  rowid_of_value_int := fun _ _ => eq_refl
|}.

(** ** Rounding *)

Lemma round_half_even_error (q : Q) :
  (Qabs (inject_Z (round_half_even q) - q) <= 1 # 2)%Q.
Proof.
  unfold round_half_even. cbv zeta. pose proof (Qfloor_le q) as Hlo.
  pose proof (Qlt_floor q) as Hhi. rewrite inject_Z_plus in Hhi.
  apply Qabs_Qle_condition.
  destruct (Qltb _ (1 # 2)) eqn:H1;
    [apply Qltb_lt in H1
    |apply Qltb_ge in H1; destruct (Qltb (1 # 2) _) eqn:H2;
       [apply Qltb_lt in H2 | apply Qltb_ge in H2; destruct (Z.even _)]];
    rewrite ?inject_Z_plus; change (inject_Z 1) with 1%Q in *;
    generalize dependent (inject_Z (Qfloor q)); intros; split; lra.
Qed.

Lemma Qltb_comp (a a' b b' : Q) :
  (a == a')%Q -> (b == b')%Q -> Qltb a b = Qltb a' b'.
Proof.
  intros Ea Eb. apply eq_true_iff_eq. by rewrite !Qltb_lt, Ea, Eb.
Qed.

#[export] Instance round_half_even_proper : Proper (Qeq ==> eq) round_half_even.
Proof.
  intros q q' E. unfold round_half_even. cbv zeta. rewrite (Qfloor_comp _ _ E).
  rewrite (Qltb_comp (q - _) (q' - inject_Z (Qfloor q')) (1 # 2) (1 # 2))
    by (by rewrite ?E).
  by rewrite (Qltb_comp (1 # 2) (1 # 2) (q - _) (q' - inject_Z (Qfloor q')))
    by (by rewrite ?E).
Qed.

Lemma round_half_even_inject_Z (n : Z) : round_half_even (inject_Z n) = n.
Proof.
  unfold round_half_even. rewrite Qfloor_Z.
  assert (Qltb (inject_Z n - inject_Z n) (1 # 2) = true) as ->; [|done].
  apply Qltb_lt. lra.
Qed.

(** A rounded coordinate is within half a millionth of the coordinate. *)
Lemma round6_error (q : Q) : (Qabs (round6 q - q) <= 1 # 2000000)%Q.
Proof.
  unfold round6. rewrite Qred_correct.
  pose proof (round_half_even_error (q * 1000000)) as He.
  apply Qabs_Qle_condition in He as [He1 He2]. apply Qabs_Qle_condition.
  set (n := inject_Z (round_half_even (q * 1000000))) in *.
  assert (n / 1000000 == n * (1 # 1000000))%Q as -> by field.
  split; lra.
Qed.

(** Rounding changes nothing in a number of six decimals. *)
Lemma round6_millionths (n : Z) :
  (round6 (inject_Z n / 1000000) == inject_Z n / 1000000)%Q.
Proof.
  unfold round6. rewrite Qred_correct.
  assert (inject_Z n / 1000000 * 1000000 == inject_Z n)%Q as E by field.
  by rewrite E, round_half_even_inject_Z.
Qed.

(** Equal rationals round to the same reduced fraction. *)
#[export] Instance round6_proper : Proper (Qeq ==> eq) round6.
Proof.
  intros q q' E. unfold round6. apply Qred_complete. by rewrite E.
Qed.
