(* ===== verification/PySorted.v ===== *)
(** * PySorted: Python's [sorted(iterable, key=...)]

    [sorted] returns a new list, ascending in the key, compares keys with
    [<] only and is stable: elements whose keys do not compare keep the
    order they had.  [sorted] below is the insertion sort with that
    behaviour; [sorted_unique] shows that every list with the three
    properties of the contract is this one, so the choice of the
    algorithm does not matter. *)

From stdpp Require Import base list sorting.
From S2P Require Import Prelude.

Section Sorted.
Context {A K : Type} (key : A -> K) (ltb : K -> K -> bool).
Implicit Types (x y : A) (l : list A).

(** [insert x l] puts [x], which came before the elements of [l] in the
    input, before the first element that is not smaller than it. *)
Fixpoint insert (x : A) (l : list A) : list A :=
  match l with
  | [] => [x]
  | y :: l' => if ltb (key y) (key x) then y :: insert x l' else x :: y :: l'
  end.

Fixpoint sorted (l : list A) : list A :=
  match l with
  | [] => []
  | x :: l' => insert x (sorted l')
  end.

(** [x] and [y] are in ascending order. *)
Definition key_le (x y : A) : Prop := ltb (key y) (key x) = false.

(** [x] and [y] have keys that [<] does not tell apart. *)
Definition key_tie (x y : A) : Prop := key_le x y /\ key_le y x.

Definition key_tieb (x y : A) : bool :=
  negb (ltb (key y) (key x)) && negb (ltb (key x) (key y)).

(** The order of the output: ascending in the key, and where the keys tie,
    in the order [R] in which the input was. *)
Definition stable_le (R : relation A) (x y : A) : Prop :=
  key_le x y /\ (ltb (key x) (key y) = true \/ R x y).

(** The contract of [sorted]: [l'] is [l] sorted. *)
Definition is_sorted_of (l l' : list A) : Prop :=
  l' ≡ₚ l /\
  StronglySorted key_le l' /\
  forall x, List.filter (key_tieb x) l' = List.filter (key_tieb x) l.

(** ** Permutation *)

Lemma insert_Permutation x l : insert x l ≡ₚ x :: l.
Proof.
  induction l as [|y l IH]; simpl; [done|].
  destruct (ltb (key y) (key x)); [|done].
  by rewrite IH, Permutation_swap.
Qed.

Lemma sorted_Permutation l : sorted l ≡ₚ l.
Proof.
  induction l as [|x l IH]; simpl; [done|].
  by rewrite insert_Permutation, IH.
Qed.

Lemma sorted_length l : length (sorted l) = length l.
Proof. by rewrite sorted_Permutation. Qed.

Lemma elem_of_sorted x l : x ∈ sorted l <-> x ∈ l.
Proof. by rewrite sorted_Permutation. Qed.

Lemma sorted_Forall (P : A -> Prop) l : Forall P l -> Forall P (sorted l).
Proof. by rewrite sorted_Permutation. Qed.

Lemma sorted_NoDup_fmap {B : Type} (f : A -> B) l :
  NoDup (f <$> l) -> NoDup (f <$> sorted l).
Proof. by rewrite sorted_Permutation. Qed.

(** ** Order and stability

    The laws of [<] on keys: a strict weak order. *)

Section Order.
Hypothesis ltb_irrefl : forall a, ltb a a = false.
Hypothesis ltb_trans : forall a b c,
  ltb a b = true -> ltb b c = true -> ltb a c = true.
Hypothesis ltb_cotrans : forall a b c,
  ltb a c = true -> ltb a b = true \/ ltb b c = true.

Lemma ltb_asym a b : ltb a b = true -> ltb b a = false.
Proof.
  intros Hab. destruct (ltb b a) eqn:Hba; [|done].
  by rewrite <- (ltb_irrefl a), (ltb_trans _ _ _ Hab Hba).
Qed.

Lemma key_le_trans x y z : key_le x y -> key_le y z -> key_le x z.
Proof.
  unfold key_le. intros Hyx Hzy.
  destruct (ltb (key z) (key x)) eqn:Hzx; [|done].
  destruct (ltb_cotrans _ (key y) _ Hzx); congruence.
Qed.

Lemma insert_stable_le (R : relation A) x l :
  Forall (R x) l ->
  StronglySorted (stable_le R) l ->
  StronglySorted (stable_le R) (insert x l).
Proof.
  induction l as [|y l IH]; simpl; intros Hx Hl.
  { repeat constructor. }
  apply Forall_cons in Hx as [Hxy Hx].
  apply StronglySorted_inv in Hl as [Hl Hy].
  destruct (ltb (key y) (key x)) eqn:Hyx.
  - constructor; [auto|].
    rewrite insert_Permutation. constructor; [|done].
    split; [by apply ltb_asym | by left].
  - constructor; [by constructor|].
    constructor; [by split; [|right]|].
    rewrite Forall_forall in Hx, Hy. apply Forall_forall; intros z Hz.
    destruct (Hy z Hz) as [Hyz _]. split; [|right; auto].
    by apply (key_le_trans x y z).
Qed.

Lemma sorted_stable_le (R : relation A) l :
  StronglySorted R l -> StronglySorted (stable_le R) (sorted l).
Proof.
  induction 1 as [|x l Hl IH Hx]; simpl; [constructor|].
  apply insert_stable_le; [|done].
  by apply sorted_Forall.
Qed.
Lemma sorted_StronglySorted l : StronglySorted key_le (sorted l).
Proof.
  eapply StronglySorted_mono;
    [|apply (sorted_stable_le (fun _ _ => True)), StronglySorted_True].
  by intros x y [Hxy _].
Qed.

Lemma key_tieb_refl x : key_tieb x x = true.
Proof. unfold key_tieb. by rewrite ltb_irrefl. Qed.

Lemma key_tieb_true x y : key_tieb x y = true <-> key_tie x y.
Proof.
  unfold key_tieb, key_tie, key_le.
  rewrite andb_true_iff, !negb_true_iff. tauto.
Qed.

(** Two elements of one tie class are never swapped by [insert]. *)
Lemma key_tieb_not_ltb k x y :
  key_tieb k x = true -> key_tieb k y = true -> ltb (key y) (key x) = false.
Proof.
  rewrite !key_tieb_true. intros [_ Hxk] [Hky _].
  by apply (key_le_trans x k y).
Qed.

Lemma insert_filter_tie k x l :
  List.filter (key_tieb k) (insert x l) = List.filter (key_tieb k) (x :: l).
Proof.
  induction l as [|y l IH]; [done|]. simpl in *.
  destruct (ltb (key y) (key x)) eqn:Hyx; [|done]. simpl. rewrite IH.
  destruct (key_tieb k x) eqn:Hx, (key_tieb k y) eqn:Hy; try done.
  by rewrite (key_tieb_not_ltb k x y) in Hyx.
Qed.

Lemma sorted_filter_tie k l :
  List.filter (key_tieb k) (sorted l) = List.filter (key_tieb k) l.
Proof.
  induction l as [|x l IH]; [done|]. simpl sorted.
  rewrite insert_filter_tie. simpl. by rewrite IH.
Qed.

Lemma sorted_is_sorted_of l : is_sorted_of l (sorted l).
Proof.
  split; [apply sorted_Permutation|].
  split; [apply sorted_StronglySorted | intros x; apply sorted_filter_tie].
Qed.

(** Two sorted lists with the same elements and the same tie classes are
    equal. *)
Lemma sorted_tie_eq l1 l2 :
  l1 ≡ₚ l2 -> StronglySorted key_le l1 -> StronglySorted key_le l2 ->
  (forall x, List.filter (key_tieb x) l1 = List.filter (key_tieb x) l2) ->
  l1 = l2.
Proof.
  revert l2; induction l1 as [|a l1 IH]; intros [|b l2] Hp H1 H2 Hf.
  - done.
  - by apply Permutation_nil_cons in Hp.
  - symmetry in Hp. by apply Permutation_nil_cons in Hp.
  - apply StronglySorted_inv in H1 as [H1 Ha], H2 as [H2 Hb].
    assert (key_tie a b) as Hab.
    { split.
      - assert (b ∈ a :: l1) as [->|Hin]%elem_of_cons by (rewrite Hp; left).
        + apply ltb_irrefl.
        + by apply (proj1 (Forall_forall _ _) Ha).
      - assert (a ∈ b :: l2) as [->|Hin]%elem_of_cons by (rewrite <- Hp; left).
        + apply ltb_irrefl.
        + by apply (proj1 (Forall_forall _ _) Hb). }
    assert (a = b) as <-.
    { pose proof (Hf a) as E. simpl in E.
      rewrite key_tieb_refl, (proj2 (key_tieb_true a b) Hab) in E.
      by injection E. }
    f_equal. apply IH; [by apply (Permutation_cons_inv Hp) | done | done |].
    intros x. specialize (Hf x). simpl in Hf.
    destruct (key_tieb x a); [by injection Hf | done].
Qed.

Lemma sorted_unique l l' : is_sorted_of l l' -> l' = sorted l.
Proof.
  intros (Hp & Hs & Hf). apply sorted_tie_eq.
  - by rewrite Hp, sorted_Permutation.
  - done.
  - apply sorted_StronglySorted.
  - intros x. by rewrite Hf, sorted_filter_tie.
Qed.
End Order.
End Sorted.
