(* ===== verification/Database.v ===== *)
(** * Database: the SQLite database of [build.py]

    [create_db] declares four tables.  [schema] is that declaration as
    data; [db] is the content of the tables, each a list of rows in the
    order of a full scan; the SQL statements that [build.py] executes are
    functions on [db] that return [Raise] where SQLite raises.  [db_ok] is
    what SQLite enforces (primary keys, [UNIQUE], [AUTOINCREMENT]) and
    every statement preserves it. *)

From Stdlib Require Import QArith Ascii.
From stdpp Require Import base list strings pretty gmap sorting.
From S2P Require Import Prelude.

(** ** The schema of [create_db] *)

Inductive column_type : Type := INTEGER | REAL | VARCHAR.

Record column : Type := Column {
  column_name : string;
  column_type_of : column_type;
  column_not_null : bool;
  column_unique : bool
}.

Record foreign_key : Type := ForeignKey {
  foreign_key_column : string;
  foreign_key_table : string;
  foreign_key_references : string
}.

Record table : Type := Table {
  table_name : string;
  table_columns : list column;
  table_primary_key : list string;
  table_autoincrement : bool;
  table_foreign_keys : list foreign_key
}.

(** The name [geohash_bit_<i>] that [build.py] formats in three places. *)
Definition geohash_bit (i : nat) : string := "geohash_bit_" +:+ pretty i.

Definition geohash_bit_columns : list column :=
  (fun i => Column (geohash_bit i) VARCHAR true false) <$> seq 1 12.

Definition sensors_table : table :=
  Table "sensors"
    ([Column "id" INTEGER false false;
      Column "latitude" REAL true false;
      Column "longitude" REAL true false] ++ geohash_bit_columns)
    ["id"] false [].

Definition zipcodes_table : table :=
  Table "zipcodes"
    ([Column "id" INTEGER false false;
      Column "city_id" INTEGER true false;
      Column "zipcode" VARCHAR true true;
      Column "latitude" REAL true false;
      Column "longitude" REAL true false] ++ geohash_bit_columns)
    ["id"] true [ForeignKey "city_id" "city" "id"].

Definition cities_table : table :=
  Table "cities"
    [Column "id" INTEGER false false;
     Column "name" VARCHAR true false;
     Column "state_code" VARCHAR true false]
    ["id"] true [].

Definition sensors_zipcodes_table : table :=
  Table "sensors_zipcodes"
    [Column "sensor_id" INTEGER true false;
     Column "zipcode_id" INTEGER true false;
     Column "distance" REAL true false]
    ["sensor_id"; "zipcode_id"] false
    [ForeignKey "sensor_id" "sensors" "id";
     ForeignKey "zipcode_id" "zipcodes" "id"].

Definition schema : list table :=
  [sensors_table; zipcodes_table; cities_table; sensors_zipcodes_table].

Definition has_column (t : table) (name : string) : bool :=
  bool_decide (name ∈ column_name <$> table_columns t).

(** A foreign key is resolved when the table and the column it references
    are declared. *)
Definition foreign_key_resolved (s : list table) (fk : foreign_key) : bool :=
  existsb (fun t => bool_decide (table_name t = foreign_key_table fk)
                    && has_column t (foreign_key_references fk)) s.

(** ** Rows and tables *)

Record sensors_row : Type := SensorsRow {
  sensors_id : Z;
  sensors_latitude : Q;
  sensors_longitude : Q;
  sensors_geohash_bits : list ascii      (* geohash_bit_1 .. geohash_bit_12 *)
}.

Record zipcodes_row : Type := ZipcodesRow {
  zipcodes_id : Z;
  zipcodes_city_id : Z;
  zipcodes_zipcode : string;
  zipcodes_latitude : Q;
  zipcodes_longitude : Q;
  zipcodes_geohash_bits : list ascii
}.

Record cities_row : Type := CitiesRow {
  cities_id : Z;
  cities_name : string;
  cities_state_code : string
}.

Record sensors_zipcodes_row (D : Type) : Type := SensorsZipcodesRow {
  sensors_zipcodes_sensor_id : Z;
  sensors_zipcodes_zipcode_id : Z;
  sensors_zipcodes_distance : D
}.
Arguments SensorsZipcodesRow {D} _ _ _.
Arguments sensors_zipcodes_sensor_id {D} _.
Arguments sensors_zipcodes_zipcode_id {D} _.
Arguments sensors_zipcodes_distance {D} _.

(** The database.  [seq_zipcodes] and [seq_cities] are the rows of
    [sqlite_sequence]: the largest row id an [AUTOINCREMENT] table has
    ever held. *)
Record db (D : Type) : Type := Db {
  db_sensors : list sensors_row;
  db_zipcodes : list zipcodes_row;
  db_cities : list cities_row;
  db_sensors_zipcodes : list (sensors_zipcodes_row D);
  seq_zipcodes : Z;
  seq_cities : Z
}.
Arguments Db {D} _ _ _ _ _ _.
Arguments db_sensors {D} _.
Arguments db_zipcodes {D} _.
Arguments db_cities {D} _.
Arguments db_sensors_zipcodes {D} _.
Arguments seq_zipcodes {D} _.
Arguments seq_cities {D} _.

(** The key of the primary key [(sensor_id, zipcode_id)]. *)
Definition sensors_zipcodes_key {D : Type} (r : sensors_zipcodes_row D) : Z * Z :=
  (sensors_zipcodes_sensor_id r, sensors_zipcodes_zipcode_id r).

(** ** Statements *)

Section Statements.
Context {D : Type}.
Implicit Types (d : db D) (gh : list ascii).

(** [create_db]: the four tables, empty. *)
Definition create_db : db D := Db [] [] [] [] 0 0.

(** A table whose row id is [id] is scanned in ascending [id]; a second
    row with the same [id] violates the primary key. *)
Fixpoint insert_by_id (r : sensors_row) (t : list sensors_row)
    : result (list sensors_row) :=
  match t with
  | [] => Ok [r]
  | r' :: t' =>
      if bool_decide (sensors_id r < sensors_id r')%Z then Ok (r :: t)
      else if bool_decide (sensors_id r = sensors_id r') then
        Raise IntegrityError
      else (t'' <- insert_by_id r t' ;; Ok (r' :: t''))%py
  end.

(** [INSERT INTO sensors VALUES(?, ... 15 times)] with the bindings
    [(id, latitude, longitude, *list(gh))]. *)
Definition insert_sensors (r : sensors_row) d : result (db D) :=
  if negb (length (sensors_geohash_bits r) =? 12) then Raise ProgrammingError
  else (t <- insert_by_id r (db_sensors d) ;;
        Ok (Db t (db_zipcodes d) (db_cities d) (db_sensors_zipcodes d)
               (seq_zipcodes d) (seq_cities d)))%py.

(** [INSERT INTO zipcodes(zipcode, city_id, latitude, longitude,
    geohash_bit_1, ...) VALUES(16 times ?)], then [cursor.lastrowid]. *)
Definition insert_zipcodes (zipcode : string) (city_id : Z)
    (latitude longitude : Q) gh d : result (Z * db D) :=
  if negb (length gh =? 12) then Raise ProgrammingError
  else if bool_decide (zipcode ∈ zipcodes_zipcode <$> db_zipcodes d) then
    Raise IntegrityError
  else
    let id := (seq_zipcodes d + 1)%Z in
    Ok (id,
        Db (db_sensors d)
           (db_zipcodes d ++
              [ZipcodesRow id city_id zipcode latitude longitude gh])
           (db_cities d) (db_sensors_zipcodes d) id (seq_cities d)).

(** [SELECT id FROM cities WHERE name=? AND state_code=?], then
    [cursor.fetchone()]: the first row that matches, if any. *)
Definition select_cities (name state_code : string) d : option Z :=
  cities_id <$>
    List.find (fun r => bool_decide (cities_name r = name)
                        && bool_decide (cities_state_code r = state_code))
              (db_cities d).

(** [INSERT INTO cities(name, state_code) VALUES(?, ?)], then
    [cursor.lastrowid]. *)
Definition insert_cities (name state_code : string) d : Z * db D :=
  let id := (seq_cities d + 1)%Z in
  (id,
   Db (db_sensors d) (db_zipcodes d)
      (db_cities d ++ [CitiesRow id name state_code])
      (db_sensors_zipcodes d) (seq_zipcodes d) id).

(** The [WHERE] clause [geohash_bit_1=? AND ... AND geohash_bit_n=?] bound
    to the [n] symbols of [gh]. *)
Fixpoint geohash_bits_match gh (bits : list ascii) : bool :=
  match gh, bits with
  | [], _ => true
  | g :: gh', b :: bits' => bool_decide (b = g) && geohash_bits_match gh' bits'
  | _ :: _, [] => false
  end.

(** The columns the [WHERE] clause names: [geohash_bit_{i + 1}] for [i] in
    [range(len(gh))]. *)
Definition where_columns gh : list string :=
  (fun i => geohash_bit (i + 1)) <$> seq 0 (length gh).

(** The rows of [sensors] that satisfy the [WHERE] clause and are not in
    [sensors], in scan order, projected on [id, latitude, longitude]. *)
Definition selected_sensors gh (sensors : gset Z) d : list (Z * Q * Q) :=
  (fun r => (sensors_id r, sensors_latitude r, sensors_longitude r)) <$>
  List.filter
    (fun r => geohash_bits_match gh (sensors_geohash_bits r)
              && negb (bool_decide (sensors_id r ∈ sensors)))
    (db_sensors d).

(** [SELECT id, latitude, longitude FROM sensors WHERE <the clause above>
    AND id NOT IN (<sensors>)], then [cursor.fetchall()].  With no sensors
    to exclude the program leaves the second condition out, which selects
    the same rows.  With no symbol the text ends in [WHERE], which is not
    a statement; a column that [sensors] does not have is an error too.
    The statement has no [ORDER BY]: the rows come in the order of the
    scan of the table, which is the order of [db_sensors]. *)
Definition select_sensors gh (sensors : gset Z) d : result (list (Z * Q * Q)) :=
  match gh with
  | [] => Raise OperationalError
  | _ :: _ =>
      if negb (forallb (has_column sensors_table) (where_columns gh)) then
        Raise OperationalError
      else Ok (selected_sensors gh sensors d)
  end.

(** The file behind a connection: the tables, or nothing when [create_db]
    has not run on it ([sqlite3.connect] makes the file when it is not
    there).  A statement on a file without the tables raises
    [OperationalError]. *)
Definition tables (conn : option (db D)) : result (db D) :=
  match conn with
  | Some d => Ok d
  | None => Raise OperationalError
  end.

(** [INSERT INTO sensors_zipcodes VALUES (?, ?, ?)]. *)
Definition insert_sensors_zipcodes (sensor_id zipcode_id : Z) (distance : D) d
    : result (db D) :=
  if bool_decide
       ((sensor_id, zipcode_id) ∈ sensors_zipcodes_key <$> db_sensors_zipcodes d)
  then Raise IntegrityError
  else Ok (Db (db_sensors d) (db_zipcodes d) (db_cities d)
              (db_sensors_zipcodes d ++
                 [SensorsZipcodesRow sensor_id zipcode_id distance])
              (seq_zipcodes d) (seq_cities d)).

(** ** What SQLite enforces *)

Record db_ok d : Prop := DbOk {
  sensors_sorted :
    StronglySorted (fun r r' => (sensors_id r < sensors_id r')%Z) (db_sensors d);
  sensors_bits :
    Forall (fun r => length (sensors_geohash_bits r) = 12) (db_sensors d);
  zipcodes_unique : NoDup (zipcodes_zipcode <$> db_zipcodes d);
  zipcodes_ids : NoDup (zipcodes_id <$> db_zipcodes d);
  zipcodes_seq :
    Forall (fun r => (0 < zipcodes_id r <= seq_zipcodes d)%Z) (db_zipcodes d);
  zipcodes_bits :
    Forall (fun r => length (zipcodes_geohash_bits r) = 12) (db_zipcodes d);
  cities_ids : NoDup (cities_id <$> db_cities d);
  cities_seq :
    Forall (fun r => (0 < cities_id r <= seq_cities d)%Z) (db_cities d);
  seq_nonneg : (0 <= seq_zipcodes d)%Z /\ (0 <= seq_cities d)%Z;
  sensors_zipcodes_unique :
    NoDup (sensors_zipcodes_key <$> db_sensors_zipcodes d)
}.

End Statements.

(** ** The schema *)

(** The [WHERE] clause of [select_sensors] names columns of [sensors]
    exactly when [gh] has at most 12 symbols. *)
Lemma where_columns_sensors (gh : list ascii) :
  forallb (has_column sensors_table) (where_columns gh)
  = bool_decide (length gh <= 12).
Proof.
  unfold where_columns. generalize (length gh) as n. intros n.
  destruct (decide (n <= 12)) as [Hn|Hn].
  - do 13 (destruct n as [|n]; [by vm_compute|]). lia.
  - rewrite (bool_decide_eq_false_2 _ Hn). apply not_true_iff_false.
    rewrite forallb_forall. intros Hall.
    assert (has_column sensors_table (geohash_bit (12 + 1)) = true) as E; [|done].
    apply Hall, list_elem_of_In, list_elem_of_fmap. exists 12.
    split; [done|]. apply elem_of_seq. lia.
Qed.

Lemma geohash_bits_match_take (gh bits : list ascii) :
  geohash_bits_match gh bits = true <-> take (length gh) bits = gh.
Proof.
  revert bits; induction gh as [|g gh IH]; intros [|b bits]; simpl; try done.
  rewrite andb_true_iff, bool_decide_eq_true, IH.
  split; [intros [-> ->]; done | intros [= -> E]; by rewrite E].
Qed.

(** ** The statements *)

Section StatementLemmas.
Context {D : Type}.
Implicit Types (d : db D) (gh : list ascii) (sensors : gset Z).

Lemma select_sensors_Ok gh sensors d :
  0 < length gh <= 12 ->
  select_sensors gh sensors d = Ok (selected_sensors gh sensors d).
Proof.
  intros [H0 Hn]. unfold select_sensors. destruct gh as [|g gh]; [simpl in H0; lia|].
  by rewrite where_columns_sensors, (bool_decide_eq_true_2 _ Hn).
Qed.

Lemma select_sensors_Raise gh sensors d :
  12 < length gh -> select_sensors gh sensors d = Raise OperationalError.
Proof.
  intros Hn. unfold select_sensors. destruct gh as [|g gh]; [done|].
  rewrite where_columns_sensors, bool_decide_eq_false_2; [done | lia].
Qed.

Lemma select_sensors_nil sensors d :
  select_sensors [] sensors d = Raise OperationalError.
Proof. reflexivity. Qed.

Lemma select_sensors_Ok_inv gh sensors d rows :
  select_sensors gh sensors d = Ok rows ->
  0 < length gh <= 12 /\ rows = selected_sensors gh sensors d.
Proof.
  destruct gh as [|g gh]; [done|].
  destruct (decide (length (g :: gh) <= 12)) as [Hn|Hn].
  - rewrite select_sensors_Ok by (simpl in *; lia). intros [= <-].
    split; [simpl in *; lia | done].
  - rewrite select_sensors_Raise by lia. done.
Qed.

(** The statement raises nothing but [OperationalError], and raises it
    for the key without symbol and for those longer than the table has
    columns. *)
Lemma select_sensors_Raise_inv gh sensors d e :
  select_sensors gh sensors d = Raise e ->
  e = OperationalError /\ (gh = [] \/ 12 < length gh).
Proof.
  destruct gh as [|g gh]; [intros [= <-]; auto|].
  destruct (decide (length (g :: gh) <= 12)) as [Hn|Hn].
  - rewrite select_sensors_Ok by (simpl in *; lia). done.
  - rewrite select_sensors_Raise by lia. intros [= <-]. split; [done|]. right. lia.
Qed.

Lemma elem_of_selected_sensors gh sensors d id lat lon :
  (id, lat, lon) ∈ selected_sensors gh sensors d <->
  exists r, r ∈ db_sensors d /\
    (sensors_id r, sensors_latitude r, sensors_longitude r) = (id, lat, lon) /\
    take (length gh) (sensors_geohash_bits r) = gh /\ id ∉ sensors.
Proof.
  unfold selected_sensors. rewrite list_elem_of_fmap.
  split; intros (r & H1 & H2); exists r.
  - apply list_elem_of_In, filter_In in H2 as [Hin Hf].
    apply andb_true_iff in Hf as [Hm Hs].
    apply geohash_bits_match_take in Hm.
    apply negb_true_iff, bool_decide_eq_false in Hs.
    injection H1 as -> -> ->. by rewrite list_elem_of_In.
  - destruct H2 as (E & Hm & Hs). injection E as <- <- <-.
    split; [done|]. apply list_elem_of_In, filter_In.
    split; [by apply list_elem_of_In|].
    apply andb_true_iff. split; [by apply geohash_bits_match_take|].
    by apply negb_true_iff, bool_decide_eq_false.
Qed.

(** A full scan of [sensors] is ascending in [id], and so is every
    selection from it. *)
Lemma selected_sensors_sorted gh sensors d :
  db_ok d ->
  StronglySorted (fun a b => (a.1.1 < b.1.1)%Z) (selected_sensors gh sensors d).
Proof.
  intros Hd. unfold selected_sensors.
  eapply StronglySorted_fmap;
    [|apply StronglySorted_list_filter, (sensors_sorted _ Hd)].
  done.
Qed.

Lemma selected_sensors_NoDup gh sensors d :
  db_ok d -> NoDup ((fun a => a.1.1) <$> selected_sensors gh sensors d).
Proof.
  intros Hd. apply StronglySorted_lt_NoDup.
  eapply StronglySorted_fmap; [|by apply selected_sensors_sorted]. done.
Qed.

End StatementLemmas.

(** ** Every statement preserves [db_ok] *)

Section Preservation.
Context {D : Type}.
Implicit Types (d : db D) (r : sensors_row) (t : list sensors_row).

Abbreviation id_lt :=
  (fun r r' : sensors_row => (sensors_id r < sensors_id r')%Z).

Lemma create_db_ok : db_ok (@create_db D).
Proof. constructor; simpl; try constructor; done. Qed.

Lemma insert_by_id_Permutation r t t' :
  insert_by_id r t = Ok t' -> t' ≡ₚ r :: t.
Proof.
  revert t'; induction t as [|r' t IH]; simpl; intros t' H.
  { by inv_ok. }
  repeat case_if; inv_ok; [done|].
  by rewrite (IH _ E), Permutation_swap.
Qed.

Lemma insert_by_id_sorted r t t' :
  StronglySorted id_lt t -> insert_by_id r t = Ok t' -> StronglySorted id_lt t'.
Proof.
  revert t'; induction t as [|r' t IH]; simpl; intros t' Ht H.
  { inv_ok. repeat constructor. }
  apply StronglySorted_inv in Ht as [Ht Hr'].
  repeat case_if; inv_ok.
  - apply bool_decide_eq_true in Heqb.
    constructor; [by constructor|]. constructor; [done|].
    eapply Forall_impl; [exact Hr'|]. simpl; lia.
  - apply bool_decide_eq_false in Heqb, Heqb0.
    constructor; [by apply IH|].
    rewrite (insert_by_id_Permutation _ _ _ E). constructor; [lia | done].
Qed.

(** On a table in [id] order the insertion raises exactly when the [id]
    is taken. *)
Lemma insert_by_id_is_Ok r t :
  StronglySorted id_lt t ->
  is_Ok (insert_by_id r t) <-> sensors_id r ∉ sensors_id <$> t.
Proof.
  induction 1 as [|r' t Ht IH Hr']; simpl.
  { split; [intros _; apply not_elem_of_nil | done]. }
  rewrite not_elem_of_cons. repeat case_if; simpl.
  - apply bool_decide_eq_true in Heqb. split; [intros _|done].
    split; [lia|]. intros (r'' & E & Hin)%list_elem_of_fmap.
    apply (proj1 (Forall_forall _ _) Hr') in Hin. lia.
  - apply bool_decide_eq_true in Heqb0. tauto.
  - apply bool_decide_eq_false in Heqb0. rewrite <- IH.
    destruct (insert_by_id r t); simpl; tauto.
Qed.

Lemma insert_sensors_ok r d d' :
  db_ok d -> insert_sensors r d = Ok d' -> db_ok d'.
Proof.
  intros [] H. unfold insert_sensors in H. case_if; [done|]. inv_ok.
  apply negb_false_iff, Nat.eqb_eq in Heqb.
  constructor; simpl; try done.
  - by eapply insert_by_id_sorted.
  - rewrite (insert_by_id_Permutation _ _ _ E). by constructor.
Qed.

Lemma insert_zipcodes_ok zipcode city_id latitude longitude gh d id d' :
  db_ok d ->
  insert_zipcodes zipcode city_id latitude longitude gh d = Ok (id, d') ->
  db_ok d'.
Proof.
  intros [] H. unfold insert_zipcodes in H. repeat case_if; inv_ok.
  apply negb_false_iff, Nat.eqb_eq in Heqb. apply bool_decide_eq_false in Heqb0.
  constructor; simpl; try done.
  - by apply NoDup_fmap_snoc.
  - apply NoDup_fmap_snoc; [done|]. simpl.
    intros (r & E & Hin)%list_elem_of_fmap.
    apply (proj1 (Forall_forall _ _) zipcodes_seq0) in Hin. lia.
  - apply Forall_snoc; [|simpl; lia].
    eapply Forall_impl; [exact zipcodes_seq0|]. simpl; lia.
  - by apply Forall_snoc.
  - lia.
Qed.

(** The row that [INSERT INTO zipcodes] appends. *)
Definition with_zipcode (zipcode : string) (city_id : Z) (latitude longitude : Q)
    gh d : db D :=
  Db (db_sensors d)
     (db_zipcodes d ++
        [ZipcodesRow (seq_zipcodes d + 1) city_id zipcode latitude longitude gh])
     (db_cities d) (db_sensors_zipcodes d) (seq_zipcodes d + 1) (seq_cities d).

Lemma insert_zipcodes_Ok zipcode city_id latitude longitude gh d :
  length gh = 12 -> zipcode ∉ zipcodes_zipcode <$> db_zipcodes d ->
  insert_zipcodes zipcode city_id latitude longitude gh d
  = Ok ((seq_zipcodes d + 1)%Z,
        with_zipcode zipcode city_id latitude longitude gh d).
Proof.
  intros Hlen Hz. unfold insert_zipcodes. rewrite Hlen. cbn [Nat.eqb negb].
  by rewrite (bool_decide_eq_false_2 _ Hz).
Qed.

Lemma insert_zipcodes_Ok_inv zipcode city_id latitude longitude gh d id d' :
  insert_zipcodes zipcode city_id latitude longitude gh d = Ok (id, d') ->
  length gh = 12 /\ (zipcode ∉ zipcodes_zipcode <$> db_zipcodes d)
  /\ id = (seq_zipcodes d + 1)%Z
  /\ d' = with_zipcode zipcode city_id latitude longitude gh d.
Proof.
  unfold insert_zipcodes. intros Hins. repeat case_if; inv_ok.
  apply negb_false_iff, Nat.eqb_eq in Heqb. apply bool_decide_eq_false in Heqb0.
  done.
Qed.

Lemma insert_zipcodes_Raise_unique zipcode city_id latitude longitude gh d :
  length gh = 12 -> zipcode ∈ zipcodes_zipcode <$> db_zipcodes d ->
  insert_zipcodes zipcode city_id latitude longitude gh d = Raise IntegrityError.
Proof.
  intros Hlen Hz. unfold insert_zipcodes. rewrite Hlen. cbn [Nat.eqb negb].
  by rewrite (bool_decide_eq_true_2 _ Hz).
Qed.

Lemma insert_cities_ok name state_code d :
  db_ok d -> db_ok (insert_cities name state_code d).2.
Proof.
  intros []. constructor; simpl; try done.
  - apply NoDup_fmap_snoc; [done|]. simpl.
    intros (r & E & Hin)%list_elem_of_fmap.
    apply (proj1 (Forall_forall _ _) cities_seq0) in Hin. lia.
  - apply Forall_snoc; [|simpl; lia].
    eapply Forall_impl; [exact cities_seq0|]. simpl; lia.
  - lia.
Qed.

Lemma insert_sensors_zipcodes_ok sensor_id zipcode_id (distance : D) d d' :
  db_ok d ->
  insert_sensors_zipcodes sensor_id zipcode_id distance d = Ok d' -> db_ok d'.
Proof.
  intros [] H. unfold insert_sensors_zipcodes in H. case_if; inv_ok.
  apply bool_decide_eq_false in Heqb.
  constructor; simpl; try done. by apply NoDup_fmap_snoc.
Qed.

(** [insert_sensors_zipcodes] appends one row, or raises when the pair is
    already linked. *)
Lemma insert_sensors_zipcodes_Ok sensor_id zipcode_id (distance : D) d :
  (sensor_id, zipcode_id) ∉ sensors_zipcodes_key <$> db_sensors_zipcodes d ->
  insert_sensors_zipcodes sensor_id zipcode_id distance d
  = Ok (Db (db_sensors d) (db_zipcodes d) (db_cities d)
           (db_sensors_zipcodes d ++
              [SensorsZipcodesRow sensor_id zipcode_id distance])
           (seq_zipcodes d) (seq_cities d)).
Proof.
  intros Hk. unfold insert_sensors_zipcodes.
  by rewrite (bool_decide_eq_false_2 _ Hk).
Qed.

Lemma insert_sensors_zipcodes_Raise sensor_id zipcode_id (distance : D) d :
  (sensor_id, zipcode_id) ∈ sensors_zipcodes_key <$> db_sensors_zipcodes d ->
  insert_sensors_zipcodes sensor_id zipcode_id distance d = Raise IntegrityError.
Proof.
  intros Hk. unfold insert_sensors_zipcodes.
  by rewrite (bool_decide_eq_true_2 _ Hk).
Qed.

(** What a successful [INSERT INTO sensors] changes. *)
Lemma insert_sensors_Ok_inv r d d' :
  insert_sensors r d = Ok d' ->
  length (sensors_geohash_bits r) = 12
  /\ db_sensors d' ≡ₚ r :: db_sensors d
  /\ db_zipcodes d' = db_zipcodes d /\ db_cities d' = db_cities d
  /\ db_sensors_zipcodes d' = db_sensors_zipcodes d
  /\ seq_zipcodes d' = seq_zipcodes d /\ seq_cities d' = seq_cities d.
Proof.
  unfold insert_sensors. case_if; [done|]. intros Hins. inv_ok.
  apply negb_false_iff, Nat.eqb_eq in Heqb.
  split; [done|]. split; [by apply insert_by_id_Permutation | done].
Qed.

Lemma insert_by_id_Raise r t e :
  insert_by_id r t = Raise e -> e = IntegrityError.
Proof.
  induction t as [|r' t IH]; simpl; [done|].
  repeat case_if; try done; [by intros [= <-]|].
  destruct (insert_by_id r t); simpl; [done|]. intros [= <-]. by apply IH.
Qed.

Lemma insert_sensors_Raise_iff r d :
  db_ok d -> length (sensors_geohash_bits r) = 12 ->
  insert_sensors r d = Raise IntegrityError
  <-> sensors_id r ∈ sensors_id <$> db_sensors d.
Proof.
  intros Hd Hlen. unfold insert_sensors. rewrite Hlen. simpl.
  pose proof (insert_by_id_is_Ok r _ (sensors_sorted _ Hd)) as Hok.
  destruct (insert_by_id r (db_sensors d)) as [t|e] eqn:E; simpl in *.
  - split; [done|]. intros Hin. by apply Hok in Hin.
  - apply insert_by_id_Raise in E as ->. split; [intros _|done].
    destruct (decide (sensors_id r ∈ sensors_id <$> db_sensors d)) as [|Hn];
      [done|]. destruct (proj2 Hok Hn).
Qed.

(** C33: [select_sensors] answers the prefix query of the candidate store.
    On a database that satisfies its constraints, a [SELECT] that returns
    was made for a key of 1 to 12 symbols; its rows come in strictly
    ascending [id] (the scan of a table whose row id is [id]), so that no
    row is returned twice; and they are [(id, latitude, longitude)] of
    exactly the rows of [sensors] whose first [len(gh)] geohash columns
    are the symbols of [gh] and whose [id] is not in the set to
    exclude. *)
Theorem select_sensors_contract gh (sensors : gset Z) d rows :
  db_ok d -> select_sensors gh sensors d = Ok rows ->
  0 < length gh <= 12
  /\ StronglySorted (fun a b => (a.1.1 < b.1.1)%Z) rows
  /\ forall id lat lon,
       (id, lat, lon) ∈ rows <->
       exists r, r ∈ db_sensors d /\
         (sensors_id r, sensors_latitude r, sensors_longitude r)
         = (id, lat, lon) /\
         take (length gh) (sensors_geohash_bits r) = gh /\ id ∉ sensors.
Proof.
  intros Hd [Hlen ->]%select_sensors_Ok_inv. split; [done|].
  split; [by apply selected_sensors_sorted|].
  intros id lat lon. apply elem_of_selected_sensors.
Qed.

(** [INSERT INTO sensors] preserves the constraints, keeps the table in
    [id] order and adds the row. *)
Theorem insert_sensors_keeps_db_ok r d d' :
  db_ok d -> insert_sensors r d = Ok d' ->
  db_ok d' /\ db_sensors d' ≡ₚ r :: db_sensors d.
Proof.
  intros Hd Hins. split; [by eapply insert_sensors_ok|].
  unfold insert_sensors in Hins. case_if; [done|]. inv_ok.
  by apply insert_by_id_Permutation.
Qed.

(** [INSERT INTO zipcodes] raises [IntegrityError] for a postal code
    that the table already has ([zipcode] is [UNIQUE]); otherwise it
    appends the row under the next row id, which no row has, and the
    constraints still hold. *)
Theorem insert_zipcodes_unique zipcode city_id latitude longitude gh d :
  db_ok d -> length gh = 12 ->
  if bool_decide (zipcode ∈ zipcodes_zipcode <$> db_zipcodes d)
  then insert_zipcodes zipcode city_id latitude longitude gh d
       = Raise IntegrityError
  else exists d',
    insert_zipcodes zipcode city_id latitude longitude gh d
      = Ok ((seq_zipcodes d + 1)%Z, d')
    /\ db_zipcodes d'
       = db_zipcodes d ++
         [ZipcodesRow (seq_zipcodes d + 1) city_id zipcode latitude longitude gh]
    /\ ((seq_zipcodes d + 1)%Z ∉ zipcodes_id <$> db_zipcodes d)
    /\ db_ok d'.
Proof.
  intros Hd Hlen.
  destruct (insert_zipcodes zipcode city_id latitude longitude gh d)
    as [[id d']|e] eqn:E; unfold insert_zipcodes in E; rewrite Hlen in E;
    simpl in E; case_bool_decide; inv_ok; [|done].
  eexists. split; [done|]. split; [done|]. split.
  - intros (r & Hid & Hr)%list_elem_of_fmap.
    apply (proj1 (Forall_forall _ _) (zipcodes_seq _ Hd)) in Hr. lia.
  - eapply (insert_zipcodes_ok zipcode city_id latitude longitude gh d); [done|].
    unfold insert_zipcodes. rewrite Hlen. simpl. by rewrite bool_decide_eq_false_2.
Qed.

End Preservation.

(** The schema of [create_db] has one foreign key that cannot be
    resolved: [zipcodes.city_id] references a table [city], and the table
    that [create_db] creates is [cities]. *)
Example zipcodes_foreign_key_dangling :
  List.filter (fun fk => negb (foreign_key_resolved schema fk))
    (concat (table_foreign_keys <$> schema))
  = [ForeignKey "city_id" "city" "id"]
  /\ In (ForeignKey "city_id" "city" "id") (table_foreign_keys zipcodes_table).
Proof. split; [by vm_compute | by left]. Qed.
