(* ===== verification/Sensors.v ===== *)
(** * Sensors: [create_sensors]

    [create_sensors] reads the records of the PurpleAir feed and inserts a
    row of [sensors] for each record that passes its tests.  A record is a
    dictionary ([dict]); a test that ends in [continue] makes
    [create_sensor] return [None]; an exception that the code does not
    catch ends the run.  The time of [datetime.now()] is an input: [now i]
    is the time at which record [i] is examined.

    The theorems say which records become rows ([accepted]), that the
    rows are keyed by the geohash of the coordinates of the feed, what the
    run raises, and that the constraints of the database are kept. *)

From Stdlib Require Import QArith Qabs Ascii Lia Morphisms.
From stdpp Require Import base list strings gmap sorting.
From S2P Require Import Prelude Distance Geohash PyString PyValue Database.

Section Sensors.
Context {D : Type} `{Conversions}.
Implicit Types (d : db D) (result : dict) (now : Q) (row : sensors_row).

(** A value as a coordinate: a finite number. *)
Definition coordinate_of (v : value) : result Q :=
  (x <- number_of v ;;
   match x with
   | Finite q => Ok q
   | _ => Raise InvalidCoordinate
   end)%py.

(** [geohash.encode(latitude, longitude)] on two values of the feed. *)
Definition geohash_encode (latitude longitude : value) : result string :=
  (lat <- coordinate_of latitude ;;
   lon <- coordinate_of longitude ;;
   encode lat lon)%py.

(** The body of the loop for one record, on the file that
    [get_connection] opens: [None] is [continue], [Some d'] the database
    with the row that was inserted and committed.  The arguments of the
    statement are evaluated before [cursor.execute] looks at the tables. *)
Definition create_sensor now result (conn : option (db D))
    : Prelude.result (option (db D)) :=
  if ne_str (get "DEVICE_LOCATIONTYPE" result) "outside" then Ok None
  else if truthy (get "ParentID" result) then Ok None
  else
    (old <- lt_float (get "LastSeen" result) (Finite (now - 86400)) ;;
     if (old : bool) then Ok None
     else
       let pm25 := get "PM2_5Value" result in
       if negb (truthy pm25) then Ok None
       else
         match float_of pm25 with
         | Raise TypeError | Raise ValueError => Ok None
         | Raise e => Raise e
         | Ok pm25 =>
             if float_ltb pm25 (Finite 0) || float_ltb (Finite 500) pm25
             then Ok None
             else
               let latitude := get "Lat" result in
               let longitude := get "Lon" result in
               if negb (truthy latitude) || negb (truthy longitude)
               then Ok None
               else
                 (gh <- geohash_encode latitude longitude ;;
                  id_value <- getitem "ID" result ;;
                  lat <- coordinate_of latitude ;;
                  lon <- coordinate_of longitude ;;
                  d <- tables conn ;;
                  id <- rowid_of_value (sensors_id <$> db_sensors d) id_value ;;
                  d' <- insert_sensors
                          (SensorsRow id (round6 lat) (round6 lon)
                             (String.list_ascii_of_string gh)) d ;;
                  Ok (Some d'))
         end)%py.

(** One round of the loop, with the counter [num_created]. *)
Definition create_sensors_body (now : nat -> Q) (ir : nat * dict)
    (s : db D * nat) : result (db D * nat) :=
  (r <- create_sensor (now ir.1) ir.2 (Some s.1) ;;
   match r with
   | None => Ok s
   | Some d' => Ok (d', S s.2)
   end)%py.

(** [create_sensors()], on the records that [get_purpleair_data] returns:
    the database it leaves and [num_created]. *)
Definition create_sensors (now : nat -> Q) (results : list dict) d
    : result (db D * nat) :=
  for_each (create_sensors_body now) (enumerate results) (d, 0).

(** ** Which records become rows *)

(** The record passes every test of the loop, and its coordinates are
    [lat] and [lon]: it is an outdoor sensor without a parent, seen in the
    last 24 hours, whose PM2.5 value converts to a float that is neither
    below 0 nor above 500, at valid coordinates other than 0. *)
Record accepted now result (lat lon : Q) : Prop := Accepted {
  accepted_outside : get "DEVICE_LOCATIONTYPE" result = VStr "outside";
  accepted_no_parent : truthy (get "ParentID" result) = false;
  accepted_seen :
    lt_float (get "LastSeen" result) (Finite (now - 86400)) = Ok false;
  accepted_pm25 :
    exists x, truthy (get "PM2_5Value" result) = true
              /\ float_of (get "PM2_5Value" result) = Ok x
              /\ float_ltb x (Finite 0) = false
              /\ float_ltb (Finite 500) x = false;
  accepted_latitude :
    truthy (get "Lat" result) = true /\ coordinate_of (get "Lat" result) = Ok lat;
  accepted_longitude :
    truthy (get "Lon" result) = true /\ coordinate_of (get "Lon" result) = Ok lon;
  accepted_valid : valid_coordinate lat lon = true
}.

(** The row id that the statement binds for the record: [result["ID"]],
    as the table stores it.  The ids of the table matter for an [ID] that
    is [None] only. *)
Definition row_id_of result (id : Z) : Prop :=
  exists id_value ids,
    getitem "ID" result = Ok id_value /\ rowid_of_value ids id_value = Ok id.

(** The row of a sensor: the coordinates rounded, the key of the
    coordinates as the feed has them. *)
Definition sensor_row (id : Z) (lat lon : Q) : sensors_row :=
  SensorsRow id (round6 lat) (round6 lon) (key_of lat lon).

(** The row id of a record whose [ID] is an integer is that integer. *)
Lemma row_id_of_int result n id :
  getitem "ID" result = Ok (VInt n) -> row_id_of result id ->
  id = n /\ int64b n = true.
Proof.
  intros Hn (id_value & ids & Hv & Hid).
  assert (id_value = VInt n) as -> by congruence.
  rewrite rowid_of_value_int in Hid. destruct (int64b n); [|done].
  split; congruence.
Qed.

Lemma ne_str_false v s : ne_str v s = false <-> v = VStr s.
Proof.
  destruct v; simpl; try (split; [done | by intros [=]]).
  rewrite negb_false_iff, String.eqb_eq. split; [by intros -> | by intros [=]].
Qed.

Lemma geohash_encode_Ok_inv latitude longitude gh :
  geohash_encode latitude longitude = Ok gh ->
  exists lat lon,
    coordinate_of latitude = Ok lat /\ coordinate_of longitude = Ok lon
    /\ valid_coordinate lat lon = true
    /\ String.list_ascii_of_string gh = key_of lat lon.
Proof.
  unfold geohash_encode. intros Hgh. inv_ok. exists v, v0.
  split; [done|]. split; [done|].
  split; [by eapply encode_Ok_valid | by apply encode_Ok_key].
Qed.

Lemma geohash_encode_Ok latitude longitude lat lon :
  coordinate_of latitude = Ok lat -> coordinate_of longitude = Ok lon ->
  valid_coordinate lat lon = true ->
  geohash_encode latitude longitude
  = Ok (String.string_of_list_ascii (key_of lat lon)).
Proof.
  unfold geohash_encode. intros -> -> Hv. cbn [bind]. by apply encode_Ok.
Qed.

(** A record that becomes a row is an accepted one, and the row is its
    [sensor_row]. *)
Lemma create_sensor_Some_inv now result d d' :
  create_sensor now result (Some d) = Ok (Some d') ->
  exists lat lon id_value id,
    accepted now result lat lon
    /\ getitem "ID" result = Ok id_value
    /\ rowid_of_value (sensors_id <$> db_sensors d) id_value = Ok id
    /\ insert_sensors (sensor_row id lat lon) d = Ok d'.
Proof.
  unfold create_sensor.
  destruct (ne_str _ _) eqn:Hout; [done|]. apply ne_str_false in Hout.
  destruct (truthy (get "ParentID" result)) eqn:Hparent; [done|].
  intros Hrun. inv_ok. destruct v; [done|].
  destruct (truthy (get "PM2_5Value" result)) eqn:Hpm; [|done].
  cbn [negb] in Hrun.
  destruct (float_of _) as [x|e] eqn:Hx; [|by destruct e].
  destruct (float_ltb x (Finite 0)) eqn:Hx0; [done|].
  destruct (float_ltb (Finite 500) x) eqn:Hx500; [done|].
  destruct (truthy (get "Lat" result)) eqn:Hlat; [|done].
  destruct (truthy (get "Lon" result)) eqn:Hlon; [|done].
  cbn [negb orb] in Hrun.
  apply bind_Ok_inv in Hrun as (gh & Egh & Hrun).
  apply bind_Ok_inv in Hrun as (id_value & Eid_value & Hrun).
  apply bind_Ok_inv in Hrun as (lat & Elat & Hrun).
  apply bind_Ok_inv in Hrun as (lon & Elon & Hrun).
  cbn [tables bind] in Hrun.
  apply bind_Ok_inv in Hrun as (id & Eid & Hrun).
  apply bind_Ok_inv in Hrun as (d1 & Ed1 & Hrun).
  assert (d1 = d') as -> by congruence.
  apply geohash_encode_Ok_inv in Egh as (lat' & lon' & Elat' & Elon' & Hv & Hgh).
  assert (lat' = lat) as -> by congruence.
  assert (lon' = lon) as -> by congruence.
  rewrite Hgh in Ed1. exists lat, lon, id_value, id.
  split; [|split; [exact Eid_value | split; [exact Eid | exact Ed1]]].
  exact (Accepted _ _ _ _ Hout Hparent E
           (ex_intro _ x (conj Hpm (conj Hx (conj Hx0 Hx500))))
           (conj Hlat Elat) (conj Hlon Elon) Hv).
Qed.

(** An accepted record becomes a row, unless its [ID] is missing or is
    refused by the table. *)
Lemma create_sensor_accepted now result d lat lon :
  accepted now result lat lon ->
  create_sensor now result (Some d)
  = (id_value <- getitem "ID" result ;;
     id <- rowid_of_value (sensors_id <$> db_sensors d) id_value ;;
     d' <- insert_sensors (sensor_row id lat lon) d ;;
     Ok (Some d'))%py.
Proof.
  intros [Hout Hparent Hseen (x & Hpm & Hx & Hx0 & Hx500) [Hlat Elat]
            [Hlon Elon] Hv].
  unfold create_sensor.
  rewrite (proj2 (ne_str_false _ _) Hout), Hparent, Hseen. cbn [bind].
  rewrite Hpm, Hx. cbn [negb]. rewrite Hx0, Hx500, Hlat, Hlon. cbn [negb orb].
  rewrite (geohash_encode_Ok _ _ _ _ Elat Elon Hv), Elat, Elon. cbn [bind].
  rewrite String.list_ascii_of_string_of_list_ascii. reflexivity.
Qed.

(** ** The loop *)

Lemma create_sensors_body_inv (now : nat -> Q) i result d n d' n' :
  create_sensors_body now (i, result) (d, n) = Ok (d', n') ->
  create_sensor (now i) result (Some d) = Ok None /\ d' = d /\ n' = n
  \/ create_sensor (now i) result (Some d) = Ok (Some d') /\ n' = S n.
Proof.
  unfold create_sensors_body. cbn [fst snd].
  destruct (create_sensor (now i) result (Some d)) as [[d1|]|]; cbn [bind].
  - intros E. right. split; congruence.
  - intros E. left. split; [done | split; congruence].
  - done.
Qed.

(** What the tables other than [sensors] are, the loop leaves. *)
Definition same_but_sensors d d' : Prop :=
  db_zipcodes d' = db_zipcodes d /\ db_cities d' = db_cities d
  /\ db_sensors_zipcodes d' = db_sensors_zipcodes d
  /\ seq_zipcodes d' = seq_zipcodes d /\ seq_cities d' = seq_cities d.

(** A row of [sensors] made from an accepted record of the feed, under
    the [ID] of the record. *)
Definition row_of_feed (now : nat -> Q) (results : list dict) row : Prop :=
  exists i result lat lon,
    results !! i = Some result /\ accepted (now i) result lat lon
    /\ row_id_of result (sensors_id row)
    /\ row = sensor_row (sensors_id row) lat lon.

(** The invariant of the loop: the constraints hold, the other tables are
    as they were, the rows of [sensors] are those of the start and one per
    record counted in [num_created], each made from an accepted record. *)
Record sensors_inv (now : nat -> Q) (results : list dict) d0
    (s : db D * nat) : Prop := SensorsInv {
  sensors_inv_ok : db_ok s.1;
  sensors_inv_frame : same_but_sensors d0 s.1;
  sensors_inv_rows :
    exists new, db_sensors s.1 ≡ₚ new ++ db_sensors d0
                /\ length new = s.2
                /\ Forall (row_of_feed now results) new
}.

Lemma sensors_inv_start (now : nat -> Q) results d : db_ok d -> sensors_inv now results d (d, 0).
Proof.
  intros Hd. split; [done | by repeat split |]. by exists [].
Qed.

Lemma sensors_inv_step (now : nat -> Q) results d0 i result s s' :
  results !! i = Some result ->
  sensors_inv now results d0 s ->
  create_sensors_body now (i, result) s = Ok s' ->
  sensors_inv now results d0 s'.
Proof.
  destruct s as [d n], s' as [d' n']. intros Hi [Hok Hfr (new & Hp & Hn & Hnew)].
  intros [(_ & -> & ->)|[Hc ->]]%create_sensors_body_inv.
  { split; [done..|]. by exists new. }
  apply create_sensor_Some_inv in Hc
    as (lat & lon & id_value & id & Hacc & Hv & Hid & Hins).
  pose proof (insert_sensors_ok _ _ _ Hok Hins) as Hok'.
  apply insert_sensors_Ok_inv in Hins
    as (_ & Hp' & Hz & Hc & Hsz & Hs1 & Hs2).
  cbn [fst snd] in *. destruct Hfr as (? & ? & ? & ? & ?).
  split; [exact Hok' | repeat split; cbn [fst snd]; congruence |].
  exists (sensor_row id lat lon :: new). cbn [fst snd].
  split; [by rewrite Hp', Hp | split; [by rewrite <- Hn|]].
  constructor; [|exact Hnew]. exists i, result, lat, lon.
  split; [exact Hi | split; [exact Hacc | split; [|reflexivity]]].
  by exists id_value, (sensors_id <$> db_sensors d).
Qed.

Lemma create_sensors_inv (now : nat -> Q) results d s :
  db_ok d -> create_sensors now results d = Ok s ->
  sensors_inv now results d s.
Proof.
  intros Hd Hrun.
  apply (for_each_preserves (sensors_inv now results d)
           (create_sensors_body now) (enumerate results) (d, 0) s);
    [by apply sensors_inv_start | | exact Hrun].
  intros [i result] s1 s2 Hi%elem_of_enumerate. by apply sensors_inv_step.
Qed.

(** ** Every accepted record becomes a row *)

Lemma create_sensors_body_rows (now : nat -> Q) ir s s' row :
  create_sensors_body now ir s = Ok s' ->
  row ∈ db_sensors s.1 -> row ∈ db_sensors s'.1.
Proof.
  destruct ir as [i result], s as [d n], s' as [d' n'].
  intros [(_ & -> & ->)|[Hc ->]]%create_sensors_body_inv; [done|].
  apply create_sensor_Some_inv in Hc as (? & ? & ? & ? & _ & _ & _ & Hins).
  apply insert_sensors_Ok_inv in Hins as (_ & Hp & _). cbn [fst snd].
  rewrite Hp. by right.
Qed.

Lemma create_sensors_body_accepted (now : nat -> Q) i result s s' lat lon :
  create_sensors_body now (i, result) s = Ok s' ->
  accepted (now i) result lat lon ->
  exists id, row_id_of result id /\ sensor_row id lat lon ∈ db_sensors s'.1.
Proof.
  destruct s as [d n], s' as [d' n']. unfold create_sensors_body.
  cbn [fst snd]. intros Hrun Hacc.
  rewrite (create_sensor_accepted _ _ _ _ _ Hacc) in Hrun.
  apply bind_Ok_inv in Hrun as (r & Hr & Hrun).
  apply bind_Ok_inv in Hr as (id_value & Hv & Hr).
  apply bind_Ok_inv in Hr as (id & Hid & Hr).
  apply bind_Ok_inv in Hr as (d1 & Hins & Hr).
  assert (r = Some d1) as -> by congruence.
  assert (d' = d1) as -> by congruence.
  apply insert_sensors_Ok_inv in Hins as (_ & Hp & _).
  exists id. split; [by exists id_value, (sensors_id <$> db_sensors d)|].
  rewrite Hp. by left.
Qed.

Lemma create_sensors_accepted (now : nat -> Q) results d s i result lat lon :
  create_sensors now results d = Ok s ->
  results !! i = Some result -> accepted (now i) result lat lon ->
  exists id, row_id_of result id /\ sensor_row id lat lon ∈ db_sensors s.1.
Proof.
  intros Hrun Hi Hacc.
  apply elem_of_enumerate in Hi. revert i result lat lon Hi Hacc.
  apply (for_each_inv
    (fun done s => forall i result lat lon,
       (i, result) ∈ done -> accepted (now i) result lat lon ->
       exists id, row_id_of result id /\ sensor_row id lat lon ∈ db_sensors s.1)
    (create_sensors_body now) (enumerate results) (d, 0) s);
    [by intros ???? ?%elem_of_nil | | exact Hrun].
  clear. intros done [j r] s1 s2 _ IH Hbody i result lat lon Hin Hacc.
  apply elem_of_app in Hin as [Hin|Hin%list_elem_of_singleton].
  - destruct (IH _ _ _ _ Hin Hacc) as (id & Hv & Hid). exists id.
    split; [done|]. by eapply create_sensors_body_rows.
  - injection Hin as -> ->. by eapply create_sensors_body_accepted.
Qed.

(** ** What the loop raises *)

(** A [LastSeen] that is not a number is a [TypeError] of the comparison,
    which the loop does not catch. *)
Lemma create_sensor_LastSeen_TypeError now result d :
  get "DEVICE_LOCATIONTYPE" result = VStr "outside" ->
  truthy (get "ParentID" result) = false ->
  number_of (get "LastSeen" result) = Raise TypeError ->
  create_sensor now result (Some d) = Raise TypeError.
Proof.
  intros Hout Hparent Hseen. unfold create_sensor, lt_float.
  by rewrite (proj2 (ne_str_false _ _) Hout), Hparent, Hseen.
Qed.

(** The loop raises what its first record that raises does. *)
Lemma create_sensors_Raise (now : nat -> Q) rs1 result rs2 d s1 e :
  create_sensors now rs1 d = Ok s1 ->
  create_sensor (now (length rs1)) result (Some s1.1) = Raise e ->
  create_sensors now (rs1 ++ result :: rs2) d = Raise e.
Proof.
  unfold create_sensors. intros H1 He. rewrite enumerate_app.
  eapply for_each_Raise; [exact H1|]. unfold create_sensors_body.
  cbn [fst snd]. by rewrite Nat.add_0_r, He.
Qed.

Lemma create_sensors_count (now : nat -> Q) results d s :
  create_sensors now results d = Ok s -> s.2 <= length results.
Proof.
  intros Hrun. rewrite <- length_enumerate.
  apply (for_each_inv (fun done s => s.2 <= length done)
           (create_sensors_body now) (enumerate results) (d, 0) s);
    [done | | exact Hrun].
  clear. intros done [i result] [d1 n1] [d2 n2] _ Hn.
  rewrite length_app. cbn [fst snd length] in *.
  intros [(_ & _ & ->)|[_ ->]]%create_sensors_body_inv; lia.
Qed.

(** ** Properties *)

(** C5: every row that [create_sensors] adds to [sensors] comes from a
    record of the feed that passes all the tests of the loop: an outdoor
    sensor without a parent, seen in the last 24 hours, with a PM2.5 value
    that is neither below 0 nor above 500 and with valid coordinates other
    than 0; the row has the [ID] of the record as its [id], and holds the
    coordinates rounded to six decimals and the geohash of the coordinates
    of the feed. *)
Theorem create_sensors_rows_accepted (now : nat -> Q) results d d' n :
  db_ok d -> create_sensors now results d = Ok (d', n) ->
  Forall (fun row => row ∈ db_sensors d \/ row_of_feed now results row)
    (db_sensors d').
Proof.
  intros Hd Hrun.
  destruct (create_sensors_inv _ _ _ _ Hd Hrun) as [_ _ (new & Hp & _ & Hnew)].
  cbn [fst] in Hp. rewrite Hp. apply Forall_app. split.
  - eapply Forall_impl; [exact Hnew|]. by right.
  - apply Forall_forall. by left.
Qed.

(** C10: every record of the feed that passes the tests has its row in
    [sensors], under the [ID] of the record, after a run of
    [create_sensors] that returns. *)
Theorem create_sensors_inserts_accepted (now : nat -> Q) results d d' n
    i result lat lon :
  create_sensors now results d = Ok (d', n) ->
  results !! i = Some result -> accepted (now i) result lat lon ->
  exists id, row_id_of result id /\ sensor_row id lat lon ∈ db_sensors d'.
Proof. apply create_sensors_accepted. Qed.

(** [create_sensors] keeps the constraints of the database, changes no
    table but [sensors], and [num_created] counts the rows it added, at
    most one per record. *)
Theorem create_sensors_keeps_db_ok (now : nat -> Q) results d d' n :
  db_ok d -> create_sensors now results d = Ok (d', n) ->
  db_ok d' /\ same_but_sensors d d'
  /\ length (db_sensors d') = n + length (db_sensors d)
  /\ n <= length results.
Proof.
  intros Hd Hrun.
  destruct (create_sensors_inv _ _ _ _ Hd Hrun)
    as [Hok Hfr (new & Hp & Hn & _)].
  cbn [fst snd] in *. split; [done|]. split; [done|].
  split; [by rewrite Hp, length_app, Hn|].
  apply (create_sensors_count _ _ _ _ Hrun).
Qed.

(** C22: a record of an outdoor sensor without a parent whose [LastSeen] is
    missing or is not a number ends the whole run with [TypeError]: the
    comparison with the time is not guarded, and the records after it are
    never read. *)
Theorem create_sensors_LastSeen_TypeError (now : nat -> Q) rs1 result rs2 d s1 :
  create_sensors now rs1 d = Ok s1 ->
  get "DEVICE_LOCATIONTYPE" result = VStr "outside" ->
  truthy (get "ParentID" result) = false ->
  number_of (get "LastSeen" result) = Raise TypeError ->
  create_sensors now (rs1 ++ result :: rs2) d = Raise TypeError.
Proof.
  intros H1 Hout Hparent Hseen. eapply create_sensors_Raise; [exact H1|].
  by apply create_sensor_LastSeen_TypeError.
Qed.

(** C30: a record that passes the tests and whose [ID] a row of [sensors]
    already has, from the database at the start or from a record before
    it in the feed, ends the run with the [IntegrityError] of the primary
    key.  The loop has committed after every row: the database keeps the
    rows of the records before it and nothing of the records after it. *)
Theorem create_sensors_duplicate_ID (now : nat -> Q) rs1 result rs2 d s1
    lat lon id :
  db_ok d -> create_sensors now rs1 d = Ok s1 ->
  accepted (now (length rs1)) result lat lon ->
  getitem "ID" result = Ok (VInt id) -> int64b id = true ->
  id ∈ sensors_id <$> db_sensors s1.1 ->
  run_each (create_sensors_body now) (enumerate (rs1 ++ result :: rs2)) (d, 0)
  = (s1, Some IntegrityError).
Proof.
  intros Hd H1 Hacc Hid H64 Hin.
  pose proof (sensors_inv_ok _ _ _ _ (create_sensors_inv _ _ _ _ Hd H1)) as Hok.
  rewrite enumerate_app. apply run_each_Some. eexists _, _, _.
  split; [reflexivity|]. split; [exact H1|].
  unfold create_sensors_body. cbn [fst snd]. rewrite Nat.add_0_r.
  rewrite (create_sensor_accepted _ _ _ _ _ Hacc), Hid. cbn [bind].
  rewrite rowid_of_value_int, H64. cbn [bind].
  by rewrite (proj2 (insert_sensors_Raise_iff (sensor_row id lat lon) _ Hok
                      (key_of_length lat lon)) Hin).
Qed.

(** C23: a PM2.5 value that is the text [nan] passes the test
    [pm25 < 0 or pm25 > 500], because both comparisons with [nan] are
    false: the record is accepted and its row inserted, under its [ID]
    when that is an integer of 64 bits. *)
Theorem create_sensor_nan_accepted now result d lat lon id :
  get "DEVICE_LOCATIONTYPE" result = VStr "outside" ->
  truthy (get "ParentID" result) = false ->
  lt_float (get "LastSeen" result) (Finite (now - 86400)) = Ok false ->
  get "PM2_5Value" result = VStr "nan" ->
  truthy (get "Lat" result) = true -> coordinate_of (get "Lat" result) = Ok lat ->
  truthy (get "Lon" result) = true -> coordinate_of (get "Lon" result) = Ok lon ->
  valid_coordinate lat lon = true ->
  getitem "ID" result = Ok (VInt id) -> int64b id = true ->
  accepted now result lat lon
  /\ create_sensor now result (Some d)
     = (d' <- insert_sensors (sensor_row id lat lon) d ;; Ok (Some d'))%py.
Proof.
  intros Hout Hparent Hseen Hpm Hlat Elat Hlon Elon Hv Hid H64.
  assert (accepted now result lat lon) as Hacc.
  { split; try done. exists NaN. rewrite Hpm. cbn [float_of truthy].
    by rewrite float_of_string_nan. }
  split; [exact Hacc|].
  rewrite (create_sensor_accepted _ _ _ _ _ Hacc), Hid. cbn [bind].
  by rewrite rowid_of_value_int, H64.
Qed.

(** C24: a PM2.5 value that is the number 0 is skipped, by the test
    [if not pm25], although 0 is neither below 0 nor above 500. *)
Theorem create_sensor_zero_skipped now result d d' :
  get "PM2_5Value" result = VInt 0
  \/ get "PM2_5Value" result = VFloat (Finite 0) ->
  create_sensor now result (Some d) <> Ok (Some d')
  /\ float_ltb (Finite 0) (Finite 0) = false
  /\ float_ltb (Finite 500) (Finite 0) = false.
Proof.
  intros Hpm. split; [|done].
  intros (lat & lon & ? & ? & [_ _ _ (x & Ht & _) _ _ _] & _)%create_sensor_Some_inv.
  by destruct Hpm as [Hpm|Hpm]; rewrite Hpm in Ht.
Qed.

(** The coordinates stored in a row are within half a millionth of a
    degree of the coordinates of the feed. *)
Theorem sensor_row_near (id : Z) (lat lon : Q) :
  (Qabs (sensors_latitude (sensor_row id lat lon) - lat) <= 1 # 2000000)%Q
  /\ (Qabs (sensors_longitude (sensor_row id lat lon) - lon) <= 1 # 2000000)%Q.
Proof. split; apply round6_error. Qed.

(** The row depends on the point, not on the fractions that stand for
    its coordinates. *)
#[export] Instance sensor_row_proper id :
  Proper (Qeq ==> Qeq ==> eq) (sensor_row id).
Proof.
  intros lat lat' Elat lon lon' Elon. unfold sensor_row.
  by rewrite (round6_proper _ _ Elat), (round6_proper _ _ Elon),
    (key_of_proper _ _ Elat _ _ Elon).
Qed.

(** C35: the geohash of a row has twelve symbols, and the coordinates of
    the feed lie in the cell of every prefix of it. *)
Theorem sensor_row_cells id lat lon L :
  valid_coordinate lat lon = true -> L <= 12 ->
  length (sensors_geohash_bits (sensor_row id lat lon)) = 12
  /\ exists c,
       cell_of_key (take L (sensors_geohash_bits (sensor_row id lat lon)))
       = Some c
       /\ contains c lon lat.
Proof.
  intros Hv HL. cbn [sensor_row sensors_geohash_bits].
  split; [apply key_of_length | by apply key_of_cell_contains].
Qed.

(** C18: the test of the query on the first [L] symbols of the key of a
    point selects the row of a sensor exactly when the sensor lies in the
    cell of these symbols. *)
Theorem prefix_query_cell id lat lon latitude longitude L :
  valid_coordinate lat lon = true -> L <= 12 ->
  geohash_bits_match (take L (key_of latitude longitude))
    (sensors_geohash_bits (sensor_row id lat lon)) = true
  <-> exists c, cell_of_key (take L (key_of latitude longitude)) = Some c
                /\ contains c lon lat.
Proof.
  intros Hv HL. rewrite geohash_bits_match_take, length_take, key_of_length.
  cbn [sensor_row sensors_geohash_bits]. rewrite Nat.min_l by done.
  by apply key_of_same_prefix.
Qed.

End Sensors.

(** The key of a row is the geohash of the coordinates before they are
    rounded, so it is not a function of the coordinates stored: two
    sensors with the same stored coordinates have different keys, and the
    key of a row is not the geohash of its stored coordinates. *)
Example sensor_row_key_unrounded :
  let lat1 := 3777490049 # 100000000 in
  let lat2 := 3777490010 # 100000000 in
  let lon := -1224194 # 10000 in
  let row1 := sensor_row 1 lat1 lon in
  let row2 := sensor_row 2 lat2 lon in
  sensors_latitude row1 = sensors_latitude row2
  /\ sensors_longitude row1 = sensors_longitude row2
  /\ sensors_geohash_bits row1 <> sensors_geohash_bits row2
  /\ sensors_geohash_bits row1
     <> key_of (sensors_latitude row1) (sensors_longitude row1).
Proof. vm_compute. repeat split; discriminate. Qed.

(** ** A feed of eight records *)

Section Feed.
#[local] Existing Instance decimal_literals.

(** The time of the run, in seconds. *)
Definition feed_now : nat -> Q := fun _ => 1600000000%Q.

Definition feed_record (id : Z) (location : string) (parent : value)
    (last_seen : value) (pm25 : value) (lat lon : Q) : dict :=
  [("ID", VInt id); ("ParentID", parent);
   ("DEVICE_LOCATIONTYPE", VStr location); ("LastSeen", last_seen);
   ("PM2_5Value", pm25); ("Lat", VFloat (Finite lat));
   ("Lon", VFloat (Finite lon))].

Definition sf_lat : Q := 377749 # 10000.
Definition sf_lon : Q := -1224194 # 10000.

(** Sensor 1 is accepted; 2 is indoors; 3 has a parent; 4 was last seen
    two days ago; 5 reports 600; 6 reports [nan]; 7 reports the number 0;
    8 is accepted. *)
Definition sf_feed : list dict :=
  [feed_record 1 "outside" VNone (VInt 1599999000) (VStr "12.5") sf_lat sf_lon;
   feed_record 2 "inside" VNone (VInt 1599999000) (VStr "3.0") sf_lat sf_lon;
   feed_record 3 "outside" (VInt 1) (VInt 1599999000) (VStr "3.0") sf_lat sf_lon;
   feed_record 4 "outside" VNone (VInt 1599800000) (VStr "3.0") sf_lat sf_lon;
   feed_record 5 "outside" VNone (VInt 1599999000) (VStr "600") sf_lat sf_lon;
   feed_record 6 "outside" VNone (VInt 1599999000) (VStr "nan") sf_lat sf_lon;
   feed_record 7 "outside" VNone (VInt 1599999000) (VInt 0) sf_lat sf_lon;
   feed_record 8 "outside" VNone (VInt 1599999000) (VStr "0.0")
     (sf_lat + (1 # 100))%Q sf_lon].

Definition sf_feed_run : result (db Q * nat) :=
  create_sensors feed_now sf_feed create_db.

Definition sf_feed_db : db Q :=
  Eval vm_compute in
    match sf_feed_run with Ok (d, _) => d | Raise _ => create_db end.

Lemma sf_feed_run_Ok : sf_feed_run = Ok (sf_feed_db, 3).
Proof. vm_compute. reflexivity. Qed.

(** Sensors 1, 6 and 8 are the rows. *)
Example sf_feed_ids : sensors_id <$> db_sensors sf_feed_db = [1; 6; 8]%Z.
Proof. vm_compute. reflexivity. Qed.

Lemma sf_feed_db_ok : db_ok sf_feed_db.
Proof.
  exact (sensors_inv_ok _ _ _ _
           (create_sensors_inv feed_now sf_feed create_db _ create_db_ok
              sf_feed_run_Ok)).
Qed.

Lemma create_sensors_rows_accepted_witness :
  Forall (fun row => row ∈ db_sensors (create_db (D := Q))
                     \/ row_of_feed feed_now sf_feed row)
    (db_sensors sf_feed_db).
Proof.
  exact (create_sensors_rows_accepted feed_now sf_feed create_db sf_feed_db 3
           create_db_ok sf_feed_run_Ok).
Defined.

Definition sf_record_1 : dict :=
  feed_record 1 "outside" VNone (VInt 1599999000) (VStr "12.5") sf_lat sf_lon.

Lemma sf_record_1_accepted : accepted (feed_now 0) sf_record_1 sf_lat sf_lon.
Proof.
  split; try (vm_compute; reflexivity); try (split; vm_compute; reflexivity).
  exists (Finite (25 # 2)). repeat split; vm_compute; reflexivity.
Qed.

Lemma create_sensors_inserts_accepted_witness :
  exists id, row_id_of sf_record_1 id
             /\ sensor_row id sf_lat sf_lon ∈ db_sensors sf_feed_db.
Proof.
  exact (create_sensors_inserts_accepted feed_now sf_feed create_db sf_feed_db 3
           0 sf_record_1 sf_lat sf_lon sf_feed_run_Ok eq_refl
           sf_record_1_accepted).
Defined.

Lemma create_sensors_keeps_db_ok_witness :
  db_ok sf_feed_db /\ same_but_sensors create_db sf_feed_db
  /\ length (db_sensors sf_feed_db) = 3 + length (db_sensors (create_db (D := Q)))
  /\ 3 <= length sf_feed.
Proof.
  exact (create_sensors_keeps_db_ok feed_now sf_feed create_db sf_feed_db 3
           create_db_ok sf_feed_run_Ok).
Defined.

(** A record without [LastSeen]. *)
Definition sf_record_unseen : dict :=
  feed_record 9 "outside" VNone VNone (VStr "3.0") sf_lat sf_lon.

Definition sf_feed_1 : db Q * nat :=
  Eval vm_compute in
    match create_sensors feed_now [sf_record_1] create_db with
    | Ok s => s
    | Raise _ => (create_db, 0)
    end.

Lemma sf_feed_1_Ok : create_sensors feed_now [sf_record_1] create_db = Ok sf_feed_1.
Proof. vm_compute. reflexivity. Qed.

Lemma create_sensors_LastSeen_TypeError_witness :
  create_sensors (D := Q) feed_now
    ([sf_record_1] ++ sf_record_unseen :: [sf_record_1]) create_db
  = Raise TypeError.
Proof.
  exact (create_sensors_LastSeen_TypeError feed_now [sf_record_1]
           sf_record_unseen [sf_record_1] create_db sf_feed_1
           sf_feed_1_Ok eq_refl eq_refl eq_refl).
Defined.

(** A record that reports [nan]. *)
Definition sf_record_nan : dict :=
  feed_record 6 "outside" VNone (VInt 1599999000) (VStr "nan") sf_lat sf_lon.

Lemma create_sensor_nan_accepted_witness :
  accepted (feed_now 0) sf_record_nan sf_lat sf_lon
  /\ create_sensor (D := Q) (feed_now 0) sf_record_nan (Some create_db)
     = (d' <- insert_sensors (sensor_row 6 sf_lat sf_lon) create_db ;;
        Ok (Some d'))%py.
Proof.
  apply (create_sensor_nan_accepted (D := Q) (feed_now 0) sf_record_nan
           create_db sf_lat sf_lon 6); vm_compute; reflexivity.
Defined.

(** The feed of one record, twice: the second round raises, the row of
    the first stays. *)
Lemma create_sensors_duplicate_ID_witness :
  run_each (create_sensors_body (D := Q) feed_now)
    (enumerate ([sf_record_1] ++ sf_record_1 :: [sf_record_nan])) (create_db, 0)
  = (sf_feed_1, Some IntegrityError).
Proof.
  apply (create_sensors_duplicate_ID feed_now [sf_record_1] sf_record_1
           [sf_record_nan] create_db sf_feed_1 sf_lat sf_lon 1
           create_db_ok sf_feed_1_Ok sf_record_1_accepted eq_refl eq_refl).
  vm_compute. apply list_elem_of_here.
Defined.

(** A record that reports the number 0. *)
Definition sf_record_zero : dict :=
  feed_record 7 "outside" VNone (VInt 1599999000) (VInt 0) sf_lat sf_lon.

Lemma create_sensor_zero_skipped_witness :
  create_sensor (D := Q) (feed_now 0) sf_record_zero (Some create_db)
  <> Ok (Some create_db)
  /\ float_ltb (Finite 0) (Finite 0) = false
  /\ float_ltb (Finite 500) (Finite 0) = false.
Proof.
  apply (create_sensor_zero_skipped (D := Q) (feed_now 0) sf_record_zero
           create_db create_db).
  left. reflexivity.
Defined.

Lemma sensor_row_cells_witness :
  length (sensors_geohash_bits (sensor_row 1 sf_lat sf_lon)) = 12
  /\ exists c,
       cell_of_key (take 5 (sensors_geohash_bits (sensor_row 1 sf_lat sf_lon)))
       = Some c
       /\ contains c sf_lon sf_lat.
Proof.
  apply (sensor_row_cells 1 sf_lat sf_lon 5); [vm_compute; reflexivity | lia].
Defined.

Lemma prefix_query_cell_witness :
  geohash_bits_match (take 5 (key_of (sf_lat + (1 # 100)) sf_lon))
    (sensors_geohash_bits (sensor_row 1 sf_lat sf_lon)) = true
  <-> exists c,
        cell_of_key (take 5 (key_of (sf_lat + (1 # 100)) sf_lon)) = Some c
        /\ contains c sf_lon sf_lat.
Proof.
  apply (prefix_query_cell 1 sf_lat sf_lon (sf_lat + (1 # 100)) sf_lon 5);
    [vm_compute; reflexivity | lia].
Defined.

End Feed.
