(* ===== verification/Examples.v ===== *)
(** * Examples: concrete tables on which the development is run

    The tables below are small [sensors] tables around San Francisco.
    Every row is the row that [create_sensors] stores for a sensor at its
    coordinates ([sensor_row]): its key is the geohash of the coordinates.
    The tables whose coordinates are parameters have the keys of the
    coordinates at which they are run, as the examples that follow them
    show.  Distances are taken with the executable instance [grid_km] of
    [DistanceFunction], so that every run evaluates inside the kernel. *)

From Stdlib Require Import QArith Ascii.
From stdpp Require Import base list strings gmap sorting.
From S2P Require Import Prelude Distance Geohash PyValue Database Sensors.

(** A row of [sensors] from its geohash as a string. *)
Definition sensor (id : Z) (latitude longitude : Q) (gh : string) : sensors_row :=
  SensorsRow id latitude longitude (String.list_ascii_of_string gh).

Definition db_of_sensors {D : Type} (rows : list sensors_row) : db D :=
  Db rows [] [] [] 0 0.

(** The postal code 94103, at the coordinates of Scenario A of the
    specification. *)
Definition sf_latitude : Q := 377749 # 10000.
Definition sf_longitude : Q := -1224194 # 10000.
Definition sf_geohash : string := "9q8yyk8ytpxr".

Example sf_geohash_key :
  key_of sf_latitude sf_longitude = String.list_ascii_of_string sf_geohash.
Proof. vm_compute. reflexivity. Qed.

(** Five sensors.  Sensor 1 is at the postal code; sensor 2 is 14 m away
    and shares seven symbols with its key, [9q8yyk8]; sensor 3 is 2.9 km
    north, across the edge of the cell [9q8y], and shares three; sensor 4
    is 45 km away in the cell [9qc], and sensor 5 is 13 km east in the
    cell [9q9], across the bay: both share two. *)
Definition sf_sensors : list sensors_row :=
  Eval vm_compute in
    [sensor_row 1 (377749 # 10000) (-1224194 # 10000);
     sensor_row 2 (377750 # 10000) (-1224195 # 10000);
     sensor_row 3 (378000 # 10000) (-1224100 # 10000);
     sensor_row 4 (380000 # 10000) (-1220000 # 10000);
     sensor_row 5 (378044 # 10000) (-1222712 # 10000)].

Example sf_sensors_keys :
  String.string_of_list_ascii <$> (sensors_geohash_bits <$> sf_sensors)
  = ["9q8yyk8ytpxr"; "9q8yyk8z6fks"; "9q8zn3rbbq8r"; "9qc0pvdq1cqt";
     "9q9p1dhfddcn"]%string.
Proof. vm_compute. reflexivity. Qed.

Definition sf_db : db Q := db_of_sensors sf_sensors.

(** Two sensors of which the first shares five symbols with the key of
    the postal code and the second four. *)
Definition edge_sensors_at (lat1 lon1 lat2 lon2 : Q) : list sensors_row :=
  [sensor 10 lat1 lon1 "9q8yycyrfq1t";
   sensor 11 lat2 lon2 "9q8yvutw9xxp"].

(** The first 3.1 km south east, in the cell [9q8yy] of the postal code;
    the second 1.4 km west, across the edge of that cell. *)
Definition edge_sensors : list sensors_row :=
  edge_sensors_at (round6 (377600 # 10000)) (round6 (-1223900 # 10000))
                  (round6 (377749 # 10000)) (round6 (-1224350 # 10000)).

Example edge_sensors_rows :
  edge_sensors
  = [sensor_row 10 (377600 # 10000) (-1223900 # 10000);
     sensor_row 11 (377749 # 10000) (-1224350 # 10000)].
Proof. vm_compute. reflexivity. Qed.

Definition edge_db : db Q := db_of_sensors edge_sensors.

(** One sensor in the cell of the postal code. *)
Definition single_sensor_at (lat1 lon1 : Q) : list sensors_row :=
  [sensor 1 lat1 lon1 "9q8yyk8ytpxr"].

Example single_sensor_rows :
  single_sensor_at (round6 sf_latitude) (round6 sf_longitude)
  = [sensor_row 1 sf_latitude sf_longitude].
Proof. vm_compute. reflexivity. Qed.

(** Two sensors of which the first shares three symbols with the key and
    the second two. *)
Definition far_near_sensors_at (lat1 lon1 lat2 lon2 : Q) : list sensors_row :=
  [sensor 20 lat1 lon1 "9q8vnh41qc5q";
   sensor 21 lat2 lon2 "9q9p1dhfddcn"].

(** The first 35 km south, in the cell [9q8] of the postal code; the
    second 13 km east, across the edge of that cell. *)
Definition far_near_sensors : list sensors_row :=
  far_near_sensors_at (round6 (374636 # 10000)) (round6 (-1224286 # 10000))
                      (round6 (378044 # 10000)) (round6 (-1222712 # 10000)).

Example far_near_sensors_rows :
  far_near_sensors
  = [sensor_row 20 (374636 # 10000) (-1224286 # 10000);
     sensor_row 21 (378044 # 10000) (-1222712 # 10000)].
Proof. vm_compute. reflexivity. Qed.

(** [n] sensors on the meridian of the postal code, sensor [i] at [13 + i]
    hundred thousandths of a degree south of it: from 16 m on, a good
    metre apart. *)
Definition row_of_sensors (n : nat) : list sensors_row :=
  (fun i => sensor_row (Z.of_nat i)
              (sf_latitude - (Z.of_nat (13 + i) # 100000)) sf_longitude)
  <$> seq 1 n.

(** Thirty sensors in range (Scenario B of the specification).  All are
    in the cell [9q8yyk8] of the postal code and none in its cell
    [9q8yyk8y]: the round on seven symbols is the first that selects
    a sensor, and it selects the thirty. *)
Definition many_db : db Q := Eval vm_compute in db_of_sensors (row_of_sensors 30).

Definition key_9q8yyk8 : list ascii := String.list_ascii_of_string "9q8yyk8".

Example many_db_keys :
  Forall (fun r => take 8 (sensors_geohash_bits r)
                   <> take 8 (String.list_ascii_of_string sf_geohash)
                   /\ take 7 (sensors_geohash_bits r) = key_9q8yyk8)
    (db_sensors many_db).
Proof. apply (bool_decide_unpack _). vm_compute. exact I. Qed.

(** [db_ok] of a concrete database, by evaluation. *)
Ltac solve_db_ok :=
  constructor; simpl; try (split; lia);
  apply (bool_decide_unpack _); vm_compute; exact I.

Lemma sf_db_ok : db_ok sf_db.
Proof. solve_db_ok. Qed.

Lemma edge_db_ok {D : Type} lat1 lon1 lat2 lon2 :
  db_ok (D := D) (db_of_sensors (edge_sensors_at lat1 lon1 lat2 lon2)).
Proof. solve_db_ok. Qed.

Lemma single_db_ok {D : Type} lat1 lon1 :
  db_ok (D := D) (db_of_sensors (single_sensor_at lat1 lon1)).
Proof. solve_db_ok. Qed.

Lemma far_near_db_ok {D : Type} lat1 lon1 lat2 lon2 :
  db_ok (D := D) (db_of_sensors (far_near_sensors_at lat1 lon1 lat2 lon2)).
Proof. solve_db_ok. Qed.

Lemma many_db_ok : db_ok many_db.
Proof. solve_db_ok. Qed.

(** ** The statements of [Database] on [sf_db] *)

Definition key_9q8 : list ascii := String.list_ascii_of_string "9q8".

Lemma select_sensors_sf_db :
  select_sensors key_9q8 {[1%Z]} sf_db = Ok (selected_sensors key_9q8 {[1%Z]} sf_db).
Proof. apply select_sensors_Ok. simpl. lia. Qed.

(** Sensors 2 and 3 are in the cell [9q8] and not excluded; sensors 4
    and 5 are in other cells. *)
Example selected_sensors_sf_db :
  (selected_sensors key_9q8 {[1%Z]} sf_db).*1.*1 = [2%Z; 3%Z].
Proof. vm_compute. reflexivity. Qed.

Lemma select_sensors_contract_witness :
  0 < length key_9q8 <= 12
  /\ StronglySorted (fun a b : Z * Q * Q => (a.1.1 < b.1.1)%Z)
       (selected_sensors key_9q8 {[1%Z]} sf_db)
  /\ forall id lat lon,
       (id, lat, lon) ∈ selected_sensors key_9q8 {[1%Z]} sf_db <->
       exists r, r ∈ db_sensors sf_db /\
         (sensors_id r, sensors_latitude r, sensors_longitude r)
         = (id, lat, lon) /\
         take (length key_9q8) (sensors_geohash_bits r) = key_9q8
         /\ id ∉ ({[1%Z]} : gset Z).
Proof.
  exact (select_sensors_contract key_9q8 {[1%Z]} sf_db _ sf_db_ok
           select_sensors_sf_db).
Defined.

(** Sensor 0, 8 km south, goes to the head of the table, before
    sensor 1. *)
Definition sf_sensor_0 : sensors_row :=
  Eval vm_compute in sensor_row 0 (377000 # 10000) (-1224000 # 10000).

Definition sf_db_with_0 : db Q := db_of_sensors (sf_sensor_0 :: sf_sensors).

Lemma insert_sensors_sf_db : insert_sensors sf_sensor_0 sf_db = Ok sf_db_with_0.
Proof. vm_compute. reflexivity. Qed.

Lemma insert_sensors_keeps_db_ok_witness :
  db_ok sf_db_with_0 /\
  db_sensors sf_db_with_0 ≡ₚ sf_sensor_0 :: db_sensors sf_db.
Proof.
  exact (insert_sensors_keeps_db_ok _ sf_db sf_db_with_0 sf_db_ok
           insert_sensors_sf_db).
Defined.

Lemma insert_zipcodes_unique_witness :
  if bool_decide ("94103" ∈ zipcodes_zipcode <$> db_zipcodes sf_db)
  then insert_zipcodes "94103" 1 sf_latitude sf_longitude
         (String.list_ascii_of_string sf_geohash) sf_db
       = Raise IntegrityError
  else exists d',
    insert_zipcodes "94103" 1 sf_latitude sf_longitude
      (String.list_ascii_of_string sf_geohash) sf_db
      = Ok ((seq_zipcodes sf_db + 1)%Z, d')
    /\ db_zipcodes d'
       = db_zipcodes sf_db ++
         [ZipcodesRow (seq_zipcodes sf_db + 1) 1 "94103" sf_latitude sf_longitude
            (String.list_ascii_of_string sf_geohash)]
    /\ ((seq_zipcodes sf_db + 1)%Z ∉ zipcodes_id <$> db_zipcodes sf_db)
    /\ db_ok d'.
Proof.
  exact (insert_zipcodes_unique "94103" 1 sf_latitude sf_longitude
           (String.list_ascii_of_string sf_geohash) sf_db sf_db_ok eq_refl).
Defined.
