(* ===== verification/Matcher.v ===== *)
(** * Matcher: [create_sensors_zipcodes]

    The function links one postal code to the sensors near it.  It walks
    the geohash of the postal code from its full length down to one
    symbol; at each length it selects the sensors whose geohash starts
    with that prefix and that it has not linked yet, sorts them by
    distance and links them one by one, and it returns for good at the
    first sensor that is 25 km away or more, or when 25 sensors are
    linked.

    [new_sensors] is the sorted batch, [for_new_sensors] the [for] loop
    with its two [return]s, [while_body] one round of the [while] loop and
    [while_gh] the loop.  The theorems of this file hold of every run that
    does not raise; [MatcherSpec] shows when a run does not raise and which
    rows it inserts. *)

From Stdlib Require Import QArith Ascii.
From stdpp Require Import base list strings gmap sorting.
From Equations Require Import Equations.
From S2P Require Import Prelude Distance PySorted Database Examples.

Section Matcher.
Context {D : Type} `{DistanceFunction D}.
Implicit Types (d : db D) (gh : list ascii) (sensors : gset Z).
Implicit Types (zipcode_id : Z) (longitude latitude : Q).

(** [sorted([(r[0], haversine_distance(longitude, latitude, r[2], r[1]))
    for r in cursor.fetchall()], key=lambda s: s[1])]; a row [r] is
    [(id, latitude, longitude)]. *)
Definition new_sensors longitude latitude (rows : list (Z * Q * Q))
    : list (Z * D) :=
  sorted snd dist_ltb
    ((fun r => (r.1.1, distance longitude latitude r.2 r.1.2)) <$> rows).

(** The [for] loop over the batch.  [Return] is one of the two [return]
    statements; [Continue] is the end of the batch. *)
Fixpoint for_new_sensors zipcode_id (batch : list (Z * D)) sensors d
    : result (loop_exit * gset Z * db D) :=
  match batch with
  | [] => Ok (Continue, sensors, d)
  | (sensor_id, distance) :: batch' =>
      if dist_geb distance 25 then Ok (Return, sensors, d)
      else if bool_decide (25 <= size sensors) then Ok (Return, sensors, d)
      else
        (d' <- insert_sensors_zipcodes sensor_id zipcode_id distance d ;;
         for_new_sensors zipcode_id batch' ({[sensor_id]} ∪ sensors) d')%py
  end.

(** One round of the [while] loop, up to [gh.pop()]. *)
Definition while_body zipcode_id longitude latitude gh sensors d
    : result (loop_exit * gset Z * db D) :=
  (rows <- select_sensors gh sensors d ;;
   for_new_sensors zipcode_id (new_sensors longitude latitude rows) sensors d)%py.

(** [while gh: ...; gh.pop()]. *)
Equations? while_gh zipcode_id longitude latitude gh sensors d
    : result (gset Z * db D) by wf (length gh) lt :=
  while_gh zipcode_id longitude latitude [] sensors d := Ok (sensors, d);
  while_gh zipcode_id longitude latitude (g :: gh') sensors d
    with while_body zipcode_id longitude latitude (g :: gh') sensors d => {
    | Raise e => Raise e
    | Ok (Return, sensors', d') => Ok (sensors', d')
    | Ok (Continue, sensors', d') =>
        while_gh zipcode_id longitude latitude (removelast (g :: gh')) sensors' d' }.
Proof. apply removelast_length_lt. Qed.

(** [create_sensors_zipcodes(cursor, zipcode_id, zipcode, latitude,
    longitude, gh)].  The cursor is the database; the function returns
    [None] and its effect is the database it leaves. *)
Definition create_sensors_zipcodes d zipcode_id (zipcode : string)
    latitude longitude (gh : string) : result (db D) :=
  (r <- while_gh zipcode_id longitude latitude (String.list_ascii_of_string gh) ∅ d ;;
   Ok r.2)%py.

(** ** The effect of a pass

    [add_links zipcode_id links d] is [d] with one row of [sensors_zipcodes]
    more for each pair [(sensor_id, distance)] of [links], in that order;
    [new_links d d'] reads the pairs back from the rows that [d'] has after
    those of [d]. *)
Definition link_row zipcode_id (l : Z * D) : sensors_zipcodes_row D :=
  SensorsZipcodesRow l.1 zipcode_id l.2.

Definition add_links zipcode_id (links : list (Z * D)) d : db D :=
  Db (db_sensors d) (db_zipcodes d) (db_cities d)
     (db_sensors_zipcodes d ++ (link_row zipcode_id <$> links))
     (seq_zipcodes d) (seq_cities d).

Definition new_links d d' : list (Z * D) :=
  (fun r => (sensors_zipcodes_sensor_id r, sensors_zipcodes_distance r)) <$>
  drop (length (db_sensors_zipcodes d)) (db_sensors_zipcodes d').

(** The invariant of both loops: [d] is the database [d0] of the start
    with the rows of [links], and [sensors] holds their sensors. *)
Record pass_inv zipcode_id (d0 : db D) (links : list (Z * D)) sensors d
    : Prop := PassInv {
  pass_db : d = add_links zipcode_id links d0;
  pass_sensors : sensors = list_to_set links.*1;
  pass_NoDup : NoDup links.*1;
  pass_length : length links <= 25;
  pass_radius : Forall (fun l => dist_geb l.2 25 = false) links
}.

Lemma add_links_nil zipcode_id d : add_links zipcode_id [] d = d.
Proof. destruct d. unfold add_links. simpl. by rewrite app_nil_r. Qed.

Lemma add_links_app zipcode_id links1 links2 d :
  add_links zipcode_id (links1 ++ links2) d
  = add_links zipcode_id links2 (add_links zipcode_id links1 d).
Proof. unfold add_links. simpl. by rewrite fmap_app, app_assoc. Qed.

Lemma new_links_add_links zipcode_id links d :
  new_links d (add_links zipcode_id links d) = links.
Proof.
  unfold new_links, add_links. simpl. rewrite drop_app_length.
  rewrite <- list_fmap_compose. rewrite <- (list_fmap_id links) at 2.
  apply list_fmap_ext. by intros _ [??] _.
Qed.

Lemma add_links_keys zipcode_id links d :
  sensors_zipcodes_key <$> db_sensors_zipcodes (add_links zipcode_id links d)
  = (sensors_zipcodes_key <$> db_sensors_zipcodes d)
    ++ ((fun id => (id, zipcode_id)) <$> links.*1).
Proof.
  unfold add_links. simpl. rewrite fmap_app. f_equal.
  rewrite <- !list_fmap_compose. by apply list_fmap_ext.
Qed.

Lemma pass_inv_start zipcode_id d : pass_inv zipcode_id d [] ∅ d.
Proof.
  split; simpl; [by rewrite add_links_nil | done | constructor | lia | done].
Qed.

(** One more link: what the body of the [for] loop does to the
    invariant. *)
Lemma pass_inv_insert zipcode_id d0 links sensors d sensor_id distance d' :
  pass_inv zipcode_id d0 links sensors d ->
  dist_geb distance 25 = false ->
  ~ 25 <= size sensors ->
  insert_sensors_zipcodes sensor_id zipcode_id distance d = Ok d' ->
  pass_inv zipcode_id d0 (links ++ [(sensor_id, distance)])
    ({[sensor_id]} ∪ sensors) d'.
Proof.
  intros [-> -> Hnd Hlen Hrad] Hdist Hsize Hins.
  rewrite size_list_to_set in Hsize by done. rewrite length_fmap in Hsize.
  unfold insert_sensors_zipcodes in Hins. case_if; inv_ok.
  apply bool_decide_eq_false in Heqb. rewrite add_links_keys in Heqb.
  split.
  - by rewrite add_links_app.
  - rewrite fmap_app, list_to_set_app_L. simpl. set_solver.
  - apply NoDup_fmap_snoc; [done|]. simpl. intros Hin. apply Heqb.
    apply elem_of_app. right. by apply (list_elem_of_fmap_2 (fun id => (id, zipcode_id))).
  - rewrite length_app. simpl. lia.
  - by apply Forall_snoc.
Qed.

Lemma for_new_sensors_inv zipcode_id d0 batch : forall links sensors d e sensors' d',
  pass_inv zipcode_id d0 links sensors d ->
  for_new_sensors zipcode_id batch sensors d = Ok (e, sensors', d') ->
  exists links', pass_inv zipcode_id d0 (links ++ links') sensors' d'
                 /\ links' `prefix_of` batch.
Proof.
  induction batch as [|[sensor_id distance] batch IH];
    intros links sensors d e sensors' d' Hinv Hrun; simpl in Hrun.
  { inv_ok. exists []. rewrite app_nil_r. split; [done | by exists []]. }
  destruct (dist_geb distance 25) eqn:Hdist;
    [|destruct (bool_decide (25 <= size sensors)) eqn:Hsize].
  1,2: inv_ok; exists []; rewrite app_nil_r; split; [done | apply prefix_nil].
  apply bool_decide_eq_false in Hsize. inv_ok.
  pose proof (pass_inv_insert _ _ _ _ _ _ _ _ Hinv Hdist Hsize E) as Hinv'.
  destruct (IH _ _ _ _ _ _ Hinv' Hrun) as (links' & Hinv'' & Hpre).
  exists ((sensor_id, distance) :: links').
  rewrite <- app_assoc in Hinv''. split; [done | by apply prefix_cons].
Qed.

Lemma while_gh_inv zipcode_id longitude latitude d0 gh :
  forall links sensors d sensors' d',
  pass_inv zipcode_id d0 links sensors d ->
  while_gh zipcode_id longitude latitude gh sensors d = Ok (sensors', d') ->
  exists links', pass_inv zipcode_id d0 (links ++ links') sensors' d'.
Proof.
  intros links sensors d. revert links.
  funelim (while_gh zipcode_id longitude latitude gh sensors d);
    intros links s'' d'' Hinv Hrun; [| unfold while_body in Heq; inv_ok ..].
  - inv_ok. exists []. by rewrite app_nil_r.
  - destruct (for_new_sensors_inv _ _ _ _ _ _ _ _ _ Hinv Heq)
      as (links1 & Hinv1 & _).
    match goal with IH : forall _, _ |- _ =>
      destruct (IH _ _ _ _ Hinv1 Hrun) as (links2 & Hinv2) end.
    exists (links1 ++ links2). by rewrite app_assoc.
  - destruct (for_new_sensors_inv _ _ _ _ _ _ _ _ _ Hinv Heq)
      as (links1 & Hinv1 & _).
    by exists links1.
Qed.

(** Every run of [create_sensors_zipcodes] that returns leaves the
    invariant. *)
Lemma create_sensors_zipcodes_inv d zipcode_id zipcode latitude longitude
    (gh : string) d' :
  create_sensors_zipcodes d zipcode_id zipcode latitude longitude gh = Ok d' ->
  exists sensors, pass_inv zipcode_id d (new_links d d') sensors d'.
Proof.
  unfold create_sensors_zipcodes. intros Hrun. inv_ok. destruct v as [sensors' d'].
  destruct (while_gh_inv _ _ _ _ _ _ _ _ _ _ (pass_inv_start zipcode_id d) E)
    as (links & Hinv).
  simpl in *. exists sensors'.
  by rewrite (pass_db _ _ _ _ _ Hinv), new_links_add_links,
    <- (pass_db _ _ _ _ _ Hinv).
Qed.

Lemma for_new_sensors_db_ok zipcode_id batch :
  forall sensors d e sensors' d',
  db_ok d -> for_new_sensors zipcode_id batch sensors d = Ok (e, sensors', d') ->
  db_ok d'.
Proof.
  induction batch as [|[sensor_id distance] batch IH];
    intros sensors d e sensors' d' Hd Hrun; simpl in Hrun.
  { by inv_ok. }
  repeat case_if; inv_ok; try done.
  eapply IH; [|done]. by eapply insert_sensors_zipcodes_ok.
Qed.

Lemma while_gh_db_ok zipcode_id longitude latitude gh sensors d :
  forall sensors' d',
  db_ok d -> while_gh zipcode_id longitude latitude gh sensors d = Ok (sensors', d') ->
  db_ok d'.
Proof.
  funelim (while_gh zipcode_id longitude latitude gh sensors d);
    intros s'' d'' Hd Hrun; [| unfold while_body in Heq; inv_ok ..].
  - by inv_ok.
  - match goal with IH : forall _, _ |- _ => eapply IH; [|done] end.
    by eapply for_new_sensors_db_ok.
  - by eapply for_new_sensors_db_ok.
Qed.

Lemma create_sensors_zipcodes_ok d zipcode_id zipcode
    latitude longitude (gh : string) d' :
  db_ok d ->
  create_sensors_zipcodes d zipcode_id zipcode latitude longitude gh = Ok d' ->
  db_ok d'.
Proof.
  unfold create_sensors_zipcodes. intros Hd Hrun. inv_ok.
  destruct v as [sensors' d']. by eapply while_gh_db_ok.
Qed.

(** A key of more than 12 symbols: the first [SELECT] raises. *)
Lemma create_sensors_zipcodes_long d zipcode_id zipcode
    latitude longitude (gh : string) :
  12 < String.length gh ->
  create_sensors_zipcodes d zipcode_id zipcode latitude longitude gh
  = Raise OperationalError.
Proof.
  intros Hlen. unfold create_sensors_zipcodes.
  rewrite <- length_list_ascii_of_string in Hlen.
  destruct (String.list_ascii_of_string gh) as [|g gh'] eqn:E; [simpl in Hlen; lia|].
  rewrite while_gh_equation_2. unfold while_body.
  by rewrite select_sensors_Raise.
Qed.

(** ** Properties of every run that returns *)

(** C6: every link that [create_sensors_zipcodes] inserts has a distance
    below the radius: the test [distance >= 25] is false of it. *)
Theorem create_sensors_zipcodes_within_radius d zipcode_id zipcode
    latitude longitude (gh : string) d' :
  create_sensors_zipcodes d zipcode_id zipcode latitude longitude gh = Ok d' ->
  Forall (fun l => dist_geb l.2 25 = false) (new_links d d').
Proof.
  intros [sensors Hinv]%create_sensors_zipcodes_inv.
  apply (pass_radius _ _ _ _ _ Hinv).
Qed.

(** C7: [create_sensors_zipcodes] inserts at most 25 links for a postal
    code. *)
Theorem create_sensors_zipcodes_at_most_25 d zipcode_id zipcode
    latitude longitude (gh : string) d' :
  create_sensors_zipcodes d zipcode_id zipcode latitude longitude gh = Ok d' ->
  length (new_links d d') <= 25.
Proof.
  intros [sensors Hinv]%create_sensors_zipcodes_inv.
  apply (pass_length _ _ _ _ _ Hinv).
Qed.

(** [create_sensors_zipcodes] changes nothing but [sensors_zipcodes],
    to which it appends rows that all carry [zipcode_id]; the rows that
    were there stay, in place. *)
Theorem create_sensors_zipcodes_frame d zipcode_id zipcode
    latitude longitude (gh : string) d' :
  create_sensors_zipcodes d zipcode_id zipcode latitude longitude gh = Ok d' ->
  d' = add_links zipcode_id (new_links d d') d.
Proof.
  intros [sensors Hinv]%create_sensors_zipcodes_inv.
  apply (pass_db _ _ _ _ _ Hinv).
Qed.

(** [create_sensors_zipcodes] preserves the constraints of the
    database: a run that returns has not inserted a pair
    [(sensor_id, zipcode_id)] twice. *)
Theorem create_sensors_zipcodes_db_ok d zipcode_id zipcode
    latitude longitude (gh : string) d' :
  db_ok d ->
  create_sensors_zipcodes d zipcode_id zipcode latitude longitude gh = Ok d' ->
  db_ok d'.
Proof. apply create_sensors_zipcodes_ok. Qed.

(** C32: a key of more than 12 symbols makes the first [SELECT] name the
    column [geohash_bit_13], which [sensors] does not have:
    [create_sensors_zipcodes] raises [OperationalError]. *)
Theorem create_sensors_zipcodes_long_key d zipcode_id zipcode
    latitude longitude (gh : string) :
  12 < String.length gh ->
  create_sensors_zipcodes d zipcode_id zipcode latitude longitude gh
  = Raise OperationalError.
Proof. apply create_sensors_zipcodes_long. Qed.

(** C31: a batch is in ascending distance, and sensors at the same distance
    are in ascending [id]: [sorted] is stable and [sensors] is scanned in
    [id] order. *)
Theorem new_sensors_order longitude latitude gh sensors d :
  db_ok d ->
  StronglySorted (stable_le snd dist_ltb (fun a b => (a.1 < b.1)%Z))
    (new_sensors longitude latitude (selected_sensors gh sensors d)).
Proof.
  intros Hd. unfold new_sensors.
  apply sorted_stable_le;
    [apply dist_ltb_irrefl | apply dist_ltb_trans | apply dist_ltb_cotrans |].
  eapply StronglySorted_fmap; [|by apply selected_sensors_sorted]. done.
Qed.

(** [new_sensors] is the batch sorted as [sorted] promises: it has the
    rows of the batch, in ascending distance, rows at the same distance in
    the order of the batch; and it is the only list that does. *)
Theorem new_sensors_sorted_contract longitude latitude (rows : list (Z * Q * Q)) :
  let batch := (fun r => (r.1.1, distance longitude latitude r.2 r.1.2)) <$> rows in
  is_sorted_of snd dist_ltb batch (new_sensors longitude latitude rows)
  /\ forall l, is_sorted_of snd dist_ltb batch l ->
               l = new_sensors longitude latitude rows.
Proof.
  intros batch. unfold new_sensors. fold batch. split.
  - apply sorted_is_sorted_of;
      [apply dist_ltb_irrefl | apply dist_ltb_trans | apply dist_ltb_cotrans].
  - apply sorted_unique;
      [apply dist_ltb_irrefl | apply dist_ltb_trans | apply dist_ltb_cotrans].
Qed.

End Matcher.

(** ** Runs on the tables of [Examples] *)

Definition sf_db_run : result (db Q) :=
  create_sensors_zipcodes sf_db 1 "94103" sf_latitude sf_longitude sf_geohash.

Definition sf_db_linked : db Q :=
  Eval vm_compute in
    match sf_db_run with Ok d' => d' | Raise _ => sf_db end.

Lemma sf_db_run_Ok : sf_db_run = Ok sf_db_linked.
Proof. vm_compute. reflexivity. Qed.

Lemma create_sensors_zipcodes_within_radius_witness :
  Forall (fun l : Z * Q => dist_geb l.2 25 = false) (new_links sf_db sf_db_linked).
Proof.
  exact (create_sensors_zipcodes_within_radius sf_db 1 "94103"
           sf_latitude sf_longitude sf_geohash sf_db_linked sf_db_run_Ok).
Defined.

Lemma create_sensors_zipcodes_at_most_25_witness :
  length (new_links sf_db sf_db_linked) <= 25.
Proof.
  exact (create_sensors_zipcodes_at_most_25 sf_db 1 "94103"
           sf_latitude sf_longitude sf_geohash sf_db_linked sf_db_run_Ok).
Defined.

Lemma create_sensors_zipcodes_frame_witness :
  sf_db_linked = add_links 1 (new_links sf_db sf_db_linked) sf_db.
Proof.
  exact (create_sensors_zipcodes_frame sf_db 1 "94103"
           sf_latitude sf_longitude sf_geohash sf_db_linked sf_db_run_Ok).
Defined.

Lemma create_sensors_zipcodes_db_ok_witness : db_ok sf_db_linked.
Proof.
  exact (create_sensors_zipcodes_db_ok sf_db 1 "94103"
           sf_latitude sf_longitude sf_geohash sf_db_linked sf_db_ok sf_db_run_Ok).
Defined.

Lemma create_sensors_zipcodes_long_key_witness :
  create_sensors_zipcodes sf_db 1 "94103" sf_latitude sf_longitude "9q8yyk8ytpxr0"
  = Raise OperationalError.
Proof.
  apply (create_sensors_zipcodes_long_key sf_db 1 "94103"
           sf_latitude sf_longitude "9q8yyk8ytpxr0").
  vm_compute. lia.
Defined.

Lemma new_sensors_order_witness :
  StronglySorted (stable_le snd dist_ltb (fun a b : Z * Q => (a.1 < b.1)%Z))
    (new_sensors sf_longitude sf_latitude
       (selected_sensors (String.list_ascii_of_string "9q8") ∅ sf_db)).
Proof. exact (new_sensors_order _ _ _ _ sf_db sf_db_ok). Defined.
