(* ===== verification/MatcherSteps.v ===== *)
(** * MatcherSteps: [create_sensors_zipcodes] as a transition system

    The two nested loops of [create_sensors_zipcodes], with their early
    [return]s, as a machine that makes one transition for every test of
    [while gh], every [SELECT], every round of the [for] loop and every
    [gh.pop()].  A state is the point of control ([control]) with the
    variables [gh] and [sensors] and the database.

    The transitions are the relation [step]; [step_fn] computes them.
    [measure] bounds the transitions that are left, so that every run
    ends; the runs of the machine are the runs of the function [while_gh]
    of [Matcher]; and the invariant of a pass holds in every state a run
    goes through, not only in the last. *)

From Stdlib Require Import QArith Ascii Lia.
From stdpp Require Import base list strings gmap sorting relations.
From Equations Require Import Equations.
From S2P Require Import Prelude Distance PySorted Database Examples Matcher.

Section Steps.
Context {D : Type} `{HD : DistanceFunction D}.
Context (zipcode_id : Z) (longitude latitude : Q).
Implicit Types (gh : list ascii) (sensors : gset Z) (d : db D).

(** Where the run is: at the test of [while gh]; in the [for] loop, with
    the rest of the batch; after a [return] or the end of the [while]
    loop; after an exception. *)
Inductive control : Type :=
  | While
  | For (batch : list (Z * D))
  | Returned
  | Raised (e : py_error).

Record state : Type := State {
  pc : control;
  state_gh : list ascii;
  state_sensors : gset Z;
  state_db : db D
}.

Inductive step : state -> state -> Prop :=
  | step_exit sensors d :
      step (State While [] sensors d) (State Returned [] sensors d)
  | step_select g gh sensors d rows :
      select_sensors (g :: gh) sensors d = Ok rows ->
      step (State While (g :: gh) sensors d)
           (State (For (new_sensors longitude latitude rows)) (g :: gh) sensors d)
  | step_select_raise g gh sensors d e :
      select_sensors (g :: gh) sensors d = Raise e ->
      step (State While (g :: gh) sensors d) (State (Raised e) (g :: gh) sensors d)
  | step_pop gh sensors d :
      step (State (For []) gh sensors d) (State While (removelast gh) sensors d)
  | step_far sensor_id distance batch gh sensors d :
      dist_geb distance 25 = true ->
      step (State (For ((sensor_id, distance) :: batch)) gh sensors d)
           (State Returned gh sensors d)
  | step_full sensor_id distance batch gh sensors d :
      dist_geb distance 25 = false -> 25 <= size sensors ->
      step (State (For ((sensor_id, distance) :: batch)) gh sensors d)
           (State Returned gh sensors d)
  | step_insert sensor_id distance batch gh sensors d d' :
      dist_geb distance 25 = false -> ~ 25 <= size sensors ->
      insert_sensors_zipcodes sensor_id zipcode_id distance d = Ok d' ->
      step (State (For ((sensor_id, distance) :: batch)) gh sensors d)
           (State (For batch) gh ({[sensor_id]} ∪ sensors) d')
  | step_insert_raise sensor_id distance batch gh sensors d e :
      dist_geb distance 25 = false -> ~ 25 <= size sensors ->
      insert_sensors_zipcodes sensor_id zipcode_id distance d = Raise e ->
      step (State (For ((sensor_id, distance) :: batch)) gh sensors d)
           (State (Raised e) gh ({[sensor_id]} ∪ sensors) d).

(** The transition of a state, if it has one. *)
Definition step_fn (s : state) : option state :=
  let '(State c gh sensors d) := s in
  match c with
  | While =>
      match gh with
      | [] => Some (State Returned gh sensors d)
      | _ :: _ =>
          match select_sensors gh sensors d with
          | Ok rows =>
              Some (State (For (new_sensors longitude latitude rows)) gh sensors d)
          | Raise e => Some (State (Raised e) gh sensors d)
          end
      end
  | For [] => Some (State While (removelast gh) sensors d)
  | For ((sensor_id, distance) :: batch) =>
      if dist_geb distance 25 then Some (State Returned gh sensors d)
      else if bool_decide (25 <= size sensors)
      then Some (State Returned gh sensors d)
      else
        match insert_sensors_zipcodes sensor_id zipcode_id distance d with
        | Ok d' => Some (State (For batch) gh ({[sensor_id]} ∪ sensors) d')
        | Raise e => Some (State (Raised e) gh ({[sensor_id]} ∪ sensors) d)
        end
  | Returned | Raised _ => None
  end.

(** What the function has returned or raised, in a state where it has. *)
Definition outcome (s : state) : option (result (gset Z * db D)) :=
  match pc s with
  | Returned => Some (Ok (state_sensors s, state_db s))
  | Raised e => Some (Raise e)
  | While | For _ => None
  end.

(** The state in which [create_sensors_zipcodes] enters its loop. *)
Definition initial gh d : state := State While gh ∅ d.

(** A bound on the transitions that are left: a round of the [while] loop
    takes a [SELECT], a round of the [for] loop for each row at most, and
    a [gh.pop()]. *)
Definition measure (s : state) : nat :=
  let n := length (db_sensors (state_db s)) + 2 in
  match pc s with
  | While => length (state_gh s) * n + 1
  | For batch => (length (state_gh s) - 1) * n + length batch + 2
  | Returned | Raised _ => 0
  end.

(** The machine run for [fuel] transitions at most. *)
Fixpoint run_fn (fuel : nat) (s : state) : state :=
  match fuel with
  | 0 => s
  | S fuel' =>
      match step_fn s with
      | Some s' => run_fn fuel' s'
      | None => s
      end
  end.

(** What holds in every state of a pass that started on [d0]: the
    invariant of the two loops, until an exception. *)
Definition state_inv (d0 : db D) (s : state) : Prop :=
  match pc s with
  | Raised _ => True
  | _ => exists links,
           pass_inv zipcode_id d0 links (state_sensors s) (state_db s)
  end.

(** ** The relation and the function *)

Lemma step_step_fn s s' : step s s' <-> step_fn s = Some s'.
Proof.
  split.
  - intros Hs. destruct Hs; cbn [step_fn];
      repeat match goal with
        | E : _ = _ |- _ => rewrite E
        | E : 25 <= _ |- _ => rewrite (bool_decide_eq_true_2 _ E)
        | E : ~ 25 <= _ |- _ => rewrite (bool_decide_eq_false_2 _ E)
        end; reflexivity.
  - destruct s as [[|[|[sensor_id distance] batch]| |] gh sensors d];
      cbn [step_fn]; [destruct gh as [|g gh]| | |done|done].
    + intros [= <-]. constructor.
    + destruct (select_sensors _ _ _) eqn:E; intros [= <-]; by constructor.
    + intros [= <-]. constructor.
    + destruct (dist_geb distance 25) eqn:Hd; [intros [= <-]; by constructor|].
      destruct (bool_decide _) eqn:Hn;
        [apply bool_decide_eq_true in Hn; intros [= <-]; by constructor|].
      apply bool_decide_eq_false in Hn.
      destruct (insert_sensors_zipcodes _ _ _ _) eqn:E; intros [= <-];
        by constructor.
Qed.

Lemma step_deterministic s s1 s2 : step s s1 -> step s s2 -> s1 = s2.
Proof. rewrite !step_step_fn. congruence. Qed.

(** A state has no transition exactly when the function has returned or
    raised. *)
Lemma nf_outcome s : nf step s <-> is_Some (outcome s).
Proof.
  unfold nf, red. setoid_rewrite step_step_fn.
  destruct s as [[|[|[sensor_id distance] batch]| |] gh sensors d];
    cbn [step_fn outcome pc].
  1-3: split; [intros Hnf; exfalso; apply Hnf | by intros [? [=]]].
  - destruct gh; [eauto|]. destruct (select_sensors _ _ _); eauto.
  - eauto.
  - destruct (dist_geb _ _); [eauto|]. destruct (bool_decide _); [eauto|].
    destruct (insert_sensors_zipcodes _ _ _ _); eauto.
  - split; [eauto | by intros _ [? [=]]].
  - split; [eauto | by intros _ [? [=]]].
Qed.

(** ** Every run ends *)

Lemma select_sensors_length gh sensors d rows :
  select_sensors gh sensors d = Ok rows ->
  length rows <= length (db_sensors d).
Proof.
  intros [_ ->]%select_sensors_Ok_inv. unfold selected_sensors.
  rewrite length_fmap. apply List.filter_length_le.
Qed.

Lemma new_sensors_length rows :
  length (new_sensors longitude latitude rows) = length rows.
Proof. unfold new_sensors. by rewrite sorted_length, length_fmap. Qed.

Lemma insert_sensors_zipcodes_sensors sensor_id (distance : D) d d' :
  insert_sensors_zipcodes sensor_id zipcode_id distance d = Ok d' ->
  db_sensors d' = db_sensors d.
Proof.
  unfold insert_sensors_zipcodes. destruct (bool_decide _); [done|].
  by intros [= <-].
Qed.

Lemma step_measure s s' : step s s' -> measure s' < measure s.
Proof.
  destruct 1; unfold measure; cbn [pc state_gh state_db length];
    rewrite ?new_sensors_length, ?removelast_length;
    repeat match goal with
      | E : select_sensors _ _ _ = Ok _ |- _ =>
          apply select_sensors_length in E
      | E : insert_sensors_zipcodes _ _ _ _ = Ok _ |- _ =>
          rewrite (insert_sensors_zipcodes_sensors _ _ _ _ E); clear E
      end; nia.
Qed.

Lemma run_fn_rtc fuel : forall s, rtc step s (run_fn fuel s).
Proof.
  induction fuel as [|fuel IH]; intros s; cbn [run_fn]; [done|].
  destruct (step_fn s) as [s'|] eqn:E; [|done].
  eapply rtc_l; [by apply step_step_fn | apply IH].
Qed.

(** With the measure of a state as fuel the run ends. *)
Lemma run_fn_nf fuel : forall s, measure s <= fuel -> nf step (run_fn fuel s).
Proof.
  induction fuel as [|fuel IH]; intros s Hs; cbn [run_fn].
  - intros [s' Hs'%step_measure]. lia.
  - destruct (step_fn s) as [s'|] eqn:E.
    + apply IH. apply step_step_fn, step_measure in E. lia.
    + intros [s' Hs'%step_step_fn]. congruence.
Qed.

(** ** The machine and the function *)

(** The rounds of the [for] loop, up to its end, a [return] or an
    exception. *)
Lemma for_steps batch : forall gh sensors d,
  exists s',
    rtc step (State (For batch) gh sensors d) s'
    /\ match for_new_sensors zipcode_id batch sensors d with
       | Ok (Continue, sensors', d') => s' = State (For []) gh sensors' d'
       | Ok (Return, sensors', d') => s' = State Returned gh sensors' d'
       | Raise e => pc s' = Raised e
       end.
Proof.
  induction batch as [|[sensor_id distance] batch IH]; intros gh sensors d;
    cbn [for_new_sensors].
  { by eexists. }
  destruct (dist_geb distance 25) eqn:Hd;
    [eexists; split; [by apply rtc_once, step_far | done]|].
  destruct (bool_decide _) eqn:Hn;
    [apply bool_decide_eq_true in Hn; eexists;
     split; [by apply rtc_once, step_full | done]|].
  apply bool_decide_eq_false in Hn.
  destruct (insert_sensors_zipcodes _ _ _ _) as [d'|e] eqn:E; cbn [bind].
  - destruct (IH gh ({[sensor_id]} ∪ sensors) d') as (s' & Hs' & Hout).
    exists s'. split; [|done]. eapply rtc_l; [by apply step_insert | done].
  - eexists. split; [by apply rtc_once, step_insert_raise | done].
Qed.

(** One round of the [while] loop, up to [gh.pop()]. *)
Lemma while_body_steps g gh sensors d :
  exists s',
    rtc step (State While (g :: gh) sensors d) s'
    /\ match while_body zipcode_id longitude latitude (g :: gh) sensors d with
       | Ok (Continue, sensors', d') => s' = State (For []) (g :: gh) sensors' d'
       | Ok (Return, sensors', d') => s' = State Returned (g :: gh) sensors' d'
       | Raise e => pc s' = Raised e
       end.
Proof.
  unfold while_body.
  destruct (select_sensors (g :: gh) sensors d) as [rows|e] eqn:E; cbn [bind].
  - destruct (for_steps (new_sensors longitude latitude rows) (g :: gh)
                sensors d) as (s' & Hs' & Hout).
    exists s'. split; [|done]. eapply rtc_l; [by apply step_select | done].
  - eexists. split; [by apply rtc_once, step_select_raise | done].
Qed.

(** The machine started at the test of [while gh] reaches a state in
    which the function has returned or raised what [while_gh] does. *)
Lemma while_steps gh sensors d :
  exists s',
    rtc step (State While gh sensors d) s'
    /\ outcome s' = Some (while_gh zipcode_id longitude latitude gh sensors d).
Proof.
  funelim (while_gh zipcode_id longitude latitude gh sensors d);
    [|destruct (while_body_steps g gh' sensors d) as (s1 & Hs1 & Hout);
      rewrite Heq in Hout..].
  - eexists. split; [apply rtc_once, step_exit | done].
  - destruct H as (s' & Hs' & Hs). exists s'. split; [|done].
    etrans; [exact Hs1|]. subst s1. eapply rtc_l; [apply step_pop | done].
  - exists s1. split; [done | by subst s1].
  - exists s1. split; [done|]. unfold outcome. by rewrite Hout.
Qed.

Lemma outcome_nf s r : outcome s = Some r -> nf step s.
Proof. intros Hr. apply nf_outcome. by exists r. Qed.

(** The invariant of a pass is kept by every transition. *)
Lemma step_state_inv d0 s s' : step s s' -> state_inv d0 s -> state_inv d0 s'.
Proof.
  destruct 1; unfold state_inv; cbn [pc state_sensors state_db]; try done.
  intros (links & Hinv). eexists. by eapply pass_inv_insert.
Qed.

(** C15: every transition lowers [measure]: a pass makes at most
    [len(gh) * (n + 2) + 1] transitions on a table of [n] sensors, and no
    run of the machine is infinite. *)
Theorem step_terminates gh d :
  sn step (initial gh d)
  /\ forall n s, nsteps step n (initial gh d) s ->
                 n <= length gh * (length (db_sensors d) + 2) + 1.
Proof.
  split; [apply (sn_measure step measure), step_measure|].
  intros n s Hn. apply (nsteps_measure step measure step_measure) in Hn.
  unfold initial, measure at 2 in Hn. cbn [pc state_gh state_db] in Hn. lia.
Qed.

(** The machine computes [while_gh] when its fuel is the measure of the
    state. *)
Lemma run_fn_while_gh fuel gh sensors d :
  measure (State While gh sensors d) <= fuel ->
  outcome (run_fn fuel (State While gh sensors d))
  = Some (while_gh zipcode_id longitude latitude gh sensors d).
Proof.
  intros Hf. destruct (while_steps gh sensors d) as (s' & Hs' & Hout).
  by rewrite <- (rtc_nf_deterministic step _ _ _ step_deterministic Hs'
                  (outcome_nf _ _ Hout) (run_fn_rtc fuel _) (run_fn_nf _ _ Hf)).
Qed.

(** C14: the runs of the machine are the runs of [while_gh]: a run from the
    test of [while gh] that has come to a state without transition has
    returned or raised what the function does. *)
Theorem steps_while_gh gh sensors d s :
  rtc step (State While gh sensors d) s -> nf step s ->
  outcome s = Some (while_gh zipcode_id longitude latitude gh sensors d).
Proof.
  intros Hs Hnf. destruct (while_steps gh sensors d) as (s' & Hs' & Hout).
  by rewrite (rtc_nf_deterministic step _ _ _ step_deterministic Hs Hnf Hs'
                (outcome_nf _ _ Hout)).
Qed.

(** C16: in every state that a pass goes through before an exception, the
    database is that of the start with the links made so far, at most 25,
    each below 25 km and to a different sensor, and [sensors] holds their
    ids. *)
Theorem reachable_state_inv gh d s :
  rtc step (initial gh d) s -> state_inv d s.
Proof.
  revert s. apply (rtc_ind_r (R := step) (state_inv d)).
  - exists []. apply pass_inv_start.
  - intros s s' _ Hs' Hinv. by eapply step_state_inv.
Qed.

End Steps.

Arguments State {D} _ _ _ _.
Arguments While {D}.
Arguments Returned {D}.

(** ** A pass on five sensors *)

Section Run.

Definition sf_key : list ascii := String.list_ascii_of_string sf_geohash.

(** The pass of the postal code 94103 over [sf_db], run to its end. *)
Definition sf_final : state (D := Q) :=
  Eval vm_compute in
    run_fn 1 sf_longitude sf_latitude
      (measure (initial sf_key sf_db)) (initial sf_key sf_db).

Lemma sf_final_run :
  rtc (step 1 sf_longitude sf_latitude) (initial sf_key sf_db) sf_final.
Proof.
  exact (run_fn_rtc 1 sf_longitude sf_latitude
           (measure (initial sf_key sf_db)) (initial sf_key sf_db)).
Qed.

Lemma sf_final_nf : nf (step 1 sf_longitude sf_latitude) sf_final.
Proof. apply nf_outcome. vm_compute. eauto. Qed.

Lemma steps_while_gh_witness :
  outcome sf_final
  = Some (while_gh 1 sf_longitude sf_latitude sf_key ∅ sf_db).
Proof.
  exact (steps_while_gh 1 sf_longitude sf_latitude sf_key ∅ sf_db sf_final
           sf_final_run sf_final_nf).
Defined.

Lemma reachable_state_inv_witness :
  state_inv 1 sf_db sf_final.
Proof.
  exact (reachable_state_inv 1 sf_longitude sf_latitude sf_key sf_db sf_final
           sf_final_run).
Defined.

End Run.
