(* ===== verification/MatcherSpec.v ===== *)
(** * MatcherSpec: the matching algorithm of the specification

    The specification describes the matcher without a database: a store of
    sensors answers prefix queries ([query]), and the matcher widens the
    prefix from the full key to one symbol ([match_levels]), keeping a
    list of results.  This file states that algorithm as a pure function
    and proves that [create_sensors_zipcodes] implements it: on a database
    that satisfies [db_ok], for a postal code that has no links yet and a
    key of at most 12 symbols, the run does not raise and the rows it
    appends to [sensors_zipcodes] are the results of [spec_match], in
    order.  For a postal code that has links the run goes the same way
    until the algorithm takes a sensor that is linked to it; the [INSERT]
    of that sensor raises ([create_sensors_zipcodes_linked]). *)

From Stdlib Require Import QArith Ascii.
From stdpp Require Import base list strings gmap sorting.
From Equations Require Import Equations.
From S2P Require Import Prelude Distance PyValue PySorted Database.
From S2P Require Import Examples Matcher.

Section Spec.
Context {D : Type} `{DistanceFunction D}.
Implicit Types (store : list sensors_row) (key prefix : list ascii).
Implicit Types (results cs : list (Z * D)) (longitude latitude : Q).

(** [CandidateStore.query(prefix, excluding)]: the sensors whose key starts
    with [prefix], except those of [excluding]. *)
Definition query store prefix (excluding : gset Z) : list sensors_row :=
  List.filter
    (fun r => bool_decide (take (length prefix) (sensors_geohash_bits r) = prefix)
              && bool_decide (sensors_id r ∉ excluding))
    store.

(** Step 2c: the candidates with their distances, nearest first. *)
Definition candidates longitude latitude (rows : list sensors_row)
    : list (Z * D) :=
  sorted snd dist_ltb
    ((fun r => (sensors_id r,
                distance longitude latitude
                  (sensors_longitude r) (sensors_latitude r))) <$> rows).

(** Step 2d: take candidates until one is too far or the results are
    full. *)
Fixpoint take_candidates cs results : loop_exit * list (Z * D) :=
  match cs with
  | [] => (Continue, results)
  | c :: cs' =>
      if dist_geb c.2 25 then (Return, results)
      else if bool_decide (25 <= length results) then (Return, results)
      else take_candidates cs' (results ++ [c])
  end.

(** Step 2: the levels [L], [L - 1], ..., 1. *)
Fixpoint match_levels store longitude latitude key (L : nat) results
    : list (Z * D) :=
  match L with
  | 0 => results
  | S L' =>
      let cs := candidates longitude latitude
                  (query store (take L key) (list_to_set results.*1)) in
      match take_candidates cs results with
      | (Return, results') => results'
      | (Continue, results') =>
          match_levels store longitude latitude key L' results'
      end
  end.

(** [match(target, store)], from the full key down. *)
Definition spec_match store longitude latitude key : list (Z * D) :=
  match_levels store longitude latitude key (length key) [].

(** [zipcode_id] has no row in [sensors_zipcodes] yet. *)
Definition unlinked (zipcode_id : Z) (d : db D) : Prop :=
  zipcode_id ∉ sensors_zipcodes_zipcode_id <$> db_sensors_zipcodes d.

(** The sensor of a candidate is linked to [zipcode_id] in [d]: the
    primary key of [sensors_zipcodes] refuses the pair. *)
Definition linked zipcode_id (d : db D) (c : Z * D) : bool :=
  bool_decide
    ((c.1, zipcode_id) ∈ sensors_zipcodes_key <$> db_sensors_zipcodes d).

(** What the loops give when the algorithm takes [results]: the
    exception of the [INSERT] that meets a link of [d0], or the database
    with the results. *)
Definition pass_outcome {A : Type} zipcode_id (d0 : db D) (a : A) results
    : result (A * gset Z * db D) :=
  if existsb (linked zipcode_id d0) results then Raise IntegrityError
  else Ok (a, list_to_set results.*1, add_links zipcode_id results d0).

(** ** The store and the table *)

Lemma selected_sensors_query gh (sensors : gset Z) (d : db D) :
  selected_sensors gh sensors d
  = (fun r => (sensors_id r, sensors_latitude r, sensors_longitude r)) <$>
    query (db_sensors d) gh sensors.
Proof.
  unfold selected_sensors, query. f_equal. apply filter_ext. intros r. f_equal.
  - apply eq_true_iff_eq.
    by rewrite geohash_bits_match_take, bool_decide_eq_true.
  - by rewrite bool_decide_not.
Qed.

Lemma new_sensors_candidates longitude latitude gh (sensors : gset Z) (d : db D) :
  new_sensors longitude latitude (selected_sensors gh sensors d)
  = candidates longitude latitude (query (db_sensors d) gh sensors).
Proof.
  unfold new_sensors, candidates.
  by rewrite selected_sensors_query, <- list_fmap_compose.
Qed.

Lemma candidates_ids longitude latitude rows :
  (candidates longitude latitude rows).*1 ≡ₚ sensors_id <$> rows.
Proof.
  unfold candidates. by rewrite sorted_Permutation, <- list_fmap_compose.
Qed.

Lemma candidates_NoDup longitude latitude store prefix excluding :
  NoDup (sensors_id <$> store) ->
  NoDup (candidates longitude latitude (query store prefix excluding)).*1.
Proof. rewrite candidates_ids. apply NoDup_fmap_filter. Qed.

Lemma candidates_excluded longitude latitude store prefix excluding id :
  id ∈ (candidates longitude latitude (query store prefix excluding)).*1 ->
  id ∉ excluding.
Proof.
  rewrite candidates_ids. intros (r & -> & Hr)%list_elem_of_fmap.
  apply list_elem_of_In, filter_In in Hr as [_ Hr].
  by apply andb_true_iff in Hr as [_ Hr%bool_decide_eq_true].
Qed.

Lemma sensors_ids_NoDup (d : db D) : db_ok d -> NoDup (sensors_id <$> db_sensors d).
Proof.
  intros Hd. apply StronglySorted_lt_NoDup.
  eapply StronglySorted_fmap; [|apply (sensors_sorted _ Hd)]. done.
Qed.

(** ** What the algorithm takes *)

Lemma take_candidates_prefix cs : forall results,
  exists l, (take_candidates cs results).2 = results ++ l /\ l `prefix_of` cs.
Proof.
  induction cs as [|c cs IH]; intros results; simpl.
  { exists []. by rewrite app_nil_r. }
  repeat case_match; try (exists []; rewrite app_nil_r; split; [done|apply prefix_nil]).
  destruct (IH (results ++ [c])) as (l & -> & Hl). exists (c :: l).
  rewrite <- app_assoc. split; [done | by apply prefix_cons].
Qed.

Lemma match_levels_take store longitude latitude key n :
  forall L results, L <= n ->
  match_levels store longitude latitude (take n key) L results
  = match_levels store longitude latitude key L results.
Proof.
  induction L as [|L IH]; intros results HL; simpl; [done|].
  rewrite take_take, Nat.min_l by lia.
  destruct (take_candidates _ results) as [[|] results']; [|done].
  apply IH. lia.
Qed.

(** One level of [match_levels], on the key as [gh.pop()] leaves it. *)
Lemma match_levels_S store longitude latitude key L results :
  length key = S L ->
  match_levels store longitude latitude key (S L) results
  = match take_candidates
            (candidates longitude latitude
               (query store key (list_to_set results.*1))) results with
    | (Return, results') => results'
    | (Continue, results') =>
        match_levels store longitude latitude (removelast key) L results'
    end.
Proof.
  intros Hlen. simpl. rewrite firstn_all2 by lia.
  destruct (take_candidates _ results) as [[|] results']; [|done].
  rewrite removelast_take, Hlen. simpl. by rewrite match_levels_take.
Qed.

Lemma match_levels_prefix store longitude latitude key : forall L results,
  results `prefix_of` match_levels store longitude latitude key L results.
Proof.
  induction L as [|L IH]; intros results; simpl; [done|].
  destruct (take_candidates_prefix
    (candidates longitude latitude
       (query store (take (S L) key) (list_to_set results.*1))) results)
    as (l & El & _).
  destruct (take_candidates _ results) as [[|] results']; simpl in El; subst.
  - etrans; [|apply IH]. by apply prefix_app_r.
  - by apply prefix_app_r.
Qed.

(** ** The [for] loop takes the candidates *)

Lemma existsb_linked_prefix zipcode_id (d0 : db D) results results' :
  results `prefix_of` results' ->
  existsb (linked zipcode_id d0) results = true ->
  existsb (linked zipcode_id d0) results' = true.
Proof. intros [l ->] Hl. by rewrite existsb_app, Hl. Qed.

Lemma unlinked_linked zipcode_id (d0 : db D) results :
  unlinked zipcode_id d0 -> existsb (linked zipcode_id d0) results = false.
Proof.
  intros Hun. apply not_true_iff_false. intros (c & _ & Hc)%existsb_exists.
  apply bool_decide_eq_true in Hc. apply Hun.
  apply list_elem_of_fmap in Hc as (r & [= _ ->] & Hr).
  by apply list_elem_of_fmap_2.
Qed.

(** The [INSERT] of a sensor that is not among the results of the pass
    raises exactly when the database of the start has the link. *)
Lemma insert_link zipcode_id (d0 : db D) results sensors d id dist :
  pass_inv zipcode_id d0 results sensors d ->
  id ∉ results.*1 ->
  insert_sensors_zipcodes id zipcode_id dist d
  = if linked zipcode_id d0 (id, dist) then Raise IntegrityError
    else Ok (add_links zipcode_id (results ++ [(id, dist)]) d0).
Proof.
  intros Hinv Hid. rewrite (pass_db _ _ _ _ _ Hinv). unfold linked.
  case_bool_decide as Hk; cbn [fst] in Hk.
  - apply insert_sensors_zipcodes_Raise. rewrite add_links_keys.
    apply elem_of_app. by left.
  - rewrite insert_sensors_zipcodes_Ok; [by rewrite add_links_app|].
    rewrite add_links_keys. intros [Hk'|Hk']%elem_of_app; [done|].
    by apply list_elem_of_fmap in Hk' as (id' & [= <-] & Hr).
Qed.

Lemma pass_inv_size zipcode_id (d0 : db D) results sensors d :
  pass_inv zipcode_id d0 results sensors d -> size sensors = length results.
Proof.
  intros [_ -> Hnd _ _]. by rewrite size_list_to_set, length_fmap.
Qed.

Lemma for_new_sensors_linked zipcode_id (d0 : db D) cs :
  forall results sensors d,
  pass_inv zipcode_id d0 results sensors d ->
  existsb (linked zipcode_id d0) results = false ->
  NoDup cs.*1 ->
  (forall id, id ∈ cs.*1 -> id ∉ results.*1) ->
  for_new_sensors zipcode_id cs sensors d
  = pass_outcome zipcode_id d0 (take_candidates cs results).1
      (take_candidates cs results).2.
Proof.
  unfold pass_outcome.
  induction cs as [|[id dist] cs IH]; intros results sensors d Hinv Hl Hnd Hex;
    simpl.
  { by rewrite Hl, <- (pass_sensors _ _ _ _ _ Hinv), <- (pass_db _ _ _ _ _ Hinv). }
  rewrite (pass_inv_size _ _ _ _ _ Hinv).
  destruct (dist_geb dist 25) eqn:Hdist;
    [|destruct (bool_decide (25 <= length results)) eqn:Hlen]; simpl.
  1,2: by rewrite Hl, <- (pass_sensors _ _ _ _ _ Hinv),
         <- (pass_db _ _ _ _ _ Hinv).
  apply NoDup_cons in Hnd as [Hid Hnd].
  assert (id ∉ results.*1) as Hfresh by (apply Hex; left).
  pose proof (insert_link _ _ _ _ _ _ dist Hinv Hfresh) as Hins. rewrite Hins.
  destruct (linked zipcode_id d0 (id, dist)) eqn:Hc; simpl.
  - destruct (take_candidates_prefix cs (results ++ [(id, dist)]))
      as (l & -> & _).
    rewrite !existsb_app, Hl. cbn [existsb]. by rewrite Hc.
  - apply IH; [| rewrite existsb_app, Hl; cbn [existsb]; by rewrite Hc | done |].
    + eapply pass_inv_insert; [done | done | | done].
      rewrite (pass_inv_size _ _ _ _ _ Hinv).
      by apply bool_decide_eq_false in Hlen.
    + intros id' Hid'. rewrite fmap_app, elem_of_app. simpl.
      intros [Hin|Hin].
      * by apply (Hex id'); [right|].
      * apply list_elem_of_singleton in Hin. by subst.
Qed.

(** ** The [while] loop walks the levels *)

(** A round of the loop that went as [take_candidates] says leaves the
    invariant. *)
Lemma pass_inv_run zipcode_id (d0 : db D) cs results results' sensors d e sensors' :
  pass_inv zipcode_id d0 results sensors d ->
  for_new_sensors zipcode_id cs sensors d
    = Ok (e, sensors', add_links zipcode_id results' d0) ->
  pass_inv zipcode_id d0 results' sensors' (add_links zipcode_id results' d0).
Proof.
  intros Hinv Hrun.
  destruct (for_new_sensors_inv _ _ _ _ _ _ _ _ _ Hinv Hrun) as (links & Hinv' & _).
  pose proof (f_equal (new_links d0) (pass_db _ _ _ _ _ Hinv')) as E.
  rewrite !new_links_add_links in E. by subst.
Qed.

Lemma while_body_linked zipcode_id longitude latitude (d0 : db D) gh results
    sensors d :
  db_ok d0 -> 0 < length gh <= 12 ->
  pass_inv zipcode_id d0 results sensors d ->
  existsb (linked zipcode_id d0) results = false ->
  let r := take_candidates
             (candidates longitude latitude
                (query (db_sensors d0) gh (list_to_set results.*1))) results in
  while_body zipcode_id longitude latitude gh sensors d
  = pass_outcome zipcode_id d0 r.1 r.2.
Proof.
  intros Hd0 Hlen Hinv Hl r. subst r.
  pose proof (pass_sensors _ _ _ _ _ Hinv) as Hs.
  assert (db_sensors d = db_sensors d0) as Hds
    by by rewrite (pass_db _ _ _ _ _ Hinv).
  unfold while_body. rewrite select_sensors_Ok by done. simpl.
  rewrite new_sensors_candidates, Hds, <- Hs.
  apply for_new_sensors_linked; [done | done | |].
  - by apply candidates_NoDup, sensors_ids_NoDup.
  - intros id Hid%candidates_excluded. by rewrite Hs, elem_of_list_to_set in Hid.
Qed.

Lemma while_gh_linked zipcode_id longitude latitude (d0 : db D) :
  db_ok d0 ->
  forall L gh results sensors d,
  length gh = L -> L <= 12 ->
  pass_inv zipcode_id d0 results sensors d ->
  existsb (linked zipcode_id d0) results = false ->
  while_gh zipcode_id longitude latitude gh sensors d
  = (r <- pass_outcome zipcode_id d0 tt
            (match_levels (db_sensors d0) longitude latitude gh L results) ;;
     Ok (r.1.2, r.2))%py.
Proof.
  intros Hd0. induction L as [|L IH]; intros gh results sensors d Hlen HL Hinv Hl.
  { destruct gh; [|done]. simpl. simp while_gh. unfold pass_outcome.
    by rewrite Hl, <- (pass_sensors _ _ _ _ _ Hinv), <- (pass_db _ _ _ _ _ Hinv). }
  destruct gh as [|g gh']; [done|].
  rewrite match_levels_S by done. rewrite while_gh_equation_2.
  pose proof (while_body_linked zipcode_id longitude latitude d0 (g :: gh')
                results sensors d Hd0 ltac:(simpl in *; lia) Hinv Hl) as Hbody.
  cbn zeta in Hbody. rewrite Hbody.
  unfold while_body in Hbody.
  rewrite select_sensors_Ok in Hbody by (simpl in *; lia).
  cbn [bind] in Hbody. unfold pass_outcome in *.
  destruct (take_candidates _ results) as [e results1]; cbn [fst snd] in *.
  destruct (existsb (linked zipcode_id d0) results1) eqn:Hl1;
    cbn [while_gh_unfold_clause_2 bind fst snd].
  - destruct e; [|by rewrite Hl1].
    by rewrite (existsb_linked_prefix _ _ _ _
                  (match_levels_prefix _ _ _ _ L results1) Hl1).
  - destruct e; cbn [while_gh_unfold_clause_2]; [|by rewrite Hl1].
    apply IH; [by rewrite removelast_length, Hlen | lia | | done].
    by eapply pass_inv_run.
Qed.

(** The pass on any database that satisfies its constraints. *)
Lemma create_sensors_zipcodes_linked (d : db D) zipcode_id zipcode
    latitude longitude (gh : string) :
  db_ok d -> String.length gh <= 12 ->
  let results := spec_match (db_sensors d) longitude latitude
                   (String.list_ascii_of_string gh) in
  create_sensors_zipcodes d zipcode_id zipcode latitude longitude gh
  = if existsb (linked zipcode_id d) results then Raise IntegrityError
    else Ok (add_links zipcode_id results d).
Proof.
  intros Hd Hlen. unfold create_sensors_zipcodes, spec_match. cbv zeta.
  rewrite (while_gh_linked zipcode_id longitude latitude d Hd
             (length (String.list_ascii_of_string gh)) _ [] ∅ d);
    [| done | by rewrite length_list_ascii_of_string | apply pass_inv_start
     | done].
  unfold pass_outcome. by destruct (existsb _ _).
Qed.

(** ** A postal code without links *)

Lemma while_body_refines zipcode_id longitude latitude (d0 : db D) gh results sensors d :
  db_ok d0 -> unlinked zipcode_id d0 -> 0 < length gh <= 12 ->
  pass_inv zipcode_id d0 results sensors d ->
  let cs := candidates longitude latitude
              (query (db_sensors d0) gh (list_to_set results.*1)) in
  while_body zipcode_id longitude latitude gh sensors d
  = Ok ((take_candidates cs results).1,
        list_to_set (take_candidates cs results).2.*1,
        add_links zipcode_id (take_candidates cs results).2 d0).
Proof.
  intros Hd0 Hun Hlen Hinv cs. subst cs.
  pose proof (while_body_linked zipcode_id longitude latitude d0 gh results
                sensors d Hd0 Hlen Hinv (unlinked_linked _ _ _ Hun)) as E.
  cbv zeta in E. rewrite E. unfold pass_outcome.
  by rewrite (unlinked_linked _ _ _ Hun).
Qed.

(** [create_sensors_zipcodes] implements [spec_match]. *)
Lemma create_sensors_zipcodes_spec (d : db D) zipcode_id zipcode
    latitude longitude (gh : string) :
  db_ok d -> unlinked zipcode_id d -> String.length gh <= 12 ->
  create_sensors_zipcodes d zipcode_id zipcode latitude longitude gh
  = Ok (add_links zipcode_id
          (spec_match (db_sensors d) longitude latitude
             (String.list_ascii_of_string gh)) d).
Proof.
  intros Hd Hun Hlen. rewrite create_sensors_zipcodes_linked by done.
  cbv zeta. by rewrite (unlinked_linked _ _ _ Hun).
Qed.

(** ** What the algorithm returns *)

(** The test of step 2d on one candidate. *)
Definition within_radius (c : Z * D) : bool := negb (dist_geb c.2 25).

(** The candidate built from a row of [sensors]. *)
Definition candidate_of longitude latitude (r : sensors_row) : Z * D :=
  (sensors_id r,
   distance longitude latitude (sensors_longitude r) (sensors_latitude r)).

Lemma candidates_sorted longitude latitude rows :
  StronglySorted (key_le snd dist_ltb) (candidates longitude latitude rows).
Proof.
  apply sorted_StronglySorted;
    [apply dist_ltb_irrefl | apply dist_ltb_trans | apply dist_ltb_cotrans].
Qed.

Lemma elem_of_candidates longitude latitude rows c :
  c ∈ candidates longitude latitude rows <->
  exists r, r ∈ rows /\ c = candidate_of longitude latitude r.
Proof.
  unfold candidates. rewrite elem_of_sorted, list_elem_of_fmap.
  split; intros (r & ? & ?); by exists r.
Qed.

(** Past a candidate that is too far, every candidate of a sorted batch is
    too far. *)
Lemma filter_within_radius_far c cs :
  dist_geb c.2 25 = true -> Forall (key_le snd dist_ltb c) cs ->
  List.filter within_radius cs = [].
Proof.
  intros Hc. induction 1 as [|c' cs Hc' Hcs IH]; simpl; [done|].
  unfold within_radius at 1.
  by rewrite (dist_geb_mono _ _ _ Hc Hc'), IH.
Qed.

(** A sorted batch gives its nearest candidates within the radius, as many
    as the results have room for. *)
Lemma take_candidates_sorted cs : forall results,
  StronglySorted (key_le snd dist_ltb) cs ->
  (take_candidates cs results).2
  = results ++ take (25 - length results) (List.filter within_radius cs).
Proof.
  induction cs as [|c cs IH]; intros results Hs; simpl.
  { by rewrite take_nil, app_nil_r. }
  apply StronglySorted_inv in Hs as [Hs Hc]. unfold within_radius at 1.
  destruct (dist_geb c.2 25) eqn:Hfar; simpl.
  { by rewrite (filter_within_radius_far c cs), take_nil, app_nil_r. }
  case_bool_decide as Hlen; simpl.
  { replace (25 - length results) with 0 by lia. by rewrite app_nil_r. }
  rewrite IH, length_app, <- app_assoc by done. simpl.
  by replace (25 - length results) with (S (25 - (length results + 1))) by lia.
Qed.

(** Every result was a candidate at some level from 1 to [L]. *)
Lemma elem_of_match_levels store longitude latitude key c : forall L results,
  c ∈ match_levels store longitude latitude key L results ->
  c ∈ results \/
  exists L' excluding, 1 <= L' <= L /\
    c ∈ candidates longitude latitude (query store (take L' key) excluding).
Proof.
  induction L as [|L IH]; intros results Hc; simpl in Hc; [by left|].
  destruct (take_candidates_prefix
    (candidates longitude latitude
       (query store (take (S L) key) (list_to_set results.*1))) results)
    as (l & El & Hl).
  assert (c ∈ results ++ l -> c ∈ results \/
    exists L' excluding, 1 <= L' <= S L /\
      c ∈ candidates longitude latitude (query store (take L' key) excluding))
    as Hhere.
  { intros [?|Hin]%elem_of_app; [by left | right].
    exists (S L), (list_to_set results.*1). split; [lia|].
    destruct Hl as [k ->]. apply elem_of_app. by left. }
  destruct (take_candidates _ results) as [[|] results']; simpl in El; subst;
    [|by apply Hhere].
  destruct (IH _ Hc) as [Hin|(L' & ex & HL' & Hin)]; [by apply Hhere|].
  right. exists L', ex. split; [lia | done].
Qed.

(** A result is a sensor of the store with its distance, and its key
    starts with the first symbol of the key of the postal code. *)
Lemma elem_of_spec_match store longitude latitude key c :
  c ∈ spec_match store longitude latitude key ->
  exists r, r ∈ store /\ c = candidate_of longitude latitude r /\
            take 1 (sensors_geohash_bits r) = take 1 key.
Proof.
  intros [[]%elem_of_nil|(L & ex & HL & Hc)]%elem_of_match_levels.
  apply elem_of_candidates in Hc as (r & Hr & ->). exists r.
  apply list_elem_of_In, filter_In in Hr as [Hr Hq].
  apply andb_true_iff in Hq as [Hq%bool_decide_eq_true _].
  split; [by apply list_elem_of_In | split; [done|]].
  apply (f_equal (take 1)) in Hq. rewrite !take_take in Hq.
  rewrite length_take in Hq.
  replace (1 `min` (L `min` length key)) with 1 in Hq by lia.
  by replace (1 `min` L) with 1 in Hq by lia.
Qed.

(** Symbolic runs: a level without candidates, and a level with one. *)
Lemma match_levels_none store longitude latitude key L results :
  query store (take (S L) key) (list_to_set results.*1) = [] ->
  match_levels store longitude latitude key (S L) results
  = match_levels store longitude latitude key L results.
Proof. intros E. simpl. by rewrite E. Qed.

Lemma match_levels_one store longitude latitude key L results r :
  query store (take (S L) key) (list_to_set results.*1) = [r] ->
  dist_geb (candidate_of longitude latitude r).2 25 = false ->
  length results < 25 ->
  match_levels store longitude latitude key (S L) results
  = match_levels store longitude latitude key L
      (results ++ [candidate_of longitude latitude r]).
Proof.
  intros E Hr Hlen. simpl. rewrite E. unfold candidates. simpl.
  unfold candidate_of in Hr. simpl in Hr. rewrite Hr.
  by rewrite bool_decide_eq_false_2 by lia.
Qed.

Lemma match_levels_far store longitude latitude key L results r :
  query store (take (S L) key) (list_to_set results.*1) = [r] ->
  dist_geb (candidate_of longitude latitude r).2 25 = true ->
  match_levels store longitude latitude key (S L) results = results.
Proof.
  intros E Hr. simpl. rewrite E. unfold candidates. simpl.
  unfold candidate_of in Hr. simpl in Hr. by rewrite Hr.
Qed.

(** ** Consequences for [create_sensors_zipcodes] *)

Lemma sensors_unlinked (rows : list sensors_row) zipcode_id :
  unlinked zipcode_id (db_of_sensors (D := D) rows).
Proof. apply not_elem_of_nil. Qed.

(** The run on a table of two sensors that share five and four symbols
    with the key: one is linked at level 5, the other at level 4. *)
Lemma spec_match_edge longitude latitude lat1 lon1 lat2 lon2 :
  dist_geb (distance longitude latitude lon1 lat1) 25 = false ->
  dist_geb (distance longitude latitude lon2 lat2) 25 = false ->
  spec_match (edge_sensors_at lat1 lon1 lat2 lon2) longitude latitude
    (String.list_ascii_of_string "9q8yyk8ytpxr")
  = [(10%Z, distance longitude latitude lon1 lat1);
     (11%Z, distance longitude latitude lon2 lat2)].
Proof.
  intros H1 H2. unfold spec_match. cbn [length String.list_ascii_of_string].
  do 7 rewrite match_levels_none by (vm_compute; reflexivity).
  rewrite (match_levels_one _ _ _ _ _ _ (sensor 10 lat1 lon1 "9q8yycyrfq1t"))
    by (done || (simpl; lia)).
  rewrite (match_levels_one _ _ _ _ _ _ (sensor 11 lat2 lon2 "9q8yvutw9xxp"))
    by (done || (simpl; lia)).
  by do 3 rewrite match_levels_none by (vm_compute; reflexivity).
Qed.

(** The run on a table of one sensor, in the cell of the postal code. *)
Lemma spec_match_single longitude latitude lat1 lon1 :
  dist_geb (distance longitude latitude lon1 lat1) 25 = false ->
  spec_match (single_sensor_at lat1 lon1) longitude latitude
    (String.list_ascii_of_string "9q8yyk8ytpxr")
  = [(1%Z, distance longitude latitude lon1 lat1)].
Proof.
  intros H1. unfold spec_match. cbn [length String.list_ascii_of_string].
  rewrite (match_levels_one _ _ _ _ _ _ (sensor 1 lat1 lon1 "9q8yyk8ytpxr"))
    by (done || (simpl; lia)).
  by do 11 rewrite match_levels_none by (vm_compute; reflexivity).
Qed.

(** The run on a table of two sensors that share three symbols and two
    with the key, the first of them too far: the pass ends at level 3. *)
Lemma spec_match_far_near longitude latitude lat1 lon1 lat2 lon2 :
  dist_geb (distance longitude latitude lon1 lat1) 25 = true ->
  spec_match (far_near_sensors_at lat1 lon1 lat2 lon2) longitude latitude
    (String.list_ascii_of_string "9q8yyk8ytpxr")
  = [].
Proof.
  intros H1. unfold spec_match. cbn [length String.list_ascii_of_string].
  do 9 rewrite match_levels_none by (vm_compute; reflexivity).
  by rewrite (match_levels_far _ _ _ _ _ _ (sensor 20 lat1 lon1 "9q8vnh41qc5q")).
Qed.

(** C1: [create_sensors_zipcodes] implements the matching algorithm of the
    specification.  On a database that satisfies its constraints, for a
    postal code without links and a key of at most 12 symbols, it does not
    raise, and it appends to [sensors_zipcodes] the results of
    [spec_match] on the [sensors] table, in order, and changes nothing
    else. *)
Theorem create_sensors_zipcodes_refines (d : db D) zipcode_id zipcode
    latitude longitude (gh : string) :
  db_ok d -> unlinked zipcode_id d -> String.length gh <= 12 ->
  create_sensors_zipcodes d zipcode_id zipcode latitude longitude gh
  = Ok (add_links zipcode_id
          (spec_match (db_sensors d) longitude latitude
             (String.list_ascii_of_string gh)) d).
Proof. apply create_sensors_zipcodes_spec. Qed.

(** A link is a sensor of the table with the distance from the postal
    code to the coordinates of its row, and its geohash starts with the
    first symbol of the geohash of the postal code: the empty prefix is
    never queried. *)
Theorem links_are_sensors (d : db D) zipcode_id zipcode
    latitude longitude (gh : string) d' c :
  db_ok d -> unlinked zipcode_id d -> String.length gh <= 12 ->
  create_sensors_zipcodes d zipcode_id zipcode latitude longitude gh = Ok d' ->
  c ∈ new_links d d' ->
  exists r, r ∈ db_sensors d /\ c = candidate_of longitude latitude r /\
    take 1 (sensors_geohash_bits r) = take 1 (String.list_ascii_of_string gh).
Proof.
  intros Hd Hun Hlen Hrun Hc.
  rewrite create_sensors_zipcodes_spec in Hrun by done. inv_ok.
  rewrite new_links_add_links in Hc. by apply elem_of_spec_match in Hc.
Qed.

(** C9: from an empty set of sensors, one round of the loop links the
    nearest sensors of its batch that are within the radius, 25 at most
    (Scenario B of the specification: of 30 sensors in range the 25
    nearest are linked). *)
Theorem first_round_links_nearest (d : db D) zipcode_id longitude latitude
    (gh : list ascii) e sensors' d' :
  db_ok d -> unlinked zipcode_id d -> length gh <= 12 ->
  while_body zipcode_id longitude latitude gh ∅ d = Ok (e, sensors', d') ->
  new_links d d'
  = take 25 (List.filter within_radius
               (new_sensors longitude latitude (selected_sensors gh ∅ d))).
Proof.
  intros Hd Hun Hlen Hrun.
  assert (0 < length gh) as H0 by (destruct gh; [done | simpl; lia]).
  rewrite (while_body_refines _ _ _ d gh [] ∅ d Hd Hun (conj H0 Hlen)
             (pass_inv_start zipcode_id d)) in Hrun.
  inv_ok. rewrite new_links_add_links, new_sensors_candidates.
  rewrite take_candidates_sorted by apply candidates_sorted. done.
Qed.

(** C26: the links of a postal code need not be in ascending distance.  Of
    two sensors within the radius, the one that shares five symbols with
    the geohash of the postal code is linked before the one that shares
    four, also when it is the farther of the two.  The algorithm of the
    specification gives the same list: its results are not sorted
    either. *)
Theorem links_need_not_ascend longitude latitude lat1 lon1 lat2 lon2 :
  let d := db_of_sensors (D := D) (edge_sensors_at lat1 lon1 lat2 lon2) in
  let d1 := distance longitude latitude lon1 lat1 in
  let d2 := distance longitude latitude lon2 lat2 in
  dist_geb d1 25 = false -> dist_geb d2 25 = false -> dist_ltb d2 d1 = true ->
  exists d',
    create_sensors_zipcodes d 1 "94103" latitude longitude "9q8yyk8ytpxr" = Ok d'
    /\ new_links d d' = [(10%Z, d1); (11%Z, d2)]
    /\ new_links d d'
       = spec_match (db_sensors d) longitude latitude
           (String.list_ascii_of_string "9q8yyk8ytpxr")
    /\ ~ StronglySorted (key_le snd dist_ltb) (new_links d d').
Proof.
  intros d d1 d2 H1 H2 H21. eexists. split; [|split; [|split]].
  - apply create_sensors_zipcodes_spec;
      [apply edge_db_ok | apply sensors_unlinked | simpl; lia].
  - rewrite new_links_add_links. by apply spec_match_edge.
  - by rewrite new_links_add_links.
  - rewrite new_links_add_links.
    change (db_sensors d) with (edge_sensors_at lat1 lon1 lat2 lon2).
    rewrite (spec_match_edge longitude latitude lat1 lon1 lat2 lon2 H1 H2).
    intros [_ Hs]%StronglySorted_inv. apply Forall_cons in Hs as [Hs _].
    unfold key_le in Hs. simpl in Hs. fold d1 d2 in Hs. congruence.
Qed.

(** C27: a sensor can be missed however near it is.  When a sensor that
    shares three symbols with the geohash of the postal code is too far,
    the pass ends at level 3 and links nothing, in the code and in the
    algorithm of the specification: the sensor that shares two symbols is
    never selected, whatever its distance. *)
Theorem nearer_sensor_missed longitude latitude lat1 lon1 lat2 lon2 :
  let d := db_of_sensors (D := D) (far_near_sensors_at lat1 lon1 lat2 lon2) in
  dist_geb (distance longitude latitude lon1 lat1) 25 = true ->
  spec_match (db_sensors d) longitude latitude
    (String.list_ascii_of_string "9q8yyk8ytpxr") = []
  /\ create_sensors_zipcodes d 1 "94103" latitude longitude "9q8yyk8ytpxr" = Ok d.
Proof.
  intros d H1. split; [by apply spec_match_far_near|].
  rewrite create_sensors_zipcodes_spec;
    [| apply far_near_db_ok | apply sensors_unlinked | simpl; lia].
  change (db_sensors d) with (far_near_sensors_at lat1 lon1 lat2 lon2).
  rewrite (spec_match_far_near longitude latitude lat1 lon1 lat2 lon2 H1).
  apply f_equal, add_links_nil.
Qed.

(** C12: the matcher cannot be run twice for a postal code: if a run linked
    at least one sensor, a second run with the same arguments on the
    database it left raises [IntegrityError], because it starts with no
    sensors to exclude and its first [INSERT] repeats a primary key. *)
Theorem create_sensors_zipcodes_second_pass (d d' : db D) zipcode_id zipcode
    latitude longitude (gh : string) :
  db_ok d -> unlinked zipcode_id d -> String.length gh <= 12 ->
  create_sensors_zipcodes d zipcode_id zipcode latitude longitude gh = Ok d' ->
  new_links d d' <> [] ->
  create_sensors_zipcodes d' zipcode_id zipcode latitude longitude gh
  = Raise IntegrityError.
Proof.
  intros Hd Hun Hlen Hrun Hne.
  pose proof (create_sensors_zipcodes_ok _ _ _ _ _ _ _ Hd Hrun) as Hd'.
  rewrite create_sensors_zipcodes_spec in Hrun by done. injection Hrun as <-.
  rewrite new_links_add_links in Hne.
  rewrite create_sensors_zipcodes_linked by done. cbv zeta.
  change (db_sensors (add_links _ _ d)) with (db_sensors d).
  destruct (spec_match _ _ _ _) as [|c results]; [done|]. cbn [existsb].
  unfold linked at 1. rewrite bool_decide_eq_true_2; [done|].
  rewrite add_links_keys. apply elem_of_app. right.
  apply (list_elem_of_fmap_2 (fun id => (id, zipcode_id))). by left.
Qed.

(** C13: the matcher raises [IntegrityError] for the links that were
    there before the pass, never for its own.  On a database that
    satisfies its constraints and for a key of at most 12 symbols,
    [create_sensors_zipcodes] raises [IntegrityError] exactly when one of
    the sensors that the algorithm of the specification takes is linked to
    the postal code already, and otherwise returns with the results of
    the algorithm appended: a sensor linked at one level is in the set
    that the [SELECT]s of the wider levels exclude, so that no pass
    inserts a pair [(sensor_id, zipcode_id)] twice. *)
Theorem create_sensors_zipcodes_raises_iff_linked (d : db D) zipcode_id
    zipcode latitude longitude (gh : string) :
  db_ok d -> String.length gh <= 12 ->
  let results := spec_match (db_sensors d) longitude latitude
                   (String.list_ascii_of_string gh) in
  create_sensors_zipcodes d zipcode_id zipcode latitude longitude gh
  = if existsb (linked zipcode_id d) results then Raise IntegrityError
    else Ok (add_links zipcode_id results d).
Proof. apply create_sensors_zipcodes_linked. Qed.

End Spec.

Lemma sf_db_unlinked : unlinked 1 sf_db.
Proof. apply not_elem_of_nil. Qed.

Lemma create_sensors_zipcodes_refines_witness :
  create_sensors_zipcodes sf_db 1 "94103" sf_latitude sf_longitude sf_geohash
  = Ok (add_links 1
          (spec_match (db_sensors sf_db) sf_longitude sf_latitude
             (String.list_ascii_of_string sf_geohash)) sf_db).
Proof.
  apply (create_sensors_zipcodes_refines sf_db 1 "94103"
           sf_latitude sf_longitude sf_geohash sf_db_ok sf_db_unlinked).
  vm_compute. lia.
Defined.

(** The pass of the postal code 94103 on a database in which sensor 3,
    the third that the algorithm takes, is linked to it already: the
    links to sensors 1 and 2 are made, the third [INSERT] raises. *)
Definition sf_db_3 : db Q :=
  add_links 1 [(3%Z, distance sf_longitude sf_latitude
                       (round6 (-1224100 # 10000)) (round6 (378000 # 10000)))]
    sf_db.

Lemma sf_db_3_ok : db_ok sf_db_3.
Proof. solve_db_ok. Qed.

Lemma create_sensors_zipcodes_raises_iff_linked_witness :
  create_sensors_zipcodes sf_db_3 1 "94103" sf_latitude sf_longitude sf_geohash
  = if existsb (linked 1 sf_db_3)
         (spec_match (db_sensors sf_db_3) sf_longitude sf_latitude
            (String.list_ascii_of_string sf_geohash))
    then Raise IntegrityError
    else Ok (add_links 1
               (spec_match (db_sensors sf_db_3) sf_longitude sf_latitude
                  (String.list_ascii_of_string sf_geohash)) sf_db_3).
Proof.
  apply (create_sensors_zipcodes_raises_iff_linked sf_db_3 1 "94103"
           sf_latitude sf_longitude sf_geohash sf_db_3_ok).
  vm_compute. lia.
Defined.

Example sf_db_3_run :
  create_sensors_zipcodes sf_db_3 1 "94103" sf_latitude sf_longitude sf_geohash
  = Raise IntegrityError.
Proof. vm_compute. reflexivity. Qed.

(** The third link of the run on [sf_db]: sensor 3. *)
Definition sf_third_link : Z * Q :=
  Eval vm_compute in nth 2 (new_links sf_db sf_db_linked) (0%Z, 0%Q).

Lemma links_are_sensors_witness :
  exists r, r ∈ db_sensors sf_db /\
    sf_third_link = candidate_of sf_longitude sf_latitude r /\
    take 1 (sensors_geohash_bits r)
    = take 1 (String.list_ascii_of_string sf_geohash).
Proof.
  apply (links_are_sensors sf_db 1 "94103" sf_latitude sf_longitude sf_geohash
           sf_db_linked sf_third_link sf_db_ok sf_db_unlinked).
  - vm_compute. lia.
  - exact sf_db_run_Ok.
  - vm_compute. do 2 apply list_elem_of_further. apply list_elem_of_here.
Defined.

(** Scenario B: the round on seven symbols, on thirty sensors in
    range. *)
Definition many_db_round : loop_exit * gset Z * db Q :=
  Eval vm_compute in
    match while_body 1 sf_longitude sf_latitude key_9q8yyk8 ∅ many_db with
    | Ok r => r
    | Raise _ => (Continue, ∅, many_db)
    end.

Lemma many_db_round_Ok :
  while_body 1 sf_longitude sf_latitude key_9q8yyk8 ∅ many_db
  = Ok (many_db_round.1.1, many_db_round.1.2, many_db_round.2).
Proof. vm_compute. reflexivity. Qed.

Lemma first_round_links_nearest_witness :
  new_links many_db many_db_round.2
  = take 25 (List.filter within_radius
               (new_sensors sf_longitude sf_latitude
                  (selected_sensors key_9q8yyk8 ∅ many_db))).
Proof.
  apply (first_round_links_nearest many_db 1 sf_longitude sf_latitude
           key_9q8yyk8 many_db_round.1.1 many_db_round.1.2 many_db_round.2
           many_db_ok (sensors_unlinked _ 1)).
  - vm_compute. lia.
  - exact many_db_round_Ok.
Defined.

(** The 25 nearest of the thirty are linked, and the pass returns; the
    whole pass links the same sensors, its rounds on twelve to eight
    symbols select none. *)
Example many_db_links :
  (new_links many_db many_db_round.2).*1 = Z.of_nat <$> seq 1 25
  /\ many_db_round.1.1 = Return
  /\ create_sensors_zipcodes many_db 1 "94103" sf_latitude sf_longitude
       sf_geohash
     = Ok many_db_round.2.
Proof. vm_compute. done. Qed.

Lemma links_need_not_ascend_witness :
  let d := db_of_sensors (D := Q) edge_sensors in
  let d1 := distance sf_longitude sf_latitude
              (round6 (-1223900 # 10000)) (round6 (377600 # 10000)) in
  let d2 := distance sf_longitude sf_latitude
              (round6 (-1224350 # 10000)) (round6 (377749 # 10000)) in
  exists d',
    create_sensors_zipcodes d 1 "94103" sf_latitude sf_longitude "9q8yyk8ytpxr"
    = Ok d'
    /\ new_links d d' = [(10%Z, d1); (11%Z, d2)]
    /\ new_links d d'
       = spec_match (db_sensors d) sf_longitude sf_latitude
           (String.list_ascii_of_string "9q8yyk8ytpxr")
    /\ ~ StronglySorted (key_le snd dist_ltb) (new_links d d').
Proof.
  apply (links_need_not_ascend (D := Q) sf_longitude sf_latitude
           (round6 (377600 # 10000)) (round6 (-1223900 # 10000))
           (round6 (377749 # 10000)) (round6 (-1224350 # 10000)));
    vm_compute; reflexivity.
Defined.

Lemma nearer_sensor_missed_witness :
  let d := db_of_sensors (D := Q) far_near_sensors in
  spec_match (db_sensors d) sf_longitude sf_latitude
    (String.list_ascii_of_string "9q8yyk8ytpxr") = []
  /\ create_sensors_zipcodes d 1 "94103" sf_latitude sf_longitude "9q8yyk8ytpxr"
     = Ok d.
Proof.
  apply (nearer_sensor_missed (D := Q) sf_longitude sf_latitude
           (round6 (374636 # 10000)) (round6 (-1224286 # 10000))
           (round6 (378044 # 10000)) (round6 (-1222712 # 10000))).
  vm_compute. reflexivity.
Defined.

(** The sensor that is missed is within the radius. *)
Example far_near_sensor_within_radius :
  dist_geb (distance sf_longitude sf_latitude
              (round6 (-1222712 # 10000)) (round6 (378044 # 10000))) 25
  = false.
Proof. vm_compute. reflexivity. Qed.

Lemma create_sensors_zipcodes_second_pass_witness :
  create_sensors_zipcodes sf_db_linked 1 "94103" sf_latitude sf_longitude sf_geohash
  = Raise IntegrityError.
Proof.
  apply (create_sensors_zipcodes_second_pass sf_db sf_db_linked 1 "94103"
           sf_latitude sf_longitude sf_geohash sf_db_ok sf_db_unlinked).
  - vm_compute. lia.
  - exact sf_db_run_Ok.
  - vm_compute. discriminate.
Defined.
