(* ===== verification/MatcherHaversine.v ===== *)
(** * MatcherHaversine: the matcher with the great-circle distance

    [create_sensors_zipcodes] calls [haversine_distance(longitude,
    latitude, r[2], r[1])] for each selected row.  With the instance
    [haversine_R] of the matcher's interface, the theorems of [Matcher] and
    [MatcherSpec] become statements about that distance in kilometres. *)

From Stdlib Require Import Reals Lra QArith Qreals Ascii.
From stdpp Require Import base list strings gmap.
From S2P Require Import Prelude Distance Haversine Database Examples.
From S2P Require Import Matcher MatcherSpec.

(** The great-circle distance from the postal code at
    [(longitude, latitude)] to the sensor of a row of [sensors]. *)
Definition distance_to (longitude latitude : Q) (r : sensors_row) : result R :=
  haversine_distance (Q2R longitude) (Q2R latitude)
    (Q2R (sensors_longitude r)) (Q2R (sensors_latitude r)).

Lemma dist_geb_false_lt (x : R) : dist_geb x 25 = false -> (x < 25)%R.
Proof.
  simpl. unfold Rleb. destruct (Rle_dec 25 x); [done | lra].
Qed.

Lemma candidate_of_distance_to longitude latitude r :
  distance_to longitude latitude r
  = Ok (candidate_of (D := R) longitude latitude r).2.
Proof. apply haversine_distance_Ok. Qed.

(** C8: every link of a postal code is to a sensor of the table, at the
    great-circle distance between the two, which is less than 25 km. *)
Theorem links_great_circle (d : db R) zipcode_id zipcode
    latitude longitude (gh : string) d' id dist :
  db_ok d -> unlinked zipcode_id d -> String.length gh <= 12 ->
  create_sensors_zipcodes d zipcode_id zipcode latitude longitude gh = Ok d' ->
  (id, dist) ∈ new_links d d' ->
  (0 <= dist < 25)%R /\
  exists r, r ∈ db_sensors d /\ sensors_id r = id
            /\ distance_to longitude latitude r = Ok dist.
Proof.
  intros Hd Hun Hlen Hrun Hin.
  destruct (create_sensors_zipcodes_inv _ _ _ _ _ _ _ Hrun) as [sensors Hinv].
  pose proof (proj1 (Forall_forall _ _) (pass_radius _ _ _ _ _ Hinv) _ Hin) as Hlt.
  apply dist_geb_false_lt in Hlt.
  rewrite create_sensors_zipcodes_spec in Hrun by done. inv_ok.
  rewrite new_links_add_links in Hin.
  apply elem_of_spec_match in Hin as (r & Hr & [= -> ->] & _).
  split; [split; [apply haversine_km_bounds | done]|].
  exists r. by rewrite candidate_of_distance_to.
Qed.

(** A sensor at the coordinates of the postal code is linked at
    distance 0. *)
Definition single_db : db R :=
  db_of_sensors (single_sensor_at sf_latitude sf_longitude).

Lemma single_sensor_run :
  create_sensors_zipcodes single_db 1 "94103" sf_latitude sf_longitude
    "9q8yyk8ytpxr"
  = Ok (add_links 1 [(1%Z, 0%R)] single_db).
Proof.
  assert (distance sf_longitude sf_latitude sf_longitude sf_latitude = 0%R) as E.
  { simpl. unfold haversine_km. rewrite haversine_a_same, sqrt_0, asin_0. lra. }
  rewrite create_sensors_zipcodes_spec;
    [| apply single_db_ok | apply sensors_unlinked | simpl; lia].
  change (db_sensors single_db) with (single_sensor_at sf_latitude sf_longitude).
  rewrite spec_match_single; rewrite E; [done|].
  simpl. unfold Rleb. destruct (Rle_dec 25 0); [lra | done].
Qed.

Lemma links_great_circle_witness :
  (0 <= 0 < 25)%R /\
  exists r, r ∈ db_sensors single_db /\ sensors_id r = 1%Z
            /\ distance_to sf_longitude sf_latitude r = Ok 0%R.
Proof.
  apply (links_great_circle single_db 1 "94103" sf_latitude sf_longitude
           "9q8yyk8ytpxr" (add_links 1 [(1%Z, 0%R)] single_db) 1 0%R
           (single_db_ok _ _) (sensors_unlinked _ 1)).
  - simpl. lia.
  - exact single_sensor_run.
  - rewrite new_links_add_links. apply list_elem_of_here.
Defined.
