(* ===== verification/Cities.v ===== *)
(** * Cities: [create_city]

    [create_city] looks a city up by name and state and inserts it when the
    look-up finds nothing.  The table has no [UNIQUE] constraint on
    [(name, state_code)]: that no pair occurs twice ([cities_unique]) is an
    invariant that [create_city] keeps, not one that SQLite enforces. *)

From Stdlib Require Import QArith Ascii.
From stdpp Require Import base list strings gmap.
From S2P Require Import Prelude Database Examples.

Section Cities.
Context {D : Type}.
Implicit Types (d : db D) (name state_code : string) (r : cities_row).

(** [create_city(cursor, city_name, state_code)]: the id of the city, and
    the database as the call leaves it. *)
Definition create_city d name state_code : Z * db D :=
  match select_cities name state_code d with
  | Some id => (id, d)
  | None => insert_cities name state_code d
  end.

(** The natural key of a city. *)
Definition cities_key r : string * string := (cities_name r, cities_state_code r).

(** No two rows of [cities] have the same name and state. *)
Definition cities_unique d : Prop := NoDup (cities_key <$> db_cities d).

(** ** The look-up *)

Lemma select_cities_Some name state_code d id :
  select_cities name state_code d = Some id ->
  CitiesRow id name state_code ∈ db_cities d.
Proof.
  unfold select_cities. destruct (List.find _ _) as [r|] eqn:E; [|done].
  intros [= <-]. apply find_some in E as [Hin Hr].
  apply andb_true_iff in Hr as [<-%bool_decide_eq_true <-%bool_decide_eq_true].
  destruct r. by apply list_elem_of_In.
Qed.

Lemma select_cities_None name state_code d :
  select_cities name state_code d = None <->
  (name, state_code) ∉ cities_key <$> db_cities d.
Proof.
  unfold select_cities. split.
  - destruct (List.find _ _) as [r|] eqn:E; [done|]. intros _.
    intros (r & [= -> ->] & Hr%list_elem_of_In)%list_elem_of_fmap.
    apply (find_none _ _ E) in Hr. by rewrite !bool_decide_eq_true_2 in Hr.
  - intros Hn. destruct (List.find _ _) as [r|] eqn:E; [|done]. destruct Hn.
    apply find_some in E as [Hin Hr].
    apply andb_true_iff in Hr as [<-%bool_decide_eq_true <-%bool_decide_eq_true].
    apply list_elem_of_fmap. exists r. by rewrite list_elem_of_In.
Qed.

(** ** What [create_city] does *)

Lemma create_city_found name state_code d id :
  select_cities name state_code d = Some id ->
  create_city d name state_code = (id, d).
Proof. unfold create_city. by intros ->. Qed.

Lemma create_city_new name state_code d :
  (name, state_code) ∉ cities_key <$> db_cities d ->
  create_city d name state_code = insert_cities name state_code d.
Proof. unfold create_city. by intros ->%select_cities_None. Qed.

Lemma create_city_elem_of name state_code d :
  CitiesRow (create_city d name state_code).1 name state_code
  ∈ db_cities (create_city d name state_code).2.
Proof.
  unfold create_city.
  destruct (select_cities name state_code d) as [id|] eqn:E; simpl.
  - by apply select_cities_Some.
  - apply elem_of_app. right. apply list_elem_of_singleton. done.
Qed.

Lemma create_city_prefix name state_code d :
  db_cities d `prefix_of` db_cities (create_city d name state_code).2.
Proof.
  unfold create_city. destruct (select_cities name state_code d); simpl.
  - done.
  - by eexists.
Qed.

(** [create_city] changes no table but [cities]. *)
Lemma create_city_frame name state_code d :
  let d' := (create_city d name state_code).2 in
  db_sensors d' = db_sensors d /\ db_zipcodes d' = db_zipcodes d
  /\ db_sensors_zipcodes d' = db_sensors_zipcodes d
  /\ seq_zipcodes d' = seq_zipcodes d.
Proof. unfold create_city. by destruct (select_cities name state_code d). Qed.

Lemma create_city_ok name state_code d :
  db_ok d -> db_ok (create_city d name state_code).2.
Proof.
  intros Hd. unfold create_city.
  destruct (select_cities name state_code d); [done|].
  by apply insert_cities_ok.
Qed.

Lemma create_city_unique name state_code d :
  cities_unique d -> cities_unique (create_city d name state_code).2.
Proof.
  intros Hu. unfold create_city.
  destruct (select_cities name state_code d) as [id|] eqn:E; [done|].
  apply select_cities_None in E. by apply NoDup_fmap_snoc.
Qed.

Lemma create_city_twice name state_code d :
  create_city (create_city d name state_code).2 name state_code
  = create_city d name state_code.
Proof.
  unfold create_city at 2 3.
  destruct (select_cities name state_code d) as [id|] eqn:E; simpl.
  { by apply create_city_found. }
  apply create_city_found. unfold select_cities in *. simpl.
  destruct (List.find _ (db_cities d)) eqn:Ef; [done|].
  rewrite (find_app_None _ _ _ Ef). simpl.
  by rewrite !bool_decide_eq_true_2.
Qed.

(** ** Properties *)

(** C36: [create_city] returns the id of a row of [cities] with the given
    name and state, and keeps the rows that were there: it inserts at most
    one row, and none when the city is found. *)
Theorem create_city_returns_row d name state_code :
  let (id, d') := create_city d name state_code in
  CitiesRow id name state_code ∈ db_cities d'
  /\ (db_cities d' = db_cities d
      \/ db_cities d' = db_cities d ++ [CitiesRow id name state_code]
         /\ (name, state_code) ∉ cities_key <$> db_cities d)
  /\ db_sensors d' = db_sensors d /\ db_zipcodes d' = db_zipcodes d
  /\ db_sensors_zipcodes d' = db_sensors_zipcodes d.
Proof.
  pose proof (create_city_elem_of name state_code d) as Hin.
  unfold create_city in *.
  destruct (select_cities name state_code d) as [id|] eqn:E; simpl in *.
  { split; [done|]. split; [by left | done]. }
  split; [done|]. split; [right | done].
  split; [done | by apply select_cities_None].
Qed.

(** C34: [create_city] never duplicates a city: if no two rows of
    [cities] share name and state before the call, none do after it. *)
Theorem create_city_keeps_unique d name state_code :
  cities_unique d -> cities_unique (create_city d name state_code).2.
Proof. apply create_city_unique. Qed.

(** C37: [create_city] is idempotent: a second call with the same name and
    state returns the same id and leaves the database as the first call
    left it. *)
Theorem create_city_idempotent d name state_code :
  create_city (create_city d name state_code).2 name state_code
  = create_city d name state_code.
Proof. apply create_city_twice. Qed.

(** C38: cities that differ in name or in state get different ids, also
    when they share the name (Scenario D of the specification). *)
Theorem create_city_distinct_ids d name1 state_code1 name2 state_code2 :
  db_ok d -> (name1, state_code1) <> (name2, state_code2) ->
  let (id1, d1) := create_city d name1 state_code1 in
  let (id2, d2) := create_city d1 name2 state_code2 in
  id1 <> id2.
Proof.
  intros Hd Hne.
  pose proof (create_city_elem_of name1 state_code1 d) as H1.
  pose proof (create_city_ok name1 state_code1 d Hd) as Hd1.
  destruct (create_city d name1 state_code1) as [id1 d1]. simpl in *.
  pose proof (create_city_elem_of name2 state_code2 d1) as H2.
  pose proof (create_city_ok name2 state_code2 d1 Hd1) as Hd2.
  pose proof (create_city_prefix name2 state_code2 d1) as Hpre.
  destruct (create_city d1 name2 state_code2) as [id2 d2]. simpl in *.
  intros <-. apply Hne.
  assert (CitiesRow id1 name1 state_code1 ∈ db_cities d2) as H1'.
  { destruct Hpre as [k ->]. apply elem_of_app. by left. }
  pose proof (NoDup_fmap_eq _ _ _ _ (cities_ids _ Hd2) H1' H2 eq_refl) as E.
  injection E as -> ->. done.
Qed.

(** [create_city] preserves the constraints of the database. *)
Theorem create_city_db_ok d name state_code :
  db_ok d -> db_ok (create_city d name state_code).2.
Proof. apply create_city_ok. Qed.

End Cities.

(** ** Scenario D on an empty database *)

Definition no_cities : db Q := create_db.

Lemma create_city_keeps_unique_witness :
  cities_unique (create_city no_cities "Springfield" "IL").2.
Proof.
  apply (create_city_keeps_unique no_cities "Springfield" "IL").
  apply NoDup_nil_2.
Defined.

Lemma create_city_distinct_ids_witness :
  let (id1, d1) := create_city no_cities "Springfield" "IL" in
  let (id2, d2) := create_city d1 "Springfield" "MO" in
  id1 <> id2.
Proof.
  apply (create_city_distinct_ids no_cities "Springfield" "IL" "Springfield" "MO").
  - apply create_db_ok.
  - discriminate.
Defined.

Lemma create_city_db_ok_witness :
  db_ok (create_city no_cities "Springfield" "IL").2.
Proof. apply (create_city_db_ok no_cities "Springfield" "IL"), create_db_ok. Defined.

(** Two cities of the same name in two states are two rows; the same city
    again is the row it was. *)
Example scenario_D :
  let (id1, d1) := create_city no_cities "Springfield" "IL" in
  let (id2, d2) := create_city d1 "Springfield" "MO" in
  let (id3, d3) := create_city d2 "Springfield" "IL" in
  (id1, id2, id3) = (1, 2, 1)%Z /\ length (db_cities d3) = 2.
Proof. vm_compute. done. Qed.
