(* ===== verification/Zipcodes.v ===== *)
(** * Zipcodes: [get_zipcodes_from_geonames] and [create_zipcodes]

    [get_zipcodes_from_geonames] reads the lines of [US.txt], one postal
    code a line, fields separated by tabs, and yields a record for every
    line whose place name does not start with [FPO] or [APO].
    [create_zipcodes] takes the records one at a time: it looks its city
    up or creates it, inserts the postal code with the geohash of its
    coordinates, and runs the matcher for it.  The generator is lazy, so a
    line is parsed when the loop asks for it: [create_zipcodes] here is a
    loop over the lines ([create_zipcodes_body]).  The download is not
    modelled: the lines are an input.

    [loaded] is the invariant of the loop: the constraints of the
    database, no city twice, every postal code in a city of the table,
    every link between a sensor and a postal code of the tables, closer
    than 25 km, at most 25 for a postal code. *)

From Stdlib Require Import QArith Ascii Lia.
From stdpp Require Import base list strings gmap sorting.
From S2P Require Import Prelude Distance Geohash PyString PyValue PySorted.
From S2P Require Import Database Matcher MatcherSpec Cities Sensors.

Section Zipcodes.
Context {D : Type} `{HD : DistanceFunction D} `{HC : Conversions}.
Implicit Types (d : db D) (line : string) (fields : list (list ascii)).

(** ** One line of [US.txt] *)

(** What the generator yields. *)
Record geoname : Type := Geoname {
  geoname_zipcode : string;
  geoname_city_name : string;
  geoname_state_code : string;
  geoname_latitude : Q;
  geoname_longitude : Q
}.

(** [fields[i].strip()]. *)
Definition field fields (i : nat) : result string :=
  match fields !! i with
  | Some f => Ok (String.string_of_list_ascii (strip f))
  | None => Raise IndexError
  end.

(** [decimal.Decimal(s)]. *)
Definition decimal (s : string) : result Q :=
  match decimal_of_string s with
  | Some q => Ok q
  | None => Raise InvalidOperation
  end.

(** The body of the generator's loop for one line: the record it yields,
    or [None] for the army post offices. *)
Definition parse_line line : result (option geoname) :=
  let fields :=
    split_on "009"%char (strip (String.list_ascii_of_string line)) in
  (zipcode <- field fields 1 ;;
   city_name <- field fields 2 ;;
   state_code <- field fields 4 ;;
   latitude <- (f <- field fields 9 ;; decimal f) ;;
   longitude <- (f <- field fields 10 ;; decimal f) ;;
   place_name <- field fields 2 ;;
   if startswith_any
        [String.list_ascii_of_string "FPO"; String.list_ascii_of_string "APO"]
        (String.list_ascii_of_string place_name)
   then Ok None
   else Ok (Some (Geoname zipcode city_name state_code latitude longitude)))%py.

(** ** One postal code *)

(** The body of the loop of [create_zipcodes] for one record. *)
Definition create_zipcode (g : geoname) d : result (db D) :=
  let '(city_id, d1) :=
    create_city d (geoname_city_name g) (geoname_state_code g) in
  (gh <- encode (geoname_latitude g) (geoname_longitude g) ;;
   r <- insert_zipcodes (geoname_zipcode g) city_id
          (round6 (geoname_latitude g)) (round6 (geoname_longitude g))
          (String.list_ascii_of_string gh) d1 ;;
   create_sensors_zipcodes r.2 r.1 (geoname_zipcode g)
     (geoname_latitude g) (geoname_longitude g) gh)%py.

(** One step of the loop: the generator parses a line, and the loop body
    runs if the line yields a record. *)
Definition create_zipcodes_body line d : result (db D) :=
  (r <- parse_line line ;;
   match r with
   | Some g => create_zipcode g d
   | None => Ok d
   end)%py.

(** [create_zipcodes()], on the lines of [US.txt]. *)
Definition create_zipcodes (lines : list string) d : result (db D) :=
  for_each create_zipcodes_body lines d.

(** ** The invariant of the load *)

Definition link_ok d (l : sensors_zipcodes_row D) : Prop :=
  sensors_zipcodes_sensor_id l ∈ sensors_id <$> db_sensors d
  /\ sensors_zipcodes_zipcode_id l ∈ zipcodes_id <$> db_zipcodes d
  /\ dist_geb (sensors_zipcodes_distance l) 25 = false.

(** The links of one postal code. *)
Definition links_of (zipcode_id : Z) d : list (sensors_zipcodes_row D) :=
  List.filter (fun l => bool_decide (sensors_zipcodes_zipcode_id l = zipcode_id))
    (db_sensors_zipcodes d).

Record loaded d : Prop := Loaded {
  loaded_db : db_ok d;
  loaded_cities : cities_unique d;
  loaded_city_ids :
    Forall (fun z => zipcodes_city_id z ∈ cities_id <$> db_cities d)
      (db_zipcodes d);
  loaded_links : Forall (link_ok d) (db_sensors_zipcodes d);
  loaded_count : forall zipcode_id, length (links_of zipcode_id d) <= 25
}.

(** The database with the city and the row of a postal code, before the
    matcher runs for it. *)
Definition with_geoname (g : geoname) d : db D :=
  let '(city_id, d1) :=
    create_city d (geoname_city_name g) (geoname_state_code g) in
  with_zipcode (geoname_zipcode g) city_id
    (round6 (geoname_latitude g)) (round6 (geoname_longitude g))
    (key_of (geoname_latitude g) (geoname_longitude g)) d1.

(** The links that the matcher finds for a postal code. *)
Definition geoname_links (g : geoname) d : list (Z * D) :=
  spec_match (db_sensors d) (geoname_longitude g) (geoname_latitude g)
    (key_of (geoname_latitude g) (geoname_longitude g)).

Lemma with_geoname_frame g d :
  db_sensors (with_geoname g d) = db_sensors d
  /\ db_sensors_zipcodes (with_geoname g d) = db_sensors_zipcodes d
  /\ seq_zipcodes (with_geoname g d) = (seq_zipcodes d + 1)%Z
  /\ exists city_id,
       db_zipcodes (with_geoname g d)
       = db_zipcodes d ++
           [ZipcodesRow (seq_zipcodes d + 1) city_id (geoname_zipcode g)
              (round6 (geoname_latitude g)) (round6 (geoname_longitude g))
              (key_of (geoname_latitude g) (geoname_longitude g))]
       /\ city_id ∈ cities_id <$> db_cities (with_geoname g d).
Proof.
  unfold with_geoname.
  pose proof (create_city_frame (geoname_city_name g) (geoname_state_code g) d)
    as (Hs & Hz & Hl & Hq).
  pose proof (create_city_elem_of (geoname_city_name g) (geoname_state_code g) d)
    as Hin.
  destruct (create_city d _ _) as [city_id d1]. cbn [fst snd] in *.
  unfold with_zipcode. cbn [db_sensors db_sensors_zipcodes seq_zipcodes
    db_zipcodes db_cities].
  rewrite Hs, Hz, Hl, Hq. repeat split. exists city_id. split; [reflexivity|].
  apply list_elem_of_fmap. by eexists (CitiesRow city_id _ _).
Qed.

Lemma key_of_string_length latitude longitude :
  String.length (String.string_of_list_ascii (key_of latitude longitude)) = 12.
Proof.
  rewrite <- length_list_ascii_of_string,
    String.list_ascii_of_string_of_list_ascii.
  apply key_of_length.
Qed.

(** What [create_zipcode] does before the matcher runs. *)
Lemma create_zipcode_unfold g d :
  valid_coordinate (geoname_latitude g) (geoname_longitude g) = true ->
  geoname_zipcode g ∉ zipcodes_zipcode <$> db_zipcodes d ->
  create_zipcode g d
  = create_sensors_zipcodes (with_geoname g d) (seq_zipcodes d + 1)
      (geoname_zipcode g) (geoname_latitude g) (geoname_longitude g)
      (String.string_of_list_ascii
         (key_of (geoname_latitude g) (geoname_longitude g))).
Proof.
  intros Hv Hz. unfold create_zipcode, with_geoname.
  pose proof (create_city_frame (geoname_city_name g) (geoname_state_code g) d)
    as (_ & Hzs & _ & Hq).
  destruct (create_city d _ _) as [city_id d1]. cbn [fst snd] in *.
  rewrite (encode_Ok _ _ Hv). cbn [bind].
  rewrite String.list_ascii_of_string_of_list_ascii.
  rewrite insert_zipcodes_Ok; [| apply key_of_length | by rewrite Hzs].
  cbn [bind fst snd]. by rewrite Hq.
Qed.

(** [create_zipcode] returns only for valid coordinates and a postal code
    that the table does not have. *)
Lemma create_zipcode_Ok_inv g d d' :
  create_zipcode g d = Ok d' ->
  valid_coordinate (geoname_latitude g) (geoname_longitude g) = true
  /\ geoname_zipcode g ∉ zipcodes_zipcode <$> db_zipcodes d.
Proof.
  unfold create_zipcode.
  pose proof (create_city_frame (geoname_city_name g) (geoname_state_code g) d)
    as (_ & Hzs & _ & _).
  destruct (create_city d _ _) as [city_id d1]. cbn [fst snd] in *.
  intros Hrun. apply bind_Ok_inv in Hrun as (gh & Hgh & Hrun).
  apply bind_Ok_inv in Hrun as ([id d2] & Hins & _).
  split; [by eapply encode_Ok_valid|].
  apply insert_zipcodes_Ok_inv in Hins as (_ & Hz & _). by rewrite <- Hzs.
Qed.

Section Step.
Context (g : geoname) (d : db D).
Hypothesis Hd : loaded d.
Hypothesis Hz : geoname_zipcode g ∉ zipcodes_zipcode <$> db_zipcodes d.

Lemma with_geoname_ok : db_ok (with_geoname g d).
Proof.
  unfold with_geoname.
  pose proof (create_city_ok (geoname_city_name g) (geoname_state_code g) d
                (loaded_db d Hd)) as Hd1.
  pose proof (create_city_frame (geoname_city_name g) (geoname_state_code g) d)
    as (_ & Hzs & _ & _).
  destruct (create_city d _ _) as [city_id d1]. cbn [fst snd] in *.
  eapply (insert_zipcodes_ok _ _ _ _ _ d1); [exact Hd1|].
  apply insert_zipcodes_Ok; [apply key_of_length | by rewrite Hzs].
Qed.

(** The id that the postal code gets is the id of no link. *)
Lemma with_geoname_unlinked : unlinked (seq_zipcodes d + 1) (with_geoname g d).
Proof.
  unfold unlinked. destruct (with_geoname_frame g d) as (_ & -> & _).
  intros (l & E & Hl)%list_elem_of_fmap.
  apply (proj1 (Forall_forall _ _) (loaded_links d Hd)) in Hl
    as (_ & (z & Ez & Hin)%list_elem_of_fmap & _).
  apply (proj1 (Forall_forall _ _) (zipcodes_seq d (loaded_db d Hd))) in Hin.
  lia.
Qed.

(** [create_zipcode] inserts the postal code and the links that the
    matching algorithm gives for it. *)
Lemma create_zipcode_spec :
  valid_coordinate (geoname_latitude g) (geoname_longitude g) = true ->
  create_zipcode g d
  = Ok (add_links (seq_zipcodes d + 1) (geoname_links g d) (with_geoname g d)).
Proof.
  intros Hv. rewrite create_zipcode_unfold by done.
  rewrite create_sensors_zipcodes_spec;
    [| exact with_geoname_ok | exact with_geoname_unlinked
     | by rewrite key_of_string_length].
  unfold geoname_links. destruct (with_geoname_frame g d) as (-> & _).
  by rewrite String.list_ascii_of_string_of_list_ascii.
Qed.

Lemma with_geoname_cities :
  db_cities (with_geoname g d)
  = db_cities (create_city d (geoname_city_name g) (geoname_state_code g)).2.
Proof. unfold with_geoname. by destruct (create_city d _ _). Qed.

(** The links of the postal code: sensors of the table, in the radius, 25
    at most. *)
Lemma geoname_links_ok :
  valid_coordinate (geoname_latitude g) (geoname_longitude g) = true ->
  Forall (fun c => c.1 ∈ sensors_id <$> db_sensors d
                   /\ dist_geb c.2 25 = false) (geoname_links g d)
  /\ length (geoname_links g d) <= 25.
Proof.
  intros Hv. pose proof (create_zipcode_spec Hv) as Hrun.
  rewrite create_zipcode_unfold in Hrun by done.
  apply create_sensors_zipcodes_inv in Hrun as (sensors & Hinv).
  rewrite new_links_add_links in Hinv. split; [|apply (pass_length _ _ _ _ _ Hinv)].
  apply Forall_forall. intros c Hc. split.
  - apply elem_of_spec_match in Hc as (r & Hr & -> & _).
    cbn [candidate_of fst]. by apply list_elem_of_fmap_2.
  - apply (proj1 (Forall_forall _ _) (pass_radius _ _ _ _ _ Hinv) c Hc).
Qed.

Lemma links_of_app zipcode_id (d1 : db D) links :
  links_of zipcode_id (add_links zipcode_id links d1)
  = links_of zipcode_id d1 ++ (link_row zipcode_id <$> links).
Proof.
  unfold links_of, add_links. cbn [db_sensors_zipcodes].
  rewrite List.filter_app. f_equal.
  induction links as [|c links IH]; [done|]. cbn [fmap list_fmap List.filter].
  cbn [link_row sensors_zipcodes_zipcode_id]. rewrite bool_decide_eq_true_2 by done.
  f_equal. exact IH.
Qed.

Lemma links_of_app_other zipcode_id zipcode_id' (d1 : db D) links :
  zipcode_id' <> zipcode_id ->
  links_of zipcode_id' (add_links zipcode_id links d1) = links_of zipcode_id' d1.
Proof.
  intros Hne. unfold links_of, add_links. cbn [db_sensors_zipcodes].
  rewrite List.filter_app. rewrite <- (app_nil_r (List.filter _ (db_sensors_zipcodes d1))) at 2.
  f_equal. induction links as [|c links IH]; [done|].
  cbn [fmap list_fmap List.filter link_row sensors_zipcodes_zipcode_id].
  rewrite bool_decide_eq_false_2 by done. exact IH.
Qed.

Lemma links_of_unlinked zipcode_id (d1 : db D) :
  unlinked zipcode_id d1 -> links_of zipcode_id d1 = [].
Proof.
  unfold unlinked, links_of. intros Hun.
  induction (db_sensors_zipcodes d1) as [|l ls IH]; [done|]. cbn [List.filter].
  rewrite fmap_cons, not_elem_of_cons in Hun. destruct Hun as [Hl Hls].
  rewrite bool_decide_eq_false_2 by done. by apply IH.
Qed.

(** One postal code more keeps the invariant. *)
Lemma loaded_add_geoname :
  valid_coordinate (geoname_latitude g) (geoname_longitude g) = true ->
  loaded (add_links (seq_zipcodes d + 1) (geoname_links g d) (with_geoname g d)).
Proof.
  intros Hv. pose proof (create_zipcode_spec Hv) as Hrun.
  rewrite create_zipcode_unfold in Hrun by done.
  destruct (geoname_links_ok Hv) as [Hlinks Hlen].
  destruct (with_geoname_frame g d) as (Hs & Hl & Hq & city_id & Hzs & Hcity).
  split.
  - eapply create_sensors_zipcodes_ok; [exact with_geoname_ok | exact Hrun].
  - unfold cities_unique. cbn [add_links db_cities]. rewrite with_geoname_cities.
    apply create_city_unique, (loaded_cities d Hd).
  - cbn [add_links db_zipcodes db_cities]. rewrite Hzs.
    apply Forall_app. split; [|by repeat constructor].
    eapply Forall_impl; [exact (loaded_city_ids d Hd)|]. intros z Hin.
    rewrite with_geoname_cities.
    destruct (create_city_prefix (geoname_city_name g) (geoname_state_code g) d)
      as [k ->].
    rewrite fmap_app. apply elem_of_app. by left.
  - cbn [add_links db_sensors_zipcodes]. rewrite Hl. apply Forall_app. split.
    + eapply Forall_impl; [exact (loaded_links d Hd)|].
      intros l (Hls & Hlz & Hld). split; [|split; [|done]].
      * cbn [add_links db_sensors]. by rewrite Hs.
      * cbn [add_links db_zipcodes]. rewrite Hzs, fmap_app.
        apply elem_of_app. by left.
    + apply Forall_fmap. eapply Forall_impl; [exact Hlinks|].
      intros c [Hc Hdist]. split; [|split; [|done]].
      * cbn [add_links db_sensors link_row sensors_zipcodes_sensor_id].
        by rewrite Hs.
      * cbn [add_links db_zipcodes link_row sensors_zipcodes_zipcode_id].
        rewrite Hzs, fmap_app. apply elem_of_app. right. by left.
  - intros zipcode_id. destruct (decide (zipcode_id = seq_zipcodes d + 1)%Z) as [->|Hne].
    + rewrite links_of_app, (links_of_unlinked _ _ with_geoname_unlinked).
      by rewrite app_nil_l, length_fmap.
    + rewrite links_of_app_other by done. unfold links_of. rewrite Hl.
      apply (loaded_count d Hd).
Qed.

End Step.

(** ** Lines *)

(** A line of [US.txt] written from its fields. *)
Definition geonames_line fields : string :=
  String.string_of_list_ascii (join "009"%char fields).

(** A field that [parse_line] reads back as it was written. *)
Definition clean (f : list ascii) : Prop := ("009"%char ∉ f) /\ stripped f.

Definition cleanb (f : list ascii) : bool :=
  bool_decide ("009"%char ∉ f) && strippedb f.

Lemma cleanb_clean fields :
  forallb cleanb fields = true -> Forall clean fields.
Proof.
  intros Hc. apply Forall_forall. intros f Hf%list_elem_of_In.
  apply (proj1 (forallb_forall _ _) Hc) in Hf.
  apply andb_true_iff in Hf as [H1 H2]. split.
  - by apply bool_decide_eq_true in H1.
  - by apply strippedb_stripped.
Qed.

Lemma field_clean fields i (x : string) :
  Forall clean fields -> fields !! i = Some (String.list_ascii_of_string x) ->
  field fields i = Ok x.
Proof.
  intros Hc Hi. unfold field. rewrite Hi.
  apply list_elem_of_lookup_2 in Hi.
  apply (proj1 (Forall_forall _ _) Hc) in Hi as [_ Hs].
  rewrite (strip_stripped _ Hs).
  by rewrite String.string_of_list_ascii_of_string.
Qed.

Lemma split_geonames_line fields f0 fn :
  hd_error fields = Some f0 -> last fields = Some fn ->
  f0 <> [] -> fn <> [] -> Forall clean fields ->
  split_on "009"%char
    (strip (String.list_ascii_of_string (geonames_line fields)))
  = fields.
Proof.
  intros H0 Hn Hf0 Hfn Hc. unfold geonames_line.
  rewrite String.list_ascii_of_string_of_list_ascii.
  rewrite strip_stripped.
  - apply split_on_join; [by destruct fields|].
    eapply Forall_impl; [exact Hc|]. by intros f [? _].
  - apply (join_stripped _ fields f0 fn); try done.
    + apply (proj1 (Forall_forall _ _) Hc f0). destruct fields; [done|].
      injection H0 as ->. by left.
    + apply (proj1 (Forall_forall _ _) Hc fn).
      apply last_Some in Hn as [l' ->]. apply elem_of_app. right. by left.
Qed.

(** A line that has fewer than ten fields raises [IndexError]: an empty
    line does. *)
Lemma parse_line_IndexError line :
  length (split_on "009"%char (strip (String.list_ascii_of_string line))) <= 9 ->
  parse_line line = Raise IndexError.
Proof.
  intros Hlen. unfold parse_line.
  set (fields := split_on _ _) in *. unfold field.
  rewrite (lookup_ge_None_2 fields 9) by lia.
  by repeat (destruct (fields !! _); cbn [bind]; try done).
Qed.

(** The records that the generator yields for a list of lines none of
    which raises. *)
Inductive parsed : list string -> list geoname -> Prop :=
  | parsed_nil : parsed [] []
  | parsed_yield line lines g gs :
      parse_line line = Ok (Some g) -> parsed lines gs ->
      parsed (line :: lines) (g :: gs)
  | parsed_skip line lines gs :
      parse_line line = Ok None -> parsed lines gs ->
      parsed (line :: lines) gs.

(** Parsing the lines as the loop asks for them is parsing them first. *)
Lemma create_zipcodes_parsed lines gs d :
  parsed lines gs -> create_zipcodes lines d = for_each create_zipcode gs d.
Proof.
  intros Hp. revert d. unfold create_zipcodes.
  induction Hp as [|line lines g gs Hl _ IH|line lines gs Hl _ IH]; intros d;
    [done|..]; cbn [for_each]; unfold create_zipcodes_body at 1; rewrite Hl;
    cbn [bind].
  - destruct (create_zipcode g d); cbn [bind]; [apply IH | done].
  - apply IH.
Qed.

(** ** The load as a function *)

(** What one record adds: its city, its row and its links. *)
Definition load_geoname (g : geoname) d : db D :=
  add_links (seq_zipcodes d + 1) (geoname_links g d) (with_geoname g d).

Definition load_geonames (gs : list geoname) d : db D :=
  fold_left (fun d g => load_geoname g d) gs d.

Lemma load_geoname_zipcodes g d :
  zipcodes_zipcode <$> db_zipcodes (load_geoname g d)
  = (zipcodes_zipcode <$> db_zipcodes d) ++ [geoname_zipcode g].
Proof.
  unfold load_geoname. cbn [add_links db_zipcodes].
  destruct (with_geoname_frame g d) as (_ & _ & _ & city_id & -> & _).
  by rewrite fmap_app.
Qed.

Lemma load_geoname_sensors g d : db_sensors (load_geoname g d) = db_sensors d.
Proof.
  unfold load_geoname. cbn [add_links db_sensors].
  by destruct (with_geoname_frame g d) as (-> & _).
Qed.

(** [create_zipcode] keeps the invariant. *)
Lemma create_zipcode_loaded g d d' :
  loaded d -> create_zipcode g d = Ok d' -> loaded d'.
Proof.
  intros Hd Hrun. destruct (create_zipcode_Ok_inv _ _ _ Hrun) as [Hv Hz].
  rewrite (create_zipcode_spec g d Hd Hz Hv) in Hrun.
  assert (d' = add_links (seq_zipcodes d + 1) (geoname_links g d)
                 (with_geoname g d)) as -> by congruence.
  by apply loaded_add_geoname.
Qed.

Lemma create_zipcode_sensors g d d' :
  loaded d -> create_zipcode g d = Ok d' -> db_sensors d' = db_sensors d.
Proof.
  intros Hd Hrun. destruct (create_zipcode_Ok_inv _ _ _ Hrun) as [Hv Hz].
  rewrite (create_zipcode_spec g d Hd Hz Hv) in Hrun.
  assert (d' = load_geoname g d) as -> by (unfold load_geoname; congruence).
  apply load_geoname_sensors.
Qed.

Lemma create_zipcodes_body_loaded line d d' :
  loaded d -> create_zipcodes_body line d = Ok d' ->
  loaded d' /\ db_sensors d' = db_sensors d.
Proof.
  intros Hd. unfold create_zipcodes_body.
  intros ([g|] & _ & Hrun)%bind_Ok_inv.
  - split; [by eapply create_zipcode_loaded | by eapply create_zipcode_sensors].
  - by assert (d' = d) as -> by congruence.
Qed.

(** A database without postal codes, cities and links satisfies the
    invariant. *)
Lemma loaded_sensors_only d :
  db_ok d -> db_zipcodes d = [] -> db_cities d = [] ->
  db_sensors_zipcodes d = [] -> loaded d.
Proof.
  intros Hd Hz Hc Hl. split; [done | | | |].
  - unfold cities_unique. rewrite Hc. constructor.
  - by rewrite Hz.
  - by rewrite Hl.
  - intros zipcode_id. unfold links_of. rewrite Hl. simpl. lia.
Qed.

(** A postal code that the table has raises [IntegrityError]. *)
Lemma create_zipcode_duplicate g d :
  valid_coordinate (geoname_latitude g) (geoname_longitude g) = true ->
  geoname_zipcode g ∈ zipcodes_zipcode <$> db_zipcodes d ->
  create_zipcode g d = Raise IntegrityError.
Proof.
  intros Hv Hz. unfold create_zipcode.
  pose proof (create_city_frame (geoname_city_name g) (geoname_state_code g) d)
    as (_ & Hzs & _ & _).
  destruct (create_city d _ _) as [city_id d1]. cbn [fst snd] in *.
  rewrite (encode_Ok _ _ Hv). cbn [bind].
  rewrite String.list_ascii_of_string_of_list_ascii.
  rewrite insert_zipcodes_Raise_unique; [done | apply key_of_length |].
  by rewrite Hzs.
Qed.

(** The loop over records with valid coordinates and postal codes that are
    new and distinct is the function [load_geonames]. *)
Lemma for_each_create_zipcode gs : forall d,
  loaded d ->
  Forall (fun g => valid_coordinate (geoname_latitude g) (geoname_longitude g)
                   = true) gs ->
  NoDup ((zipcodes_zipcode <$> db_zipcodes d) ++ (geoname_zipcode <$> gs)) ->
  for_each create_zipcode gs d = Ok (load_geonames gs d).
Proof.
  induction gs as [|g gs IH]; intros d Hd Hv Hnd; [done|].
  apply Forall_cons in Hv as [Hg Hv]. cbn [for_each load_geonames fold_left].
  assert (geoname_zipcode g ∉ zipcodes_zipcode <$> db_zipcodes d) as Hz.
  { apply NoDup_app in Hnd as (_ & Hdis & _). intros Hin.
    apply (Hdis _ Hin). by left. }
  rewrite (create_zipcode_spec g d Hd Hz Hg). cbn [bind].
  fold (load_geoname g d). apply IH; [by apply loaded_add_geoname | done |].
  rewrite load_geoname_zipcodes, <- app_assoc. exact Hnd.
Qed.

(** ** The load *)

(** C19: a line written from its fields, none of which holds a tab or
    starts or ends with whitespace, the first and the last not empty, is
    read back by [parse_line] as the record of its fields 1, 2, 4, 9 and 10,
    and as no record when the place name starts with [FPO] or [APO]. *)
Theorem parse_line_geonames_line fields f0 fn
    (zipcode city_name state_code lat lon : string) latitude longitude :
  hd_error fields = Some f0 -> last fields = Some fn ->
  f0 <> [] -> fn <> [] -> forallb cleanb fields = true ->
  fields !! 1 = Some (String.list_ascii_of_string zipcode) ->
  fields !! 2 = Some (String.list_ascii_of_string city_name) ->
  fields !! 4 = Some (String.list_ascii_of_string state_code) ->
  fields !! 9 = Some (String.list_ascii_of_string lat) ->
  fields !! 10 = Some (String.list_ascii_of_string lon) ->
  decimal_of_string lat = Some latitude ->
  decimal_of_string lon = Some longitude ->
  parse_line (geonames_line fields)
  = Ok (if startswith_any
             [String.list_ascii_of_string "FPO";
              String.list_ascii_of_string "APO"]
             (String.list_ascii_of_string city_name)
        then None
        else Some (Geoname zipcode city_name state_code latitude longitude)).
Proof.
  intros H0 Hn Hf0 Hfn Hc%cleanb_clean H1 H2 H4 H9 H10 Hlat Hlon.
  unfold parse_line.
  rewrite (split_geonames_line fields f0 fn H0 Hn Hf0 Hfn Hc).
  rewrite (field_clean _ _ _ Hc H1), (field_clean _ _ _ Hc H2),
    (field_clean _ _ _ Hc H4), (field_clean _ _ _ Hc H9),
    (field_clean _ _ _ Hc H10).
  cbn [bind]. unfold decimal. rewrite Hlat, Hlon. cbn [bind].
  by destruct (startswith_any _ _).
Qed.

(** C29: a line of fewer than ten fields, an empty line among them, makes
    the generator raise [IndexError], and the load ends there. *)
Theorem create_zipcodes_short_line lines1 line lines2 d d1 :
  create_zipcodes lines1 d = Ok d1 ->
  length (split_on "009"%char (strip (String.list_ascii_of_string line))) <= 9 ->
  create_zipcodes (lines1 ++ line :: lines2) d = Raise IndexError.
Proof.
  intros H1 Hlen. apply (for_each_Raise _ _ _ _ _ d1); [exact H1|].
  unfold create_zipcodes_body. by rewrite parse_line_IndexError.
Qed.

(** C11: [create_zipcodes] keeps the invariant of the load, and leaves the
    table of the sensors as it was. *)
Theorem create_zipcodes_keeps_loaded lines d d' :
  loaded d -> create_zipcodes lines d = Ok d' ->
  loaded d' /\ db_sensors d' = db_sensors d.
Proof.
  intros Hd. apply (for_each_preserves
    (fun s => loaded s /\ db_sensors s = db_sensors d)); [done|].
  intros line s1 s2 _ [Hs1 Heq] Hrun.
  destruct (create_zipcodes_body_loaded _ _ _ Hs1 Hrun) as [? ->]. done.
Qed.

(** C4: on lines that parse to the records [gs], with coordinates that
    have a key and postal codes that are new and distinct,
    [create_zipcodes] returns, and the database is that of the function
    [load_geonames]: for every record its city if it is new, its row, and
    the links of the matching algorithm. *)
Theorem create_zipcodes_refines lines gs d :
  parsed lines gs -> loaded d ->
  Forall (fun g => valid_coordinate (geoname_latitude g) (geoname_longitude g)
                   = true) gs ->
  NoDup ((zipcodes_zipcode <$> db_zipcodes d) ++ (geoname_zipcode <$> gs)) ->
  create_zipcodes lines d = Ok (load_geonames gs d).
Proof.
  intros Hp Hd Hv Hnd. rewrite (create_zipcodes_parsed _ _ _ Hp).
  by apply for_each_create_zipcode.
Qed.

(** The generator is lazy and the loop asks it for one line at a time;
    when no line raises, that is the loop over the records of all the
    lines. *)
Theorem create_zipcodes_lazy_eager lines gs d :
  parsed lines gs -> create_zipcodes lines d = for_each create_zipcode gs d.
Proof. apply create_zipcodes_parsed. Qed.

(** C28: a postal code that the table holds already, on a line after those
    that were loaded, raises [IntegrityError]: the file may not name a
    postal code twice. *)
Theorem create_zipcodes_duplicate_zipcode lines1 line lines2 g d d1 :
  create_zipcodes lines1 d = Ok d1 ->
  parse_line line = Ok (Some g) ->
  valid_coordinate (geoname_latitude g) (geoname_longitude g) = true ->
  geoname_zipcode g ∈ zipcodes_zipcode <$> db_zipcodes d1 ->
  create_zipcodes (lines1 ++ line :: lines2) d = Raise IntegrityError.
Proof.
  intros H1 Hl Hv Hz. apply (for_each_Raise _ _ _ _ _ d1); [exact H1|].
  unfold create_zipcodes_body. rewrite Hl. cbn [bind].
  by apply create_zipcode_duplicate.
Qed.

(** C17: the links of a new postal code are, in their order, those of the
    matching algorithm for the key of its coordinates, and the links of
    the other postal codes stay. *)
Theorem create_zipcode_links g d d' zipcode_id :
  loaded d -> create_zipcode g d = Ok d' ->
  links_of zipcode_id d'
  = if decide (zipcode_id = seq_zipcodes d + 1)%Z
    then link_row zipcode_id <$> geoname_links g d
    else links_of zipcode_id d.
Proof.
  intros Hd Hrun. destruct (create_zipcode_Ok_inv _ _ _ Hrun) as [Hv Hz].
  rewrite (create_zipcode_spec g d Hd Hz Hv) in Hrun.
  assert (d' = load_geoname g d) as -> by (unfold load_geoname; congruence).
  unfold load_geoname. destruct (with_geoname_frame g d) as (_ & Hl & _).
  destruct (decide _) as [->|Hne].
  - rewrite links_of_app.
    by rewrite (links_of_unlinked _ _ (with_geoname_unlinked g d Hd)).
  - rewrite links_of_app_other by done. unfold links_of. by rewrite Hl.
Qed.


End Zipcodes.

(** ** A load on three lines *)

Section Load.
#[local] Existing Instance decimal_literals.

(** The fields of a line of [US.txt]: country, postal code, place, state,
    state code, county, county code, two empty fields, latitude,
    longitude, accuracy. *)
Definition us_fields (zipcode place state state_code county lat lon : string)
    : list (list ascii) :=
  String.list_ascii_of_string <$>
    ["US"; zipcode; place; state; state_code; county; "075"; ""; "";
     lat; lon; "4"]%string.

Definition sf_fields : list (list ascii) :=
  us_fields "94103" "San Francisco" "California" "CA" "San Francisco"
    "37.7749" "-122.4194".

Definition sf_line : string := Eval vm_compute in geonames_line sf_fields.

(** An army post office: the generator skips it. *)
Definition apo_line : string :=
  Eval vm_compute in
    geonames_line (us_fields "09001" "APO AA" "" "AA" "Erie" "41.0938"
                     "-73.6473").

Definition oakland_line : string :=
  Eval vm_compute in
    geonames_line (us_fields "94607" "Oakland" "California" "CA" "Alameda"
                     "37.8044" "-122.2712").

(** [Decimal] holds the fractions in lowest terms. *)
Definition sf_geoname : geoname :=
  Eval vm_compute in
    Geoname "94103" "San Francisco" "CA"
      (Qred (377749 # 10000)) (Qred (-1224194 # 10000)).

Definition oakland_geoname : geoname :=
  Eval vm_compute in
    Geoname "94607" "Oakland" "CA"
      (Qred (378044 # 10000)) (Qred (-1222712 # 10000)).

Definition us_lines : list string := [sf_line; apo_line; oakland_line].

Definition us_run : result (db Q) := create_zipcodes us_lines sf_feed_db.

Definition us_db : db Q :=
  Eval vm_compute in match us_run with Ok d => d | Raise _ => create_db end.

Lemma us_run_Ok : us_run = Ok us_db.
Proof. vm_compute. reflexivity. Qed.

Definition sf_only_db : db Q :=
  Eval vm_compute in
    match create_zipcodes [sf_line] sf_feed_db with
    | Ok d => d
    | Raise _ => create_db
    end.

Lemma sf_only_run_Ok : create_zipcodes [sf_line] sf_feed_db = Ok sf_only_db.
Proof. vm_compute. reflexivity. Qed.

Lemma sf_feed_db_loaded : loaded sf_feed_db.
Proof. by apply loaded_sensors_only; [apply sf_feed_db_ok|..]. Qed.

Lemma us_lines_parsed : parsed us_lines [sf_geoname; oakland_geoname].
Proof.
  apply parsed_yield; [vm_compute; reflexivity|].
  apply parsed_skip; [vm_compute; reflexivity|].
  apply parsed_yield; [vm_compute; reflexivity|]. apply parsed_nil.
Qed.

(** The postal code 94103 is linked to the three sensors of the feed,
    the two at its coordinates first. *)
Example us_db_links :
  (fun l => (sensors_zipcodes_sensor_id l, sensors_zipcodes_zipcode_id l)) <$>
    db_sensors_zipcodes us_db
  = [(1, 1); (6, 1); (8, 1); (8, 2); (1, 2); (6, 2)]%Z.
Proof. vm_compute. reflexivity. Qed.

Lemma parse_line_geonames_line_witness :
  parse_line (geonames_line sf_fields) = Ok (Some sf_geoname).
Proof.
  exact (parse_line_geonames_line sf_fields
           (String.list_ascii_of_string "US") (String.list_ascii_of_string "4")
           "94103" "San Francisco" "CA" "37.7749" "-122.4194"
           (geoname_latitude sf_geoname) (geoname_longitude sf_geoname)
           eq_refl eq_refl ltac:(discriminate) ltac:(discriminate)
           eq_refl eq_refl eq_refl eq_refl eq_refl eq_refl eq_refl eq_refl).
Defined.

Lemma create_zipcodes_short_line_witness :
  create_zipcodes ([sf_line] ++ ""%string :: [oakland_line]) sf_feed_db
  = Raise IndexError.
Proof.
  apply (create_zipcodes_short_line [sf_line] "" [oakland_line] sf_feed_db
           sf_only_db sf_only_run_Ok).
  vm_compute. lia.
Defined.

Lemma create_zipcodes_keeps_loaded_witness :
  loaded us_db /\ db_sensors us_db = db_sensors sf_feed_db.
Proof.
  exact (create_zipcodes_keeps_loaded us_lines sf_feed_db us_db
           sf_feed_db_loaded us_run_Ok).
Defined.

Lemma create_zipcodes_refines_witness :
  create_zipcodes us_lines sf_feed_db
  = Ok (load_geonames [sf_geoname; oakland_geoname] sf_feed_db).
Proof.
  apply (create_zipcodes_refines us_lines [sf_geoname; oakland_geoname]
           sf_feed_db us_lines_parsed sf_feed_db_loaded).
  - by repeat constructor.
  - refine (bool_decide_unpack _ _). vm_compute. exact I.
Defined.

Lemma create_zipcodes_lazy_eager_witness :
  create_zipcodes us_lines sf_feed_db
  = for_each create_zipcode [sf_geoname; oakland_geoname] sf_feed_db.
Proof.
  exact (create_zipcodes_lazy_eager us_lines [sf_geoname; oakland_geoname]
           sf_feed_db us_lines_parsed).
Defined.

Lemma create_zipcodes_duplicate_zipcode_witness :
  create_zipcodes ([sf_line] ++ sf_line :: [oakland_line]) sf_feed_db
  = Raise IntegrityError.
Proof.
  apply (create_zipcodes_duplicate_zipcode [sf_line] sf_line [oakland_line]
           sf_geoname sf_feed_db sf_only_db sf_only_run_Ok).
  - vm_compute. reflexivity.
  - vm_compute. reflexivity.
  - vm_compute. constructor.
Defined.

Lemma create_zipcode_links_witness :
  links_of 1 sf_only_db
  = link_row 1 <$> geoname_links sf_geoname sf_feed_db.
Proof.
  apply (create_zipcode_links sf_geoname sf_feed_db sf_only_db 1
           sf_feed_db_loaded).
  vm_compute. reflexivity.
Defined.

End Load.
