(* ===== verification/Generate.v ===== *)
(** * Generate: the files of a run and [generate]

    [generate] removes the three files of an earlier run ([refresh_data]),
    makes the tables ([create_db]), loads the sensors of the feed
    ([create_sensors]) and then the postal codes with their links
    ([create_zipcodes]).  Every function opens [airq.db] anew
    ([get_connection]) and commits what it did, the loops once a round:
    what a run has committed stays in the file when a later statement
    raises.

    The state is the record [files]: what [airq.db], [US.zip] and
    [purpleair.json] hold, if they are there.  A function that reads or
    writes them is a computation of the monad [io], a function from the
    files to the files it leaves and a [result].  The answers of the two
    servers are an input, the record [network].  [hoare] is the
    specification of a computation by what holds of the files before and
    after it, whether it returned or raised. *)

From Stdlib Require Import QArith Ascii Lia.
From stdpp Require Import base list strings gmap sorting.
From S2P Require Import Prelude Distance Geohash PyString PyValue PySorted.
From S2P Require Import Database Matcher MatcherSpec Cities Sensors Zipcodes.

(** ** Files and servers *)

(** The files of the working directory: [None] is a file that is not
    there.  [airq.db] holds the tables; [US.zip] what was downloaded, the
    lines of its member [US.txt] or bytes that are no archive;
    [purpleair.json] what [json.load] makes of it, the records of the
    feed or the exception for a file that holds no document. *)
Record files (D : Type) : Type := Files {
  airq_db : option (db D);
  us_zip : option (result (list string));
  purpleair_json : option (result (list dict))
}.
Arguments Files {D} _ _ _.
Arguments airq_db {D} _.
Arguments us_zip {D} _.
Arguments purpleair_json {D} _.

(** What the two servers answer: the exception of [requests.get] or of
    [raise_for_status], or the body.  The body of the feed is what
    [resp.json()["results"]] makes of it, the records or an exception;
    the body of the archive is what [zipfile] makes of it. *)
Record network : Type := Network {
  purpleair_com : result (result (list dict));
  geonames_org : result (result (list string))
}.

(** ** Computations on the files *)

Definition io (D A : Type) : Type := files D -> files D * result A.

Section Monad.
Context {D : Type}.

Definition ret {A : Type} (a : A) : io D A := fun fs => (fs, Ok a).

Definition lift {A : Type} (c : result A) : io D A := fun fs => (fs, c).

Definition io_bind {A B : Type} (c : io D A) (k : A -> io D B) : io D B :=
  fun fs =>
    match c fs with
    | (fs1, Ok a) => k a fs1
    | (fs1, Raise e) => (fs1, Raise e)
    end.

End Monad.

Declare Scope io_scope.
Delimit Scope io_scope with io.
Notation "x <- c ;; k" := (io_bind c (fun x => k))
  (at level 100, c at next level, right associativity) : io_scope.
Notation "c ;; k" := (io_bind c (fun _ => k))
  (at level 100, right associativity) : io_scope.

(** A [for] loop with a local variable [s]. *)
Fixpoint for_each_io {D A S : Type} (body : A -> S -> io D S) (xs : list A)
    (s : S) : io D S :=
  match xs with
  | [] => ret s
  | x :: xs' => (s' <- body x s ;; for_each_io body xs' s')%io
  end.

(** What holds of the files after a computation that starts where [P]
    holds: [Q] of the result, value or exception, and of the files. *)
Definition hoare {D A : Type} (P : files D -> Prop) (c : io D A)
    (Q : result A -> files D -> Prop) : Prop :=
  forall fs, P fs -> Q (c fs).2 (c fs).1.

(** ** The functions of the program *)

Section Generate.
Context {D : Type} `{HD : DistanceFunction D} `{HC : Conversions}.
Implicit Types (fs : files D) (d : db D) (net : network).

(** [refresh_data()]: the three files are removed, or were not there. *)
Definition refresh_data : io D unit := fun _ => (Files None None None, Ok tt).

(** [get_connection()]: what [airq.db] holds. *)
Definition get_connection : io D (option (db D)) :=
  fun fs => (fs, Ok (airq_db fs)).

(** The files with [d] in [airq.db]. *)
Definition with_db d fs : files D :=
  Files (Some d) (us_zip fs) (purpleair_json fs).

(** [conn.commit()] of the statements that led to [d]. *)
Definition commit d : io D unit := fun fs => (with_db d fs, Ok tt).

(** [create_db()] on the file: a table that is there already is an
    [OperationalError]. *)
Definition create_db_io : io D unit :=
  (conn <- get_connection ;;
   match conn with
   | Some _ => lift (Raise OperationalError)
   | None => commit create_db
   end)%io.

(** [get_purpleair_data()]: the records of [purpleair.json], which is
    downloaded first when it is not there.  The file is opened for
    writing before the body of the answer is read: a body that raises
    leaves the file there, empty. *)
Definition get_purpleair_data net : io D (list dict) :=
  fun fs =>
    match purpleair_json fs with
    | Some document => (fs, document)
    | None =>
        match purpleair_com net with
        | Raise e => (fs, Raise e)
        | Ok (Raise e) =>
            (Files (airq_db fs) (us_zip fs) (Some (Raise JSONDecodeError)),
             Raise e)
        | Ok (Ok results) =>
            (Files (airq_db fs) (us_zip fs) (Some (Ok results)), Ok results)
        end
    end.

(** The start of [get_zipcodes_from_geonames()]: the archive is
    downloaded and written to [US.zip], and the lines of [US.txt] are
    read from it. *)
Definition read_geonames net : io D (list string) :=
  fun fs =>
    match geonames_org net with
    | Ok archive =>
        (Files (airq_db fs) (Some archive) (purpleair_json fs), archive)
    | Raise e => (fs, Raise e)
    end.

(** One round of the loop of [create_sensors()] on the file. *)
Definition create_sensors_body_io (now : nat -> Q) (ir : nat * dict)
    (num_created : nat) : io D nat :=
  (conn <- get_connection ;;
   r <- lift (create_sensor (now ir.1) ir.2 conn) ;;
   match r with
   | None => ret num_created
   | Some d' => commit d' ;; ret (S num_created)
   end)%io.

Definition create_sensors_io net (now : nat -> Q) : io D nat :=
  (results <- get_purpleair_data net ;;
   for_each_io (create_sensors_body_io now) (enumerate results) 0)%io.

(** One round of the loop of [create_zipcodes()] on the file: the
    generator parses the line, and the body opens the file for a record. *)
Definition create_zipcodes_body_io (line : string) (_ : unit) : io D unit :=
  (r <- lift (parse_line line) ;;
   match r with
   | None => ret tt
   | Some g =>
       conn <- get_connection ;;
       d <- lift (tables conn) ;;
       d' <- lift (create_zipcode g d) ;;
       commit d'
   end)%io.

Definition create_zipcodes_io net : io D unit :=
  (lines <- read_geonames net ;;
   for_each_io create_zipcodes_body_io lines tt)%io.

(** [generate()]. *)
Definition generate net (now : nat -> Q) : io D unit :=
  (refresh_data ;;
   create_db_io ;;
   create_sensors_io net now ;;
   create_zipcodes_io net)%io.

(** ** The rules of [hoare] *)

Lemma hoare_bind {A B : Type} (P : files D -> Prop) (c : io D A)
    (k : A -> io D B) (Q : result A -> files D -> Prop)
    (R : result B -> files D -> Prop) :
  hoare P c Q ->
  (forall a, hoare (Q (Ok a)) (k a) R) ->
  (forall e fs, Q (Raise e) fs -> R (Raise e) fs) ->
  hoare P (io_bind c k) R.
Proof.
  intros Hc Hk He fs HP. specialize (Hc fs HP). unfold io_bind.
  destruct (c fs) as [fs1 [a|e]]; cbn [fst snd] in *; [by apply Hk | by apply He].
Qed.

Lemma hoare_weaken {A : Type} (P P' : files D -> Prop) (c : io D A)
    (Q Q' : result A -> files D -> Prop) :
  hoare P c Q -> (forall fs, P' fs -> P fs) ->
  (forall r fs, Q r fs -> Q' r fs) ->
  hoare P' c Q'.
Proof. intros Hc HP HQ fs H. apply HQ, Hc, HP, H. Qed.

(** A loop keeps what every round keeps, whether the round returns or
    raises. *)
Lemma hoare_for_each {A S : Type} (I : files D -> Prop)
    (body : A -> S -> io D S) xs s :
  (forall x s, x ∈ xs -> hoare I (body x s) (fun _ => I)) ->
  hoare I (for_each_io body xs s) (fun _ => I).
Proof.
  revert s. induction xs as [|x xs IH]; intros s Hbody; [by intros fs|].
  cbn [for_each_io]. eapply hoare_bind; [apply Hbody; left | | done].
  intros s'. apply IH. intros y s1 Hy. apply Hbody. by right.
Qed.

(** ** The loops on the file and on the database *)

Lemma with_db_id d fs : airq_db fs = Some d -> with_db d fs = fs.
Proof. destruct fs. unfold with_db. simpl. by intros ->. Qed.

(** A loop on the file whose rounds are those of a loop on the database
    leaves what that loop leaves, committed. *)
Section Simulation.
Context {A S T : Type} (body_io : A -> S -> io D S)
  (body : A -> T -> result T) (tdb : T -> db D) (tvar : T -> S).
Hypothesis body_io_body : forall x t fs,
  airq_db fs = Some (tdb t) ->
  body_io x (tvar t) fs
  = match body x t with
    | Ok t' => (with_db (tdb t') fs, Ok (tvar t'))
    | Raise e => (fs, Raise e)
    end.

Lemma for_each_io_run_each xs : forall t fs,
  airq_db fs = Some (tdb t) ->
  for_each_io body_io xs (tvar t) fs
  = (with_db (tdb (run_each body xs t).1) fs,
     match (run_each body xs t).2 with
     | None => Ok (tvar (run_each body xs t).1)
     | Some e => Raise e
     end).
Proof.
  induction xs as [|x xs IH]; intros t fs Hfs; cbn [for_each_io run_each].
  { unfold ret. cbn [fst snd]. by rewrite with_db_id. }
  unfold io_bind. rewrite body_io_body by done.
  destruct (body x t) as [t'|e]; cbn [fst snd].
  - by rewrite IH.
  - by rewrite with_db_id.
Qed.

End Simulation.

Lemma create_sensors_body_io_body (now : nat -> Q) ir (s : db D * nat) fs :
  airq_db fs = Some s.1 ->
  create_sensors_body_io now ir s.2 fs
  = match create_sensors_body now ir s with
    | Ok s' => (with_db s'.1 fs, Ok s'.2)
    | Raise e => (fs, Raise e)
    end.
Proof.
  intros Hfs. unfold create_sensors_body_io, create_sensors_body, io_bind,
    get_connection, lift, commit, ret. rewrite Hfs.
  destruct (create_sensor _ _ _) as [[d'|]|e]; cbn [bind fst snd]; [done| |done].
  by rewrite with_db_id.
Qed.

Lemma create_zipcodes_body_io_body line d fs :
  airq_db fs = Some d ->
  create_zipcodes_body_io line tt fs
  = match create_zipcodes_body line d with
    | Ok d' => (with_db d' fs, Ok tt)
    | Raise e => (fs, Raise e)
    end.
Proof.
  intros Hfs. unfold create_zipcodes_body_io, create_zipcodes_body, io_bind,
    get_connection, lift, commit, ret.
  destruct (parse_line line) as [[g|]|e]; cbn [bind]; [| |done].
  - rewrite Hfs. cbn [tables]. by destruct (create_zipcode g d).
  - by rewrite with_db_id.
Qed.

(** [create_sensors()] on files where the feed was not downloaded. *)
Lemma create_sensors_io_run net (now : nat -> Q) fs d results :
  airq_db fs = Some d -> purpleair_json fs = None ->
  purpleair_com net = Ok (Ok results) ->
  create_sensors_io net now fs
  = let r := run_each (create_sensors_body now) (enumerate results) (d, 0) in
    (Files (Some r.1.1) (us_zip fs) (Some (Ok results)),
     match r.2 with None => Ok r.1.2 | Some e => Raise e end).
Proof.
  intros Hd Hj Hnet. unfold create_sensors_io, io_bind, get_purpleair_data.
  rewrite Hj, Hnet.
  by rewrite (for_each_io_run_each _ (create_sensors_body now) fst snd
                (create_sensors_body_io_body now) _ (d, 0)).
Qed.

Lemma create_zipcodes_io_run net fs d lines :
  airq_db fs = Some d -> geonames_org net = Ok (Ok lines) ->
  create_zipcodes_io net fs
  = let r := run_each create_zipcodes_body lines d in
    (Files (Some r.1) (Some (Ok lines)) (purpleair_json fs),
     match r.2 with None => Ok tt | Some e => Raise e end).
Proof.
  intros Hd Hnet. unfold create_zipcodes_io, io_bind, read_geonames.
  rewrite Hnet.
  by rewrite (for_each_io_run_each (T := db D) _ create_zipcodes_body id
                (fun _ => tt) create_zipcodes_body_io_body _ d).
Qed.

(** ** What the file holds *)

(** [airq.db] is there, and [P] holds of its tables. *)
Definition db_holds (P : db D -> Prop) fs : Prop :=
  exists d, airq_db fs = Some d /\ P d.

(** The tables that the loop of [create_sensors] leaves after some of its
    rounds on the records [results]. *)
Definition sensors_loaded (now : nat -> Q) results d : Prop :=
  exists n, sensors_inv now results create_db (d, n).

(** Every row of [sensors] is made from an accepted record of the feed
    that the server sent. *)
Definition from_feed net (now : nat -> Q) d : Prop :=
  Forall (fun row => exists results,
            purpleair_com net = Ok (Ok results)
            /\ row_of_feed now results row)
    (db_sensors d).

Lemma sensors_loaded_loaded (now : nat -> Q) results d :
  sensors_loaded now results d ->
  loaded d /\ db_zipcodes d = []
  /\ Forall (row_of_feed now results) (db_sensors d).
Proof.
  intros [n [Hok (Hz & Hc & Hl & _) (new & Hp & _ & Hnew)]]. cbn [fst snd] in *.
  split; [by apply loaded_sensors_only|]. split; [done|].
  cbn [create_db db_sensors] in Hp. by rewrite Hp, app_nil_r.
Qed.

(** The tables of [create_db] satisfy the invariant of the load. *)
Lemma create_db_holds_loaded net (now : nat -> Q) fs :
  airq_db fs = Some create_db ->
  db_holds (fun d => loaded d /\ from_feed net now d) fs.
Proof.
  intros Hd. exists create_db. split; [done|]. split; [|constructor].
  by apply loaded_sensors_only; [apply create_db_ok|..].
Qed.

Lemma create_sensors_body_io_spec (now : nat -> Q) results ir n :
  ir ∈ enumerate results ->
  hoare (db_holds (sensors_loaded now results))
    (create_sensors_body_io now ir n)
    (fun _ => db_holds (sensors_loaded now results)).
Proof.
  destruct ir as [i result].
  intros Hi%elem_of_enumerate fs (d & Hd & m & Hinv). unfold hoare.
  pose proof (create_sensors_body_io_body now (i, result) (d, n) fs Hd) as E.
  cbn [fst snd] in E. rewrite E. clear E.
  destruct (create_sensors_body now (i, result) (d, n)) as [[d' n']|e] eqn:Hb;
    cbn [fst snd]; [|exists d; split; [done | by exists m]].
  exists d'. split; [done|].
  apply create_sensors_body_inv in Hb as [(_ & -> & _)|[Hc _]]; [by exists m|].
  exists (S m). apply (sensors_inv_step now results create_db i result (d, m));
    [done..|].
  unfold create_sensors_body. cbn [fst snd]. by rewrite Hc.
Qed.

Lemma create_sensors_io_spec net (now : nat -> Q) :
  hoare (fun fs => airq_db fs = Some create_db /\ purpleair_json fs = None)
    (create_sensors_io net now)
    (fun _ => db_holds (fun d => loaded d /\ from_feed net now d)).
Proof.
  intros fs [Hd Hj]. unfold create_sensors_io, io_bind, get_purpleair_data.
  rewrite Hj. destruct (purpleair_com net) as [[results|e]|e] eqn:Hnet.
  - pose proof (hoare_for_each (db_holds (sensors_loaded now results))
      (create_sensors_body_io now) (enumerate results) 0) as Hloop.
    destruct (Hloop (fun ir n => create_sensors_body_io_spec now results ir n)
               (Files (airq_db fs) (us_zip fs) (Some (Ok results))))
      as (d & Hd' & Hs%sensors_loaded_loaded).
    { exists create_db. split; [done|]. exists 0. by apply sensors_inv_start,
        create_db_ok. }
    exists d. split; [done|]. destruct Hs as (Hl & _ & Hrows).
    split; [done|]. eapply Forall_impl; [exact Hrows|]. by exists results.
  - apply create_db_holds_loaded, Hd.
  - apply create_db_holds_loaded, Hd.
Qed.

Lemma create_zipcodes_body_io_spec (P : list sensors_row -> Prop) line :
  hoare (db_holds (fun d => loaded d /\ P (db_sensors d)))
    (create_zipcodes_body_io line tt)
    (fun _ => db_holds (fun d => loaded d /\ P (db_sensors d))).
Proof.
  intros fs (d & Hd & Hl & HP). unfold hoare.
  rewrite (create_zipcodes_body_io_body line d fs Hd).
  destruct (create_zipcodes_body line d) as [d'|e] eqn:Hb; cbn [fst snd];
    [|by exists d].
  destruct (create_zipcodes_body_loaded _ _ _ Hl Hb) as [Hl' Hs].
  exists d'. by rewrite Hs.
Qed.

Lemma create_zipcodes_io_spec (P : list sensors_row -> Prop) net :
  hoare (db_holds (fun d => loaded d /\ P (db_sensors d)))
    (create_zipcodes_io net)
    (fun _ => db_holds (fun d => loaded d /\ P (db_sensors d))).
Proof.
  unfold create_zipcodes_io.
  apply (hoare_bind _ _ _
           (fun _ => db_holds (fun d => loaded d /\ P (db_sensors d))));
    [|intros lines|done].
  - intros fs HI. unfold read_geonames. by destruct (geonames_org net).
  - apply hoare_for_each. intros line [] _.
    apply create_zipcodes_body_io_spec.
Qed.

Lemma generate_unfold net (now : nat -> Q) fs :
  generate net now fs
  = (create_sensors_io net now ;; create_zipcodes_io net)%io
      (Files (Some create_db) None None).
Proof. reflexivity. Qed.

(** C2: whatever the servers answer and whatever files an earlier run has
    left, and whether [generate] returns or raises, [airq.db] holds
    tables that satisfy the invariant of the load, and every row of
    [sensors] is made from an accepted record of the feed. *)
Theorem generate_leaves_loaded net (now : nat -> Q) fs :
  db_holds (fun d => loaded d /\ from_feed net now d) (generate net now fs).1.
Proof.
  rewrite generate_unfold.
  apply (hoare_bind _ _ _ _ (fun _ => db_holds _)
           (create_sensors_io_spec net now)); [|done|done].
  intros _. apply (create_zipcodes_io_spec (fun rows => Forall _ rows)).
Qed.

(** When the feed arrives and [create_sensors] returns on it, what is
    left of the run is [create_zipcodes] on the files it has written. *)
Lemma generate_sensors_Ok net (now : nat -> Q) fs results d1 n :
  purpleair_com net = Ok (Ok results) ->
  create_sensors now results create_db = Ok (d1, n) ->
  generate net now fs
  = create_zipcodes_io net (Files (Some d1) None (Some (Ok results)))
    /\ loaded d1 /\ db_zipcodes d1 = [].
Proof.
  intros Hnet Hs. rewrite generate_unfold. unfold io_bind at 1.
  rewrite (create_sensors_io_run net now _ create_db results) by done.
  assert (sensors_loaded now results d1) as (Hl & Hz & _)%sensors_loaded_loaded
    by (exists n; by apply create_sensors_inv; [apply create_db_ok|]).
  apply run_each_None in Hs. cbv zeta. unfold create_sensors in Hs.
  by rewrite Hs.
Qed.

(** C3: when both servers answer, every accepted record is taken by the
    table and the lines parse to records with coordinates that have a key
    and with distinct postal codes, [generate] returns, and leaves the
    two downloads and the database of [load_geonames] on the sensors of
    [create_sensors]. *)
Theorem generate_run net (now : nat -> Q) fs results d1 n lines gs :
  purpleair_com net = Ok (Ok results) ->
  create_sensors now results create_db = Ok (d1, n) ->
  geonames_org net = Ok (Ok lines) ->
  parsed lines gs ->
  Forall (fun g => valid_coordinate (geoname_latitude g) (geoname_longitude g)
                   = true) gs ->
  NoDup (geoname_zipcode <$> gs) ->
  generate net now fs
  = (Files (Some (load_geonames gs d1)) (Some (Ok lines)) (Some (Ok results)),
     Ok tt).
Proof.
  intros Hnet Hs Hgeo Hp Hv Hnd.
  destruct (generate_sensors_Ok net now fs results d1 n Hnet Hs)
    as (-> & Hl & Hz).
  rewrite (create_zipcodes_io_run net _ d1 lines) by done.
  assert (create_zipcodes lines d1 = Ok (load_geonames gs d1)) as Hrun
    by (rewrite (create_zipcodes_parsed _ _ _ Hp);
        apply for_each_create_zipcode; by rewrite ?Hz).
  apply run_each_None in Hrun. cbv zeta. by rewrite Hrun.
Qed.

(** C20: a line that raises ends the run, and the postal codes of the lines
    before it stay in [airq.db] with their links: every round of the loop
    commits. *)
Theorem generate_bad_line net (now : nat -> Q) fs results d1 n lines1 line
    lines2 d2 e :
  purpleair_com net = Ok (Ok results) ->
  create_sensors now results create_db = Ok (d1, n) ->
  geonames_org net = Ok (Ok (lines1 ++ line :: lines2)) ->
  create_zipcodes lines1 d1 = Ok d2 ->
  create_zipcodes_body line d2 = Raise e ->
  generate net now fs
  = (Files (Some d2) (Some (Ok (lines1 ++ line :: lines2)))
       (Some (Ok results)),
     Raise e).
Proof.
  intros Hnet Hs Hgeo H1 Hline.
  destruct (generate_sensors_Ok net now fs results d1 n Hnet Hs) as (-> & _).
  rewrite (create_zipcodes_io_run net _ d1 (lines1 ++ line :: lines2)) by done.
  assert (run_each create_zipcodes_body (lines1 ++ line :: lines2) d1
          = (d2, Some e)) as Hrun
    by (apply run_each_Some; by exists lines1, line, lines2).
  cbv zeta. by rewrite Hrun.
Qed.

(** C21: when the body that the server of the feed sends cannot be read,
    [generate] raises what [resp.json()["results"]] raised and leaves the
    empty tables and an empty [purpleair.json], which was opened for
    writing before the body was read.  Until the file is removed,
    [create_sensors()] downloads nothing and raises [JSONDecodeError],
    whatever the server would answer. *)
Theorem generate_bad_feed net (now : nat -> Q) fs e :
  purpleair_com net = Ok (Raise e) ->
  let after := Files (Some create_db) None (Some (Raise JSONDecodeError)) in
  generate net now fs = (after, Raise e)
  /\ forall net' now',
       create_sensors_io net' now' after = (after, Raise JSONDecodeError).
Proof.
  intros Hnet. split; [|done]. rewrite generate_unfold.
  unfold io_bind, create_sensors_io, io_bind, get_purpleair_data.
  cbn [purpleair_json airq_db us_zip]. by rewrite Hnet.
Qed.

End Generate.

(** ** A run *)

Section Run.
#[local] Existing Instance decimal_literals.

(** The servers send the feed of eight records and the three lines. *)
Definition sf_network : network :=
  Network (Ok (Ok sf_feed)) (Ok (Ok us_lines)).

(** What an earlier run has left. *)
Definition old_files : files Q :=
  Files (Some sf_only_db) (Some (Raise BadZipFile)) (Some (Ok [])).

Lemma generate_run_witness :
  generate sf_network feed_now old_files
  = (Files (Some (load_geonames [sf_geoname; oakland_geoname] sf_feed_db))
       (Some (Ok us_lines)) (Some (Ok sf_feed)), Ok tt).
Proof.
  apply (generate_run sf_network feed_now old_files sf_feed sf_feed_db 3
           us_lines [sf_geoname; oakland_geoname] eq_refl sf_feed_run_Ok
           eq_refl us_lines_parsed).
  - by repeat constructor.
  - refine (bool_decide_unpack _ _). vm_compute. exact I.
Defined.

(** The server of the feed sends a document without [results]. *)
Definition no_results_network : network :=
  Network (Ok (Raise KeyError)) (Ok (Ok us_lines)).

Lemma generate_bad_feed_witness :
  let after : files Q :=
    Files (Some create_db) None (Some (Raise JSONDecodeError)) in
  generate no_results_network feed_now old_files = (after, Raise KeyError)
  /\ forall net' now',
       create_sensors_io net' now' after = (after, Raise JSONDecodeError).
Proof.
  exact (generate_bad_feed no_results_network feed_now old_files KeyError
           eq_refl).
Defined.

(** The second line is empty. *)
Definition bad_network : network :=
  Network (Ok (Ok sf_feed))
    (Ok (Ok ([sf_line] ++ ""%string :: [oakland_line]))).

Lemma generate_bad_line_witness :
  generate bad_network feed_now old_files
  = (Files (Some sf_only_db)
       (Some (Ok ([sf_line] ++ ""%string :: [oakland_line])))
       (Some (Ok sf_feed)),
     Raise IndexError).
Proof.
  apply (generate_bad_line bad_network feed_now old_files sf_feed sf_feed_db 3
           [sf_line] "" [oakland_line] sf_only_db IndexError eq_refl
           sf_feed_run_Ok eq_refl sf_only_run_Ok).
  vm_compute. reflexivity.
Defined.

End Run.
